(** * The chat server's handlers over a relational store

    A shallow embedding of [serverRPC.py]: the [users] and [messages] tables
    are lists of rows, every SQL statement of the server is a function on
    the store, the unary handlers return a response and the next store, and
    the streaming handlers ([CheckMessages], [DeleteLastMessage],
    [DeactivateAccount]) consume a list of client turns and produce a trace
    of yielded turns and executed write statements.

    Modelling conventions.
    - Strings are [string]s of 8-bit characters read as ASCII text:
      [str.strip], [str.lower], [str.isupper] and [str.isdigit] are given
      on the ASCII range, characters above 127 are left unclassified.
    - Column comparison in a [WHERE] clause is equality of strings.
    - The order of rows returned by a [SELECT] without [ORDER BY] is the
      order of the table, which is insertion order; statements about such
      results are made through membership.
    - Statements run against a reachable database: the [except] branches
      of the handlers are modelled only where a claim speaks about them
      ([SearchUsers]). *)

From Stdlib Require Import String Ascii List ZArith Lia Bool Arith PeanoNat.
From Stdlib Require Import Permutation Sorting.Sorted DecimalString.
Import ListNotations.

Open Scope list_scope.
Open Scope string_scope.
Open Scope nat_scope.

(* ================================================================= *)
(** ** Python string operations used by the server *)

Module Py.

(** [c.isspace()] on ASCII: TAB..CR, FS..US and the space. *)
Definition isspace (c : ascii) : bool :=
  let n := nat_of_ascii c in
  ((9 <=? n) && (n <=? 13)) || ((28 <=? n) && (n <=? 32)).

Definition isupper (c : ascii) : bool :=
  let n := nat_of_ascii c in (65 <=? n) && (n <=? 90).

Definition isdigit (c : ascii) : bool :=
  let n := nat_of_ascii c in (48 <=? n) && (n <=? 57).

Definition lower_char (c : ascii) : ascii :=
  if isupper c then ascii_of_nat (nat_of_ascii c + 32) else c.

Fixpoint lower (s : string) : string :=
  match s with
  | EmptyString => EmptyString
  | String c s' => String (lower_char c) (lower s')
  end.

Fixpoint lstrip (s : string) : string :=
  match s with
  | EmptyString => EmptyString
  | String c s' => if isspace c then lstrip s' else s
  end.

Fixpoint rstrip (s : string) : string :=
  match s with
  | EmptyString => EmptyString
  | String c s' =>
      match rstrip s' with
      | EmptyString => if isspace c then EmptyString else String c EmptyString
      | r => String c r
      end
  end.

(** [s.strip()] *)
Definition strip (s : string) : string := rstrip (lstrip s).

(** [any(p(c) for c in s)] *)
Fixpoint any (p : ascii -> bool) (s : string) : bool :=
  match s with
  | EmptyString => false
  | String c s' => p c || any p s'
  end.

(** [s.startswith(p)] *)
Definition startswith (s p : string) : bool := String.prefix p s.

(** [sub in s] *)
Fixpoint contains (sub s : string) : bool :=
  String.prefix sub s ||
  match s with
  | EmptyString => false
  | String _ s' => contains sub s'
  end.

(** [s.split(" ", 1)]: the text before the first space and the text
    after it, or the whole text alone when it has no space. *)
Fixpoint split_space_1 (s : string) : list string :=
  match s with
  | EmptyString => [EmptyString]
  | String c s' =>
      if Ascii.eqb c " "%char then [EmptyString; s']
      else match split_space_1 s' with
           | h :: t => String c h :: t
           | [] => [String c EmptyString]
           end
  end.

(** [s[1:]] *)
Definition drop_first (s : string) : string :=
  match s with
  | EmptyString => EmptyString
  | String _ s' => s'
  end.

(** [str(n)] for a non-negative integer *)
Definition str_of_nat (n : nat) : string :=
  NilEmpty.string_of_uint (Nat.to_uint n).

(** The line feed of the ["\n"] escapes. *)
Definition nl : string := String (ascii_of_nat 10) EmptyString.

(** [sep.join(l)] *)
Fixpoint join (sep : string) (l : list string) : string :=
  match l with
  | [] => EmptyString
  | [x] => x
  | x :: rest => x ++ sep ++ join sep rest
  end.

(** Membership of a character in a string, as a proposition. *)
Fixpoint In_str (c : ascii) (s : string) : Prop :=
  match s with
  | EmptyString => False
  | String c' s' => c' = c \/ In_str c s'
  end.

End Py.

(* ================================================================= *)
(** ** The store: tables [users] and [messages] *)

(** A [DATETIME] value and its rendering by
    [strftime("%Y-%m-%d %H:%M:%S")] (years of four digits, as the column
    type has them). *)
Record DateTime := mkDateTime {
  year : nat; month : nat; day : nat;
  hour : nat; minute : nat; second : nat
}.

Definition pad2 (n : nat) : string :=
  if n <? 10 then "0" ++ Py.str_of_nat n else Py.str_of_nat n.

Definition strftime (d : DateTime) : string :=
  Py.str_of_nat (year d) ++ "-" ++ pad2 (month d) ++ "-" ++ pad2 (day d)
  ++ " " ++ pad2 (hour d) ++ ":" ++ pad2 (minute d) ++ ":" ++ pad2 (second d).

(** [users(username PK, password, active)] *)
Record UserRow := mkUser {
  u_username : string;
  u_password : string;
  u_active : bool
}.

(** [messages(messageid PK AUTO_INCREMENT, receiver, sender, message,
    datetime, isread)] *)
Record MessageRow := mkMessage {
  messageid : Z;
  receiver : string;
  sender : string;
  message : string;
  datetime : DateTime;
  isread : bool
}.

Record Store := mkStore {
  users : list UserRow;
  messages : list MessageRow;
  next_messageid : Z   (* the AUTO_INCREMENT counter of [messages] *)
}.

(** The primary keys: message ids are pairwise distinct and below the
    counter. *)
Definition store_wf (db : Store) : Prop :=
  NoDup (map messageid (messages db)) /\
  Forall (fun m => (messageid m < next_messageid db)%Z) (messages db).

(** A query parameter: a Python string, or [None], which the driver sends
    as [NULL] and which no column value equals. *)
Definition sql_eq (col : string) (param : option string) : bool :=
  match param with
  | Some p => String.eqb col p
  | None => false
  end.

(** [SELECT COUNT( * ) AS cnt FROM users WHERE username=%s] and the test
    [row['cnt'] > 0]. *)
Definition checkRealUsername (db : Store) (username : string) : bool :=
  0 <? length (filter (fun r => String.eqb (u_username r) username) (users db)).

(** [INSERT INTO users (username, password, active) VALUES (%s, %s, 1)] *)
Definition insert_user (db : Store) (username hashed : string) : Store :=
  mkStore (users db ++ [mkUser username hashed true])%list (messages db)
          (next_messageid db).

(** [UPDATE users SET active=%s WHERE username=%s] *)
Definition update_active (db : Store) (username : string) (active : bool) : Store :=
  mkStore (map (fun r => if String.eqb (u_username r) username
                         then mkUser (u_username r) (u_password r) active
                         else r) (users db))
          (messages db) (next_messageid db).

(** [SELECT password FROM users WHERE username=%s] and [cur.fetchone()] *)
Definition select_password (db : Store) (username : string) : option string :=
  hd_error (map u_password
    (filter (fun r => String.eqb (u_username r) username) (users db))).

(** [INSERT INTO messages (receiver, sender, message, isread)
     VALUES (%s, %s, %s, 0)]; the id comes from the counter and the
    timestamp from the database clock [now]. *)
Definition insert_message (db : Store) (now : DateTime)
    (target sndr body : string) : Store :=
  mkStore (users db)
          (messages db ++
             [mkMessage (next_messageid db) target sndr body now false])%list
          (next_messageid db + 1).

(** The predicate [receiver=%s AND isread=0]. *)
Definition unread_for (username : option string) (m : MessageRow) : bool :=
  sql_eq (receiver m) username && negb (isread m).

(** [SELECT COUNT( * ) AS cnt FROM messages WHERE receiver=%s AND isread=0] *)
Definition select_unread_count (db : Store) (username : string) : nat :=
  length (filter (unread_for (Some username)) (messages db)).

(** [SELECT sender, COUNT( * ) as num FROM messages
     WHERE receiver=%s AND isread=0 GROUP BY sender]: one row per sender,
    in the order in which the senders first occur. *)
Fixpoint bump (s : string) (acc : list (string * nat)) : list (string * nat) :=
  match acc with
  | [] => [(s, 1)]
  | (k, n) :: acc' =>
      if String.eqb k s then (k, S n) :: acc' else (k, n) :: bump s acc'
  end.

Definition select_unread_senders (db : Store) (username : option string)
    : list (string * nat) :=
  fold_left (fun acc m => bump (sender m) acc)
            (filter (unread_for username) (messages db)) [].

(** [ORDER BY messageid]: a stable insertion sort on the id. *)
Fixpoint insert_by_id (m : MessageRow) (l : list MessageRow) : list MessageRow :=
  match l with
  | [] => [m]
  | x :: l' =>
      if (messageid m <=? messageid x)%Z then m :: l
      else x :: insert_by_id m l'
  end.

Definition order_by_messageid (l : list MessageRow) : list MessageRow :=
  fold_right insert_by_id [] l.

(** The predicate [receiver=%s AND sender=%s AND isread=0]. *)
Definition unread_from (username : option string) (chosen_sender : string)
    (m : MessageRow) : bool :=
  sql_eq (receiver m) username && String.eqb (sender m) chosen_sender
  && negb (isread m).

(** [SELECT messageid, sender, message, datetime FROM messages
     WHERE receiver=%s AND sender=%s AND isread=0 ORDER BY messageid] *)
Definition select_unread_from (db : Store) (username : option string)
    (chosen_sender : string) : list MessageRow :=
  order_by_messageid (filter (unread_from username chosen_sender) (messages db)).

(** The predicate [sender=%s AND isread=0]. *)
Definition unread_sent_by (username : string) (m : MessageRow) : bool :=
  String.eqb (sender m) username && negb (isread m).

(** [SELECT messageid FROM messages WHERE sender=%s AND isread=0
     ORDER BY messageid DESC LIMIT 1] and [cur.fetchone()]. *)
Definition select_last_unread_sent (db : Store) (username : string) : option Z :=
  hd_error (rev (map messageid
    (order_by_messageid (filter (unread_sent_by username) (messages db))))).

(** The write statements of the streaming handlers. *)
Inductive Stmt : Type :=
| MarkRead (batch_ids : list Z)       (* UPDATE messages SET isread=1 WHERE messageid IN (...) *)
| DeleteMessage (last_id : Z)         (* DELETE FROM messages WHERE messageid=%s *)
| DeleteMessagesFrom (username : string)  (* DELETE FROM messages WHERE sender=%s *)
| DeleteUser (username : string).     (* DELETE FROM users WHERE username=%s *)

Definition set_isread (m : MessageRow) : MessageRow :=
  mkMessage (messageid m) (receiver m) (sender m) (message m) (datetime m) true.

Definition id_in (ids : list Z) (m : MessageRow) : bool :=
  existsb (Z.eqb (messageid m)) ids.

Definition mark_read (ids : list Z) (db : Store) : Store :=
  mkStore (users db)
          (map (fun m => if id_in ids m then set_isread m else m) (messages db))
          (next_messageid db).

Definition exec (s : Stmt) (db : Store) : Store :=
  match s with
  | MarkRead ids => mark_read ids db
  | DeleteMessage last_id =>
      mkStore (users db)
              (filter (fun m => negb (messageid m =? last_id)%Z) (messages db))
              (next_messageid db)
  | DeleteMessagesFrom username =>
      mkStore (users db)
              (filter (fun m => negb (String.eqb (sender m) username)) (messages db))
              (next_messageid db)
  | DeleteUser username =>
      mkStore (filter (fun r => negb (String.eqb (u_username r) username)) (users db))
              (messages db) (next_messageid db)
  end.

(** The statements of one transaction, run in order before [db.commit()]. *)
Definition exec_all (l : list Stmt) (db : Store) : Store :=
  fold_left (fun d s => exec s d) l db.

(** What a streaming handler does, in order: a turn yielded to the client,
    or a transaction committed to the store. *)
Inductive Event (R : Type) : Type :=
| Yield (r : R)
| Commit (stmts : list Stmt).
Arguments Yield {R} r.
Arguments Commit {R} stmts.

Definition yields {R} (tr : list (Event R)) : list R :=
  flat_map (fun e => match e with Yield r => [r] | Commit _ => [] end) tr.

Definition commits {R} (tr : list (Event R)) : list (list Stmt) :=
  flat_map (fun e => match e with Yield _ => [] | Commit l => [l] end) tr.

(** The store after the transactions of a trace. *)
Definition replay {R} (tr : list (Event R)) (db : Store) : Store :=
  fold_left (fun d l => exec_all l d) (commits tr) db.

(* ================================================================= *)
(** ** Messages of the RPC surface *)

Record Response := mkResponse {
  command : string;
  server_message : string
}.

Record RegisterRequest := mkRegisterRequest {
  reg_username : string;
  reg_password : string;
  reg_confirm_password : string
}.

Record LoginRequest := mkLoginRequest {
  login_username : string;
  login_password : string
}.

Record LogoffRequest := mkLogoffRequest { logoff_username : string }.

Record GeneralMessage := mkGeneralMessage {
  gm_command : string;
  gm_message : string
}.

Record SendMessageResponse := mkSendMessageResponse {
  sm_success : bool;
  sm_server_message : string
}.

Record SearchRequest := mkSearchRequest { search_username : string }.

Record SearchResponse := mkSearchResponse {
  sr_success : bool;
  sr_usernames : list string;
  sr_server_message : string
}.

Record CheckMessagesRequest := mkCheckMessagesRequest {
  req_username : string;
  req_choice : string;
  req_sender : string
}.

Record CheckMessagesResponse := mkCheckMessagesResponse {
  cm_command : string;
  cm_server_message : string;
  cm_sender : string;
  cm_message_body : string
}.

(** The request of [DeleteLastMessage] and [DeactivateAccount]. *)
Record ConfirmRequest := mkConfirmRequest {
  conf_username : string;
  conf_confirmation : string
}.

(** What a streaming handler has done with a list of client turns:
    [consumed] counts the turns taken from the request iterator, [broke]
    tells whether the handler left its loop by [break] (rather than
    because the iterator was exhausted), [final] is the store it leaves. *)
Record Run (R : Type) := mkRun {
  trace : list (Event R);
  consumed : nat;
  broke : bool;
  final : Store
}.
Arguments mkRun {R}.
Arguments trace {R}.
Arguments consumed {R}.
Arguments broke {R}.
Arguments final {R}.

(* ================================================================= *)
(** ** Immediate operations *)

Definition special_characters : list ascii :=
  ["_"%char; "@"%char; "$"%char; "#"%char; "!"%char].

Definition is_special (c : ascii) : bool :=
  existsb (Ascii.eqb c) special_characters.

Definition checkValidPassword (password : string) : bool :=
  if String.length password <? 7 then false
  else
    let has_upper := Py.any Py.isupper password in
    let has_digit := Py.any Py.isdigit password in
    let has_special := Py.any is_special password in
    has_upper && has_digit && has_special.

Section Credentials.

(** [bcrypt.hashpw(password, salt)]; the salt is what [bcrypt.gensalt()]
    returned for this call. *)
Variable hashpw : string -> string -> string.

Definition hashPass (salt password : string) : string := hashpw password salt.

Definition Register (db : Store) (salt : string) (request : RegisterRequest)
    : Response * Store :=
  let reg_username := Py.strip (reg_username request) in
  let reg_password := Py.strip (reg_password request) in
  let confirm_password := Py.strip (reg_confirm_password request) in
  if String.eqb reg_username "" || String.eqb reg_password ""
     || String.eqb confirm_password "" then
    (mkResponse "1" "Registration canceled: All fields are required.", db)
  else if checkRealUsername db reg_username then
    (mkResponse "1" "Username taken. Please choose another.", db)
  else if negb (checkValidPassword reg_password) then
    (mkResponse "1"
       "Invalid password: Must be >=7 chars, include uppercase, digit, and special char.",
     db)
  else if negb (String.eqb reg_password confirm_password) then
    (mkResponse "1" "Passwords do not match.", db)
  else
    let hashed := hashPass salt reg_password in
    (mkResponse "1" "Registration successful. You are now logged in!",
     insert_user db reg_username hashed).

(** [bcrypt.checkpw(plain_text, stored_hash)] *)
Variable checkpw : string -> string -> bool.

Definition checkRealPassword (db : Store) (username plain_text : string) : bool :=
  match select_password db username with
  | None => false
  | Some stored_hash => checkpw plain_text stored_hash
  end.

Definition Login (db : Store) (request : LoginRequest) : Response * Store :=
  let username := Py.strip (login_username request) in
  let password := Py.strip (login_password request) in
  if negb (checkRealUsername db username) then
    (mkResponse "2" "User not found.", db)
  else if negb (checkRealPassword db username password) then
    (mkResponse "2" "Incorrect password.", db)
  else
    (mkResponse "2" ("Welcome, " ++ username ++ "!"),
     update_active db username true).

End Credentials.

Definition Logoff (db : Store) (request : LogoffRequest) : Response * Store :=
  let username := Py.strip (logoff_username request) in
  if String.eqb username "" then
    (mkResponse "logoff" "No username provided.", db)
  else
    (mkResponse "logoff" (username ++ " has been logged off."),
     update_active db username false).

(** [dict(context.invocation_metadata()).get(key, default)]: of several
    pairs with one key the last one stays in the dict. *)
Fixpoint md_get (md : list (string * string)) (key default : string) : string :=
  match md with
  | [] => default
  | (k, v) :: rest => md_get rest key (if String.eqb k key then v else default)
  end.

Definition SendMessage (db : Store) (now : DateTime)
    (invocation_metadata : list (string * string)) (request : GeneralMessage)
    : SendMessageResponse * Store :=
  let full_text := Py.strip (gm_message request) in
  let sender := md_get invocation_metadata "username" "unknown" in
  if negb (Py.startswith full_text "@") then
    (mkSendMessageResponse false
       "Message must start with '@username' for a direct message.", db)
  else
    let parts := Py.split_space_1 full_text in
    if length parts <? 2 then
      (mkSendMessageResponse false "Invalid format. Use '@username message'.", db)
    else
      let target_username := Py.drop_first (nth 0 parts "") in
      let message := nth 1 parts "" in
      if negb (checkRealUsername db target_username) then
        (mkSendMessageResponse false "Recipient does not exist.", db)
      else
        (mkSendMessageResponse true "",
         insert_message db now target_username sender message).

(** [SearchUsers]; [conn] is [None] when a statement of the [try] block
    raises (the store cannot be reached or read). *)
Definition SearchUsers (conn : option Store) (request : SearchRequest)
    : SearchResponse :=
  let username := Py.strip (search_username request) in
  match conn with
  | Some db =>
      let rows := map u_username (users db) in
      let all_users := filter (fun r => negb (String.eqb r username)) rows in
      mkSearchResponse true all_users "User list retrieved."
  | None => mkSearchResponse false [] "Error searching users."
  end.

(* ================================================================= *)
(** ** The unread triage conversation: [CheckMessages] *)

(** [stage]: 0 = await username, 1 = await read/skip, 2 = await sender. *)
Inductive Stage : Type := AwaitUsername | AwaitChoice | AwaitSender.

(** The local variables of the generator that live across turns;
    [username] is [None] until the first turn assigns it. *)
Record Locals := mkLocals {
  username : option string;
  stage : Stage
}.

(** How an iteration of [for req in request_iterator] ends. *)
Inductive Control : Type := Continue | Break.

Definition say (msg : string) : CheckMessagesResponse :=
  mkCheckMessagesResponse "checkmessages" msg "" "".

Definition batch_size : nat := 5.

(** [range(start, stop, step)], by counting up while below [stop]. *)
Fixpoint range_from (fuel start stop step : nat) : list nat :=
  match fuel with
  | 0 => []
  | S fuel' =>
      if start <? stop then start :: range_from fuel' (start + step) stop step
      else []
  end.

Definition range (start stop step : nat) : list nat :=
  range_from stop start stop step.

(** [l[i:j]] *)
Definition slice {A} (l : list A) (i j : nat) : list A :=
  firstn (j - i) (skipn i l).

(** The batches [msgs[i:i+batch_size]] for [i] in
    [range(0, len(msgs), batch_size)]. *)
Definition batches (msgs : list MessageRow) : list (list MessageRow) :=
  map (fun i => slice msgs i (i + batch_size)) (range 0 (length msgs) batch_size).

(** The turn that delivers one message. *)
Definition delivery (m : MessageRow) : CheckMessagesResponse :=
  let ts := strftime (datetime m) in
  mkCheckMessagesResponse "checkmessages"
    (ts ++ " " ++ sender m ++ ": " ++ message m) (sender m) (message m).

Definition batch_marked : CheckMessagesResponse :=
  say "(This batch marked as read.)".

Definition done_reading : CheckMessagesResponse :=
  say "Done reading messages from this sender.".

(** One pass of the inner loops over a batch: a turn per message, the
    committed update of the batch's ids, the confirmation turn. *)
Definition deliver_batch (batch : list MessageRow)
    : list (Event CheckMessagesResponse) :=
  (map (fun m => Yield (delivery m)) batch
   ++ [Commit [MarkRead (map messageid batch)]; Yield batch_marked])%list.

Definition unread_prompt (unread_count : nat) : CheckMessagesResponse :=
  say ("You have " ++ Py.str_of_nat unread_count ++ " unread messages." ++ Py.nl
       ++ "Type '1' to read them, or '2' to skip.").

Definition senders_prompt (senders_info : list (string * nat))
    : CheckMessagesResponse :=
  let senders_str :=
    Py.join ", " (map (fun r => fst r ++ "(" ++ Py.str_of_nat (snd r) ++ ")")
                      senders_info) in
  say ("Unread from: " ++ senders_str ++ Py.nl
       ++ "Type the sender's name to read those messages.").

(** The body of the [for] loop: the events of this iteration, how it
    ends, the locals and the store after it. *)
Definition loop_body (db : Store) (loc : Locals) (req : CheckMessagesRequest)
    : list (Event CheckMessagesResponse) * Control * Locals * Store :=
  match stage loc with
  | AwaitUsername =>
      let username := Py.strip (req_username req) in
      let loc := mkLocals (Some username) (stage loc) in
      if String.eqb username "" then
        ([Yield (say "No username provided. Aborting.")], Break, loc, db)
      else
        let unread_count := select_unread_count db username in
        if unread_count =? 0 then
          ([Yield (say "You have 0 unread messages.")], Break, loc, db)
        else
          ([Yield (unread_prompt unread_count)], Continue,
           mkLocals (Some username) AwaitChoice, db)
  | AwaitChoice =>
      let choice := Py.strip (req_choice req) in
      if String.eqb choice "2" then
        ([Yield (say "Skipping reading messages.")], Break, loc, db)
      else if String.eqb choice "1" then
        let senders_info := select_unread_senders db (username loc) in
        match senders_info with
        | [] => ([Yield (say "No unread messages found.")], Break, loc, db)
        | _ :: _ =>
            ([Yield (senders_prompt senders_info)], Continue,
             mkLocals (username loc) AwaitSender, db)
        end
      else
        ([Yield (say "Invalid choice. Please type '1' or '2'.")], Continue, loc, db)
  | AwaitSender =>
      let chosen_sender := Py.strip (req_sender req) in
      if String.eqb chosen_sender "" then
        ([Yield (say "Please provide a valid sender name.")], Continue, loc, db)
      else
        let msgs := select_unread_from db (username loc) chosen_sender in
        match msgs with
        | [] =>
            ([Yield (say ("No unread messages from " ++ chosen_sender ++ "."))],
             Break, loc, db)
        | _ :: _ =>
            let tr := (flat_map deliver_batch (batches msgs)
                       ++ [Yield done_reading])%list in
            (tr, Break, loc, replay tr db)
        end
  end.

(** [for req in request_iterator: ...] from given locals. *)
Fixpoint for_loop (db : Store) (loc : Locals) (reqs : list CheckMessagesRequest)
    : Run CheckMessagesResponse * Locals :=
  match reqs with
  | [] => (mkRun [] 0 false db, loc)
  | req :: rest =>
      match loop_body db loc req with
      | (tr, Break, loc', db') => (mkRun tr 1 true db', loc')
      | (tr, Continue, loc', db') =>
          let '(r, loc'') := for_loop db' loc' rest in
          (mkRun (tr ++ trace r)%list (S (consumed r)) (broke r) (final r), loc'')
      end
  end.

Definition CheckMessages (db : Store) (request_iterator : list CheckMessagesRequest)
    : Run CheckMessagesResponse :=
  fst (for_loop db (mkLocals None AwaitUsername) request_iterator).

(* ================================================================= *)
(** ** The confirmation conversations *)

Definition DeleteLastMessage (db : Store) (request_iterator : list ConfirmRequest)
    : Run Response :=
  let prompt := Yield (mkResponse "delete"
    "Are you sure you want to delete your last unread message? (yes/no)") in
  match request_iterator with
  | [] => mkRun [prompt] 0 false db
  | req :: _ =>
      let username := Py.strip (conf_username req) in
      let confirm := Py.lower (Py.strip (conf_confirmation req)) in
      if String.eqb confirm "yes" then
        match select_last_unread_sent db username with
        | None =>
            mkRun [prompt;
                   Yield (mkResponse "delete" "No unread messages to delete.")]
                  1 true db
        | Some last_id =>
            let tx := [DeleteMessage last_id] in
            mkRun [prompt; Commit tx;
                   Yield (mkResponse "delete" "Your last unread message was deleted.")]
                  1 true (exec_all tx db)
        end
      else
        mkRun [prompt; Yield (mkResponse "delete" "Delete canceled.")] 1 true db
  end.

Definition DeactivateAccount (db : Store) (request_iterator : list ConfirmRequest)
    : Run Response :=
  let prompt := Yield (mkResponse "deactivate"
    "Are you sure you want to deactivate your account? (yes/no)") in
  match request_iterator with
  | [] => mkRun [prompt] 0 false db
  | req :: _ =>
      let username := Py.strip (conf_username req) in
      let confirmation := Py.lower (Py.strip (conf_confirmation req)) in
      if String.eqb confirmation "yes" then
        let tx := [DeleteMessagesFrom username; DeleteUser username] in
        mkRun [prompt; Commit tx;
               Yield (mkResponse "deactivate"
                        "Your account and sent messages are removed.")]
              1 true (exec_all tx db)
      else
        mkRun [prompt; Yield (mkResponse "deactivate" "Deactivation canceled.")]
              1 true db
  end.

(* ================================================================= *)
(** ** Sequences of calls *)

(** One call of the service, with what it receives from its environment
    (salt, clock, metadata, the client's turns). *)
Inductive Call : Type :=
| CallRegister (salt : string) (request : RegisterRequest)
| CallLogin (request : LoginRequest)
| CallLogoff (request : LogoffRequest)
| CallSendMessage (now : DateTime) (md : list (string * string))
                  (request : GeneralMessage)
| CallCheckMessages (turns : list CheckMessagesRequest)
| CallSearchUsers (request : SearchRequest)
| CallDeleteLastMessage (turns : list ConfirmRequest)
| CallDeactivateAccount (turns : list ConfirmRequest).

Section Service.

Variable hashpw : string -> string -> string.
Variable checkpw : string -> string -> bool.

(** The store after a call. *)
Definition serve_call (db : Store) (c : Call) : Store :=
  match c with
  | CallRegister salt request => snd (Register hashpw db salt request)
  | CallLogin request => snd (Login checkpw db request)
  | CallLogoff request => snd (Logoff db request)
  | CallSendMessage now md request => snd (SendMessage db now md request)
  | CallCheckMessages turns => final (CheckMessages db turns)
  | CallSearchUsers _ => db
  | CallDeleteLastMessage turns => final (DeleteLastMessage db turns)
  | CallDeactivateAccount turns => final (DeactivateAccount db turns)
  end.

Definition serve_calls (db : Store) (calls : list Call) : Store :=
  fold_left serve_call calls db.

End Service.

(** A call that registers the name [u]. *)
Definition registers (u : string) (c : Call) : Prop :=
  match c with
  | CallRegister _ request => Py.strip (reg_username request) = u
  | _ => False
  end.

(** A call that deactivates the account [u]: a [DeactivateAccount]
    conversation whose first turn names [u] and confirms. *)
Definition removes (u : string) (c : Call) : Prop :=
  match c with
  | CallDeactivateAccount (req :: _) =>
      Py.strip (conf_username req) = u /\
      Py.lower (Py.strip (conf_confirmation req)) = "yes"
  | _ => False
  end.

(* ================================================================= *)
(** ** Example data *)

Definition noon : DateTime := mkDateTime 2025 2 26 12 0 0.

Definition example_message (id : Z) (to from body : string) (rd : bool)
    : MessageRow :=
  mkMessage id to from body noon rd.

(** Alice has seven unread messages, six of them from bob; bob's message 8
    has been read. *)
Definition example_db : Store :=
  mkStore
    [mkUser "alice" "digest-a" true; mkUser "bob" "digest-b" false;
     mkUser "carol" "digest-c" true]
    [example_message 3 "alice" "bob" "m3" false;
     example_message 1 "alice" "bob" "m1" false;
     example_message 2 "alice" "carol" "c2" false;
     example_message 7 "alice" "bob" "m7" false;
     example_message 5 "alice" "bob" "m5" false;
     example_message 6 "alice" "bob" "m6" false;
     example_message 4 "alice" "bob" "m4" false;
     example_message 8 "alice" "bob" "m8" true;
     example_message 9 "bob" "alice" "a9" false]
    10.

Definition example_hashpw (password salt : string) : string :=
  "$2b$" ++ salt ++ "$" ++ password.

Definition example_checkpw (plain_text stored_hash : string) : bool :=
  Py.contains plain_text stored_hash.

(* ================================================================= *)
(** ** Vocabulary of the statements *)

(** The password policy, as a proposition on the password. *)
Definition password_policy (p : string) : Prop :=
  7 <= String.length p /\
  (exists c, Py.In_str c p /\ Py.isupper c = true) /\
  (exists c, Py.In_str c p /\ Py.isdigit c = true) /\
  (exists c, Py.In_str c p /\ In c special_characters).

(** A row of [users] carries this username. *)
Definition user_exists (db : Store) (name : string) : Prop :=
  exists r, In r (users db) /\ u_username r = name.

(** The text has a space somewhere. *)
Definition has_space (s : string) : bool :=
  Py.any (fun c => Ascii.eqb c " "%char) s.

(** The turns of a triage conversation that deliver a message: those with
    the [sender] field set. *)
Definition is_delivery (r : CheckMessagesResponse) : bool :=
  negb (String.eqb (cm_sender r) "").

Definition deliveries (rs : list CheckMessagesResponse)
    : list CheckMessagesResponse :=
  filter is_delivery rs.



(** [ceil(k / d)] *)
Definition ceil_div (k d : nat) : nat := (k + d - 1) / d.

(** No event of the trace writes to the store. *)
Definition no_commit {R} (tr : list (Event R)) : Prop := commits tr = [].

(** A choice turn that is neither "1" nor "2". *)
Definition invalid_choice (req : CheckMessagesRequest) : Prop :=
  Py.strip (req_choice req) <> "1" /\ Py.strip (req_choice req) <> "2".

(** A sender turn with nothing but white space. *)
Definition empty_sender (req : CheckMessagesRequest) : Prop :=
  Py.strip (req_sender req) = "".

(** Rows in ascending order of their ids. *)
Definition ascending (l : list MessageRow) : Prop :=
  StronglySorted (fun a b => (messageid a <= messageid b)%Z) l.


(** The turns of the batches as the client sees them. *)
Definition batch_turns (batch : list MessageRow) : list CheckMessagesResponse :=
  (map delivery batch ++ [batch_marked])%list.

(* ================================================================= *)
(** ** The client's side of the conversations ([clientRPC.py]) *)

(** [send_message] while a bidirectional session is active: the text of
    the entry is stripped, nothing happens when it is then empty, and
    otherwise it is put on [bidi_queue]. *)
Definition send_message_bidi (entry : string) : list string :=
  let message := Py.strip entry in
  if String.eqb message "" then [] else [message].

(** What the queue receives from the entries typed during a session. *)
Definition bidi_queue (entries : list string) : list string :=
  flat_map send_message_bidi entries.

(** One pass of the [while True] loop of [request_generator] in
    [check_messages_stream]. *)
Definition check_turn (username user_input : string) : CheckMessagesRequest :=
  if String.eqb user_input "1" || String.eqb user_input "2"
  then mkCheckMessagesRequest username user_input ""
  else mkCheckMessagesRequest username "" user_input.

(** The turns [request_generator] yields for the inputs of the queue. *)
Definition request_generator (username : string) (queue : list string)
    : list CheckMessagesRequest :=
  mkCheckMessagesRequest username "" "" :: map (check_turn username) queue.

(** [confirmation = ""; while not confirmation:
     confirmation = self.bidi_queue.get().strip()]; [None] while the
    queue has given nothing but blank inputs. *)
Fixpoint first_answer (queue : list string) : option string :=
  match queue with
  | [] => None
  | user_input :: queue' =>
      let confirmation := Py.strip user_input in
      if String.eqb confirmation "" then first_answer queue'
      else Some confirmation
  end.

(** The turns [request_gen] yields in [delete_last_message_stream] and in
    [deactivate_account_stream]. *)
Definition request_gen (username : string) (queue : list string)
    : list ConfirmRequest :=
  mkConfirmRequest username "" ::
  match first_answer queue with
  | Some confirmation => [mkConfirmRequest username (Py.lower confirmation)]
  | None => []
  end.

(** [handle_register]: the three entries are stripped; the form is
    refused on the spot, with the text of the error label, when one is
    empty or when password and confirmation differ; otherwise
    [register_thread] sends the request. *)
Definition handle_register (username_var password_var confirm_var : string)
    : string + RegisterRequest :=
  let username := Py.strip username_var in
  let password := Py.strip password_var in
  let confirm := Py.strip confirm_var in
  if String.eqb username "" || String.eqb password "" || String.eqb confirm "" then
    inl "Please fill in all fields."
  else if negb (String.eqb password confirm) then
    inl "Passwords do not match."
  else
    inr (mkRegisterRequest username password confirm).

(** The tests by which the client reads the outcome off the message:
    ["Welcome" in response.server_message] in [login_thread],
    ["successful" in response.server_message.lower()] in
    [register_thread], ["removed" in resp.server_message] in
    [deactivate_account_stream]. *)
Definition login_accepted (response : Response) : bool :=
  Py.contains "Welcome" (server_message response).

Definition register_accepted (response : Response) : bool :=
  Py.contains "successful" (Py.lower (server_message response)).

Definition deactivate_removed (response : Response) : bool :=
  Py.contains "removed" (server_message response).

(* ================================================================= *)
(** ** Invariants of the tables *)

(** The usernames are keys, and they are as [Register] stores them: not
    empty and without white space around them. *)
Definition users_wf (db : Store) : Prop :=
  NoDup (map u_username (users db)) /\
  Forall (fun r => u_username r <> "" /\ Py.strip (u_username r) = u_username r)
         (users db).

(** The ways in which one call can leave the store: as it was, or after
    one of the write statements of the handlers. *)
Inductive store_step (db : Store) : Store -> Prop :=
| step_none : store_step db db
| step_insert_user (u hashed : string) :
    u <> "" -> Py.strip u = u -> ~ user_exists db u ->
    store_step db (insert_user db u hashed)
| step_update_active (u : string) (active : bool) :
    store_step db (update_active db u active)
| step_insert_message (now : DateTime) (target sndr body : string) :
    user_exists db target -> has_space target = false ->
    store_step db (insert_message db now target sndr body)
| step_mark_read (ids : list Z) :
    store_step db (mark_read ids db)
| step_delete_message (last_id : Z) :
    store_step db (exec (DeleteMessage last_id) db)
| step_deactivate (u : string) :
    store_step db (exec_all [DeleteMessagesFrom u; DeleteUser u] db).

(** A stored message and a later state of it: the same row, except that
    it may have been read in between. *)
Definition later_state (m m' : MessageRow) : Prop :=
  set_isread m' = set_isread m /\ (isread m = true -> isread m' = true).

(** The rows of a [GROUP BY sender] result count this many messages. *)
Definition total_count (senders_info : list (string * nat)) : nat :=
  list_sum (map snd senders_info).

(** The count that a [GROUP BY sender] result gives for one sender. *)
Definition count_for (s : string) (senders_info : list (string * nat)) : nat :=
  total_count (filter (fun r => String.eqb (fst r) s) senders_info).

(* ================================================================= *)
(** ** Facts about the store statements *)

Lemma set_isread_read (m : MessageRow) :
  isread m = true -> set_isread m = m.
Proof. destruct m as [i r s b d rd]; unfold set_isread; simpl; intros ->; reflexivity. Qed.

Lemma id_in_set_isread (ids : list Z) (m : MessageRow) :
  id_in ids (set_isread m) = id_in ids m.
Proof. reflexivity. Qed.

Lemma mark_read_twice (ids : list Z) (db : Store) :
  mark_read ids (mark_read ids db) = mark_read ids db.
Proof.
  unfold mark_read; simpl; f_equal.
  rewrite map_map; apply map_ext; intros m.
  destruct (id_in ids m) eqn:E.
  - rewrite id_in_set_isread, E; reflexivity.
  - rewrite E; reflexivity.
Qed.

(** C8. Marking read is idempotent: a row that is already read is left
    exactly as it is by the update (whether or not its id is in the
    batch), a row whose id is not in the batch is left as it is, the
    update touches neither the [users] table nor the id counter nor the
    number and ids of the rows, and running the update of a batch twice
    gives the store that running it once gives. *)
Theorem mark_read_idempotent (ids : list Z) (db : Store) :
  (forall m, isread m = true ->
             (if id_in ids m then set_isread m else m) = m) /\
  (forall m, In m (messages db) -> id_in ids m = false ->
             In m (messages (mark_read ids db))) /\
  (forall m, In m (messages db) -> isread m = true ->
             In m (messages (mark_read ids db))) /\
  users (mark_read ids db) = users db /\
  next_messageid (mark_read ids db) = next_messageid db /\
  map messageid (messages (mark_read ids db)) = map messageid (messages db) /\
  (forall m, In m (messages (mark_read ids db)) -> id_in ids m = true ->
             isread m = true) /\
  exec (MarkRead ids) (exec (MarkRead ids) db) = exec (MarkRead ids) db /\
  exec_all [MarkRead ids; MarkRead ids] db = exec_all [MarkRead ids] db.
Proof.
  repeat split.
  - intros m Hr. destruct (id_in ids m); [apply set_isread_read; exact Hr | reflexivity].
  - intros m Hin Hid. unfold mark_read; simpl.
    apply in_map_iff. exists m. rewrite Hid. auto.
  - intros m Hin Hr. unfold mark_read; simpl.
    apply in_map_iff. exists m. split; [|exact Hin].
    destruct (id_in ids m); [apply set_isread_read; exact Hr | reflexivity].
  - unfold mark_read; simpl. rewrite map_map. apply map_ext.
    intros m. destruct (id_in ids m); reflexivity.
  - intros m Hin Hid. unfold mark_read in Hin; simpl in Hin.
    apply in_map_iff in Hin. destruct Hin as [m0 [Hm0 _]].
    destruct (id_in ids m0) eqn:E; subst m.
    + reflexivity.
    + congruence.
  - simpl. apply mark_read_twice.
  - unfold exec_all; simpl. apply mark_read_twice.
Qed.

(* ================================================================= *)
(** ** [SearchUsers] *)

Lemma SearchUsers_names (db : Store) (request : SearchRequest) (name : string) :
  In name (sr_usernames (SearchUsers (Some db) request)) <->
  user_exists db name /\ name <> Py.strip (search_username request).
Proof.
  unfold SearchUsers, user_exists; simpl.
  rewrite filter_In, in_map_iff, negb_true_iff, String.eqb_neq.
  split.
  - intros [[r [Hr Hin]] Hne]. split; [exists r; auto | exact Hne].
  - intros [[r [Hin Hr]] Hne]. split; [exists r; auto | exact Hne].
Qed.

(** C10. [SearchUsers] answers [success = true] whenever the store can be
    read; the names it returns are the usernames of the table, in table
    order, without those equal as strings to the caller's stripped name,
    so every other user is listed whatever its [active] flag; the list is
    empty when no other user exists; and [success = false] is returned
    exactly when the store fails. *)
Theorem SearchUsers_spec (conn : option Store) (request : SearchRequest) :
  let caller := Py.strip (search_username request) in
  let resp := SearchUsers conn request in
  (forall db, conn = Some db ->
     sr_success resp = true /\
     sr_usernames resp =
       filter (fun n => negb (String.eqb n caller)) (map u_username (users db)) /\
     (forall name, In name (sr_usernames resp) <->
                   user_exists db name /\ name <> caller) /\
     (forall r, In r (users db) -> u_username r <> caller ->
                u_active r = false -> In (u_username r) (sr_usernames resp)) /\
     ((forall r, In r (users db) -> u_username r = caller) ->
      sr_usernames resp = [])) /\
  (sr_success resp = false <-> conn = None).
Proof.
  intros caller resp. split.
  - intros db ->. subst resp.
    split; [reflexivity|]. split; [reflexivity|].
    split; [intros name; apply SearchUsers_names|].
    split.
    + intros r Hin Hne _. apply SearchUsers_names.
      split; [exists r; auto | exact Hne].
    + intros Hall. simpl. fold caller.
      induction (users db) as [|r l IH]; [reflexivity|].
      simpl. rewrite (Hall r (or_introl eq_refl)), String.eqb_refl. simpl.
      apply IH. intros r' Hr'. apply Hall. right; exact Hr'.
  - subst resp. destruct conn; simpl; split; intros H; congruence.
Qed.

(* ================================================================= *)
(** ** [Register] and the password policy *)

Lemma any_true_iff (p : ascii -> bool) (s : string) :
  Py.any p s = true <-> exists c, Py.In_str c s /\ p c = true.
Proof.
  induction s as [|a s IH]; simpl.
  - split; [discriminate | intros [c [[] _]]].
  - rewrite orb_true_iff, IH. split.
    + intros [H | [c [Hin Hc]]]; [exists a; auto | exists c; auto].
    + intros [c [[-> | Hin] Hc]]; [left; exact Hc | right; exists c; auto].
Qed.

Lemma is_special_iff (c : ascii) :
  is_special c = true <-> In c special_characters.
Proof.
  unfold is_special. rewrite existsb_exists. split.
  - intros [x [Hin Heq]]. apply Ascii.eqb_eq in Heq. subst; exact Hin.
  - intros Hin. exists c. split; [exact Hin | apply Ascii.eqb_refl].
Qed.

Lemma checkValidPassword_iff (p : string) :
  checkValidPassword p = true <-> password_policy p.
Proof.
  unfold checkValidPassword, password_policy.
  destruct (String.length p <? 7) eqn:L.
  - apply Nat.ltb_lt in L. split; [discriminate | intros [H _]; lia].
  - apply Nat.ltb_ge in L.
    rewrite !andb_true_iff, !any_true_iff.
    split.
    + intros [[Hu Hd] [c [Hin Hc]]]. repeat split; auto.
      exists c. split; [exact Hin | apply is_special_iff; exact Hc].
    + intros [_ [Hu [Hd [c [Hin Hc]]]]]. repeat split; auto.
      exists c. split; [exact Hin | apply is_special_iff; exact Hc].
Qed.

Lemma checkRealUsername_iff (db : Store) (name : string) :
  checkRealUsername db name = true <-> user_exists db name.
Proof.
  unfold checkRealUsername, user_exists. rewrite Nat.ltb_lt. split.
  - intros H.
    destruct (filter (fun r => String.eqb (u_username r) name) (users db))
      as [|r l] eqn:E; [simpl in H; lia|].
    assert (Hin : In r (filter (fun r => String.eqb (u_username r) name) (users db)))
      by (rewrite E; left; reflexivity).
    apply filter_In in Hin. destruct Hin as [Hin Heq].
    exists r. split; [exact Hin | apply String.eqb_eq; exact Heq].
  - intros [r [Hin Heq]].
    assert (Hf : In r (filter (fun r => String.eqb (u_username r) name) (users db))).
    { apply filter_In. split; [exact Hin | apply String.eqb_eq; exact Heq]. }
    destruct (filter _ (users db)); [destruct Hf | simpl; lia].
Qed.

Lemma checkRealUsername_false_iff (db : Store) (name : string) :
  checkRealUsername db name = false <-> ~ user_exists db name.
Proof.
  rewrite <- checkRealUsername_iff. destruct (checkRealUsername db name); split;
    intros; congruence.
Qed.

(** C4. [Register] tests, in this order, that no stripped field is empty,
    that the username is not taken, that the stripped password satisfies
    the policy and that it equals the stripped confirmation; each failed
    test answers with its own message, which does not contain
    "successful", and leaves the store as it was; when all pass the row
    [(username, digest, active = true)] is added to [users] and the
    message contains "successful".  The policy rejects "abc" and
    "abcdefg" and accepts "Abcdef1!". *)
Theorem Register_spec (hashpw : string -> string -> string)
    (db : Store) (salt : string) (request : RegisterRequest) :
  let u := Py.strip (reg_username request) in
  let p := Py.strip (reg_password request) in
  let c := Py.strip (reg_confirm_password request) in
  let out := Register hashpw db salt request in
  (u = "" \/ p = "" \/ c = "" ->
     out = (mkResponse "1" "Registration canceled: All fields are required.", db)) /\
  (u <> "" /\ p <> "" /\ c <> "" ->
     (user_exists db u ->
        out = (mkResponse "1" "Username taken. Please choose another.", db)) /\
     (~ user_exists db u -> ~ password_policy p ->
        out = (mkResponse "1"
                 "Invalid password: Must be >=7 chars, include uppercase, digit, and special char.",
               db)) /\
     (~ user_exists db u -> password_policy p -> p <> c ->
        out = (mkResponse "1" "Passwords do not match.", db)) /\
     (~ user_exists db u -> password_policy p -> p = c ->
        out = (mkResponse "1" "Registration successful. You are now logged in!",
               mkStore (users db ++ [mkUser u (hashpw p salt) true])
                       (messages db) (next_messageid db)))) /\
  (Py.contains "successful" (server_message (fst out)) = true <->
     snd out = insert_user db u (hashpw p salt) /\
     u <> "" /\ p <> "" /\ c <> "" /\ ~ user_exists db u /\
     password_policy p /\ p = c) /\
  (snd out = db \/ snd out = insert_user db u (hashpw p salt)) /\
  checkValidPassword "abc" = false /\
  checkValidPassword "abcdefg" = false /\
  checkValidPassword "Abcdef1!" = true.
Proof.
  intros u p c out. subst out. unfold Register. fold u p c.
  destruct (String.eqb_spec u "") as [Eu|Eu];
    [ | destruct (String.eqb_spec p "") as [Ep|Ep];
        [ | destruct (String.eqb_spec c "") as [Ec|Ec] ] ];
    simpl orb; cbv iota.
  1-3: (split; [reflexivity|]);
       (split; [intros [? [? ?]]; congruence|]);
       (split; [|split; [left; reflexivity | repeat split; reflexivity]]);
       simpl; split; [discriminate | intros [_ [? [? [? _]]]]; congruence].
  split; [intros [?|[?|?]]; congruence|].
  destruct (checkRealUsername db u) eqn:Ex.
  { apply checkRealUsername_iff in Ex.
    split; [intros _; repeat split; intros; try reflexivity; contradiction|].
    split; [|split; [left; reflexivity | repeat split; reflexivity]].
    simpl; split; [discriminate | intros [_ [_ [_ [_ [? _]]]]]; contradiction]. }
  apply checkRealUsername_false_iff in Ex.
  destruct (checkValidPassword p) eqn:Ev; simpl negb; cbv iota.
  2:{ assert (Hp : ~ password_policy p)
        by (rewrite <- checkValidPassword_iff; congruence).
      split; [intros _; repeat split; intros; try reflexivity; contradiction|].
      split; [|split; [left; reflexivity | repeat split; reflexivity]].
      simpl; split; [discriminate | intros [_ [_ [_ [_ [_ [? _]]]]]]; contradiction]. }
  apply checkValidPassword_iff in Ev.
  destruct (String.eqb_spec p c) as [Epc|Epc]; simpl negb; cbv iota.
  2:{ split; [intros _; repeat split; intros; try reflexivity; contradiction|].
      split; [|split; [left; reflexivity | repeat split; reflexivity]].
      simpl; split; [discriminate | intros [_ [_ [_ [_ [_ [_ ?]]]]]]; contradiction]. }
  split; [intros _; repeat split; intros; try reflexivity; contradiction|].
  split; [|split; [right; reflexivity | repeat split; reflexivity]].
  simpl fst; simpl snd. split; [intros _ | intros _; reflexivity].
  repeat (split; [first [reflexivity | assumption]|]); assumption.
Qed.

(* ================================================================= *)
(** ** [SendMessage] *)

Lemma startswith_at (s : string) :
  Py.startswith s "@" = true <-> exists t, s = String "@"%char t.
Proof.
  unfold Py.startswith. destruct s as [|a s]; cbn [String.prefix].
  - split; [discriminate | intros [t Ht]; discriminate Ht].
  - destruct (ascii_dec "@"%char a) as [<-|Hne].
    + split; [intros _; exists s; reflexivity | intros _; destruct s; reflexivity].
    + split; [discriminate | intros [t Ht]; congruence].
Qed.

Lemma split_no_space (s : string) :
  has_space s = false -> Py.split_space_1 s = [s].
Proof.
  unfold has_space. induction s as [|a s IH]; cbn [Py.any Py.split_space_1];
    [reflexivity|].
  destruct (Ascii.eqb a " "%char); cbn [orb]; [discriminate|].
  intros H. rewrite (IH H). reflexivity.
Qed.

Lemma split_at_space (a b : string) :
  has_space a = false -> Py.split_space_1 (a ++ String " "%char b) = [a; b].
Proof.
  unfold has_space. induction a as [|x a IH];
    cbn [Py.any Py.split_space_1 String.append]; [reflexivity|].
  destruct (Ascii.eqb x " "%char); cbn [orb]; [discriminate|].
  intros H. rewrite (IH H). reflexivity.
Qed.

Lemma has_space_split (s : string) :
  has_space s = true ->
  exists a b, s = a ++ String " "%char b /\ has_space a = false.
Proof.
  unfold has_space. induction s as [|x s IH]; cbn [Py.any]; [discriminate|].
  destruct (Ascii.eqb_spec x " "%char) as [->|Hne]; cbn [orb].
  - intros _. exists "", s. split; reflexivity.
  - intros H. destruct (IH H) as [a [b [E Ha]]].
    exists (String x a), b. split.
    + cbn [String.append]. rewrite E. reflexivity.
    + cbn [Py.any]. destruct (Ascii.eqb_spec x " "%char); [contradiction | exact Ha].
Qed.

Lemma md_get_absent (md : list (string * string)) (key default : string) :
  (forall v, ~ In (key, v) md) -> md_get md key default = default.
Proof.
  revert default. induction md as [|[k v] md IH]; intros default H; simpl.
  - reflexivity.
  - destruct (String.eqb_spec k key) as [->|Hne].
    + exfalso. apply (H v). left; reflexivity.
    + apply IH. intros v' Hin. apply (H v'). right; exact Hin.
Qed.

Lemma SendMessage_well_formed (db : Store) (now : DateTime)
    (md : list (string * string)) (request : GeneralMessage)
    (target body : string) :
  Py.strip (gm_message request) = String "@"%char (target ++ String " "%char body) ->
  has_space target = false ->
  SendMessage db now md request =
    if checkRealUsername db target
    then (mkSendMessageResponse true "",
          insert_message db now target (md_get md "username" "unknown") body)
    else (mkSendMessageResponse false "Recipient does not exist.", db).
Proof.
  intros E Ht. unfold SendMessage. rewrite E.
  replace (Py.startswith (String "@"%char (target ++ String " "%char body)) "@")
    with true by (symmetry; apply startswith_at; eexists; reflexivity).
  change (String "@"%char (target ++ String " "%char body))
    with (String "@"%char target ++ String " "%char body).
  rewrite split_at_space.
  - cbn -[checkRealUsername insert_message].
    destruct (checkRealUsername db target); reflexivity.
  - unfold has_space in *. cbn. exact Ht.
Qed.

Lemma unread_count_app (db : Store) (l : list MessageRow) (name : string) :
  length (filter (unread_for (Some name)) (messages db ++ l)) =
  select_unread_count db name + length (filter (unread_for (Some name)) l).
Proof. unfold select_unread_count. rewrite filter_app, length_app. reflexivity. Qed.

Lemma id_in_fresh (db : Store) (m : MessageRow) :
  store_wf db -> In m (messages db) -> id_in [next_messageid db] m = false.
Proof.
  intros [_ Hlt] Hin. unfold id_in; simpl.
  rewrite Forall_forall in Hlt. specialize (Hlt m Hin).
  rewrite orb_false_r. apply Z.eqb_neq. lia.
Qed.

Lemma insert_message_wf (db : Store) (now : DateTime) (target sndr body : string) :
  store_wf db -> store_wf (insert_message db now target sndr body).
Proof.
  intros [Hnd Hlt]. unfold store_wf, insert_message; cbn [messages next_messageid].
  rewrite Forall_forall in Hlt. split.
  - rewrite map_app. cbn [map messageid].
    apply NoDup_app; [exact Hnd | repeat constructor; intros [] |].
    intros x Hx [<-|[]]. apply in_map_iff in Hx. destruct Hx as [m [Hm Hin]].
    specialize (Hlt m Hin). lia.
  - apply Forall_app. split.
    + apply Forall_forall. intros m Hm. specialize (Hlt m Hm). lia.
    + constructor; [cbn; lia | constructor].
Qed.

Lemma map_mark_fresh (db : Store) (l : list MessageRow) :
  (forall m, In m l -> id_in [next_messageid db] m = false) ->
  map (fun m => if id_in [next_messageid db] m then set_isread m else m) l = l.
Proof.
  induction l as [|x l IH]; intros H; cbn [map]; [reflexivity|].
  rewrite (H x (or_introl eq_refl)). f_equal. apply IH.
  intros m Hm. apply H. right; exact Hm.
Qed.

Lemma md_get_last (md1 md2 : list (string * string)) (key v default : string) :
  (forall v', ~ In (key, v') md2) ->
  md_get (md1 ++ (key, v) :: md2) key default = v.
Proof.
  intros Habs. revert default. induction md1 as [|[k w] md1 IH]; intros default.
  - cbn [app md_get]. rewrite String.eqb_refl. apply md_get_absent. exact Habs.
  - cbn [app md_get]. apply IH.
Qed.

(** C9. The sender of [SendMessage] is the value that the call metadata
    gives for "username" (the last one, if the key occurs more than
    once), and the literal "unknown" when the metadata has no such key;
    it is never looked up in [users]: a well-formed message to an
    existing recipient is stored with that sender, whether or not a user
    of that name exists. *)
Theorem SendMessage_sender_unchecked (db : Store) (now : DateTime)
    (md : list (string * string)) (request : GeneralMessage)
    (target body : string) :
  Py.strip (gm_message request) = String "@"%char (target ++ String " "%char body) ->
  has_space target = false ->
  user_exists db target ->
  let sndr := md_get md "username" "unknown" in
  let out := SendMessage db now md request in
  ((forall v, ~ In ("username", v) md) -> sndr = "unknown") /\
  (forall md1 v md2,
     md = (md1 ++ ("username", v) :: md2)%list ->
     (forall v', ~ In ("username", v') md2) ->
     sndr = v /\
     In (mkMessage (next_messageid db) target v body now false)
        (messages (snd out))) /\
  sm_success (fst out) = true /\
  messages (snd out) =
    (messages db ++ [mkMessage (next_messageid db) target sndr body now false])%list /\
  (~ user_exists db sndr ->
     sm_success (fst out) = true /\
     In (mkMessage (next_messageid db) target sndr body now false)
        (messages (snd out))).
Proof.
  intros E Ht Hex sndr out.
  split; [intros Habs; apply md_get_absent; exact Habs|].
  assert (Hout : out = (mkSendMessageResponse true "",
                        insert_message db now target sndr body)).
  { subst out. rewrite (SendMessage_well_formed db now md request target body E Ht).
    apply checkRealUsername_iff in Hex. rewrite Hex. reflexivity. }
  split.
  { intros md1 v md2 Hmd Habs.
    assert (Hv : sndr = v) by (unfold sndr; rewrite Hmd; apply md_get_last; exact Habs).
    split; [exact Hv|]. rewrite Hout, <- Hv. cbn [snd insert_message messages].
    apply in_or_app. right. left. reflexivity. }
  subst out. rewrite (SendMessage_well_formed db now md request target body E Ht).
  apply checkRealUsername_iff in Hex. rewrite Hex. simpl.
  split; [reflexivity|]. split; [reflexivity|].
  intros _. split; [reflexivity|]. apply in_or_app. right. left. reflexivity.
Qed.

(* ================================================================= *)
(** ** [ORDER BY messageid] *)

Lemma insert_by_id_perm (m : MessageRow) (l : list MessageRow) :
  Permutation (insert_by_id m l) (m :: l).
Proof.
  induction l as [|x l IH]; cbn [insert_by_id]; [reflexivity|].
  destruct (messageid m <=? messageid x)%Z; [reflexivity|].
  rewrite IH. apply perm_swap.
Qed.

Lemma order_by_messageid_perm (l : list MessageRow) :
  Permutation (order_by_messageid l) l.
Proof.
  induction l as [|x l IH]; cbn [order_by_messageid fold_right]; [reflexivity|].
  fold (order_by_messageid l). rewrite insert_by_id_perm. constructor. exact IH.
Qed.

Lemma insert_by_id_ascending (m : MessageRow) (l : list MessageRow) :
  ascending l -> ascending (insert_by_id m l).
Proof.
  unfold ascending. induction l as [|x l IH]; intros Hs; cbn [insert_by_id].
  - constructor; constructor.
  - apply StronglySorted_inv in Hs. destruct Hs as [Hl Hx].
    destruct (messageid m <=? messageid x)%Z eqn:E.
    + apply Z.leb_le in E. constructor.
      * constructor; assumption.
      * constructor; [exact E|].
        rewrite Forall_forall in *. intros y Hy. specialize (Hx y Hy). lia.
    + apply Z.leb_gt in E. constructor; [apply IH; exact Hl|].
      rewrite Forall_forall in *. intros y Hy.
      apply (Permutation_in _ (insert_by_id_perm m l)) in Hy.
      destruct Hy as [<-|Hy]; [lia | apply Hx; exact Hy].
Qed.

Lemma order_by_messageid_ascending (l : list MessageRow) :
  ascending (order_by_messageid l).
Proof.
  induction l as [|x l IH]; cbn [order_by_messageid fold_right].
  - constructor.
  - apply insert_by_id_ascending. exact IH.
Qed.


Lemma NoDup_ids_filter (f : MessageRow -> bool) (l : list MessageRow) :
  NoDup (map messageid l) -> NoDup (map messageid (filter f l)).
Proof.
  induction l as [|x l IH]; intros Hnd; cbn [filter map]; [constructor|].
  cbn [map] in Hnd. apply NoDup_cons_iff in Hnd. destruct Hnd as [Hx Hnd].
  destruct (f x); cbn [map]; [|apply IH; exact Hnd].
  constructor; [|apply IH; exact Hnd].
  intros Hin. apply Hx. apply in_map_iff in Hin. destruct Hin as [y [Hy Hin]].
  apply filter_In in Hin. rewrite <- Hy. apply in_map. apply Hin.
Qed.

Lemma select_unread_from_perm (db : Store) (user : option string) (chosen : string) :
  Permutation (select_unread_from db user chosen)
              (filter (unread_from user chosen) (messages db)).
Proof. apply order_by_messageid_perm. Qed.


(* ================================================================= *)
(** ** Batches *)


Lemma range_from_concat (l : list MessageRow) (fuel i : nat) :
  length l <= fuel + i ->
  concat (map (fun i => slice l i (i + batch_size))
              (range_from fuel i (length l) batch_size)) = skipn i l.
Proof.
  revert i. induction fuel as [|fuel IH]; intros i Hf; cbn [range_from].
  - cbn [map concat]. symmetry. apply skipn_all2. lia.
  - destruct (i <? length l) eqn:E.
    + cbn [map concat]. rewrite IH by (unfold batch_size; lia).
      unfold slice. replace (i + batch_size - i) with batch_size by lia.
      rewrite Nat.add_comm, <- skipn_skipn. apply firstn_skipn.
    + apply Nat.ltb_ge in E. cbn [map concat]. symmetry. apply skipn_all2. exact E.
Qed.

Lemma batches_concat (msgs : list MessageRow) : concat (batches msgs) = msgs.
Proof.
  unfold batches, range. rewrite range_from_concat by lia. reflexivity.
Qed.

Lemma ceil_div_step (n i : nat) :
  i < n -> S (ceil_div (n - (i + batch_size)) batch_size) = ceil_div (n - i) batch_size.
Proof.
  unfold ceil_div, batch_size. intros H.
  assert (n - i + 5 - 1 = (n - (i + 5) + 5 - 1) + 1 * 5 \/ n - i < 5) as [E|E] by lia.
  - rewrite E. rewrite Nat.div_add by lia. lia.
  - replace (n - (i + 5)) with 0 by lia. change ((0 + 5 - 1) / 5) with 0.
    apply Nat.div_unique with (r := n - i - 1); lia.
Qed.

Lemma range_from_length (fuel i n : nat) :
  n <= fuel + i ->
  length (range_from fuel i n batch_size) = ceil_div (n - i) batch_size.
Proof.
  revert i. induction fuel as [|fuel IH]; intros i Hf; cbn [range_from].
  - replace (n - i) with 0 by lia. reflexivity.
  - destruct (i <? n) eqn:E.
    + apply Nat.ltb_lt in E. cbn [length].
      rewrite IH by (unfold batch_size; lia). apply ceil_div_step. exact E.
    + apply Nat.ltb_ge in E. replace (n - i) with 0 by lia. reflexivity.
Qed.

Lemma batches_length (msgs : list MessageRow) :
  length (batches msgs) = ceil_div (length msgs) batch_size.
Proof.
  unfold batches, range. rewrite length_map, range_from_length by lia.
  rewrite Nat.sub_0_r. reflexivity.
Qed.




(* ================================================================= *)
(** ** Traces of the delivery loop *)

Lemma yields_app {R} (t1 t2 : list (Event R)) :
  yields (t1 ++ t2) = (yields t1 ++ yields t2)%list.
Proof. unfold yields. apply flat_map_app. Qed.

Lemma commits_app {R} (t1 t2 : list (Event R)) :
  commits (t1 ++ t2) = (commits t1 ++ commits t2)%list.
Proof. unfold commits. apply flat_map_app. Qed.

Lemma yields_map_Yield {R A} (f : A -> R) (l : list A) :
  yields (map (fun x => Yield (f x)) l) = map f l.
Proof. induction l as [|x l IH]; cbn; [reflexivity | f_equal; exact IH]. Qed.

Lemma commits_map_Yield {R A} (f : A -> R) (l : list A) :
  commits (map (fun x => Yield (f x)) l) = [].
Proof. induction l as [|x l IH]; cbn; [reflexivity | exact IH]. Qed.

Lemma yields_deliver_batch (b : list MessageRow) :
  yields (deliver_batch b) = batch_turns b.
Proof.
  unfold deliver_batch, batch_turns. rewrite yields_app, yields_map_Yield. reflexivity.
Qed.

Lemma commits_deliver_batch (b : list MessageRow) :
  commits (deliver_batch b) = [[MarkRead (map messageid b)]].
Proof.
  unfold deliver_batch. rewrite commits_app, commits_map_Yield. reflexivity.
Qed.

Lemma yields_batches (bs : list (list MessageRow)) :
  yields (flat_map deliver_batch bs) = flat_map batch_turns bs.
Proof.
  induction bs as [|b bs IH]; cbn [flat_map]; [reflexivity|].
  rewrite yields_app, yields_deliver_batch, IH. reflexivity.
Qed.

Lemma commits_batches (bs : list (list MessageRow)) :
  commits (flat_map deliver_batch bs) =
  map (fun b => [MarkRead (map messageid b)]) bs.
Proof.
  induction bs as [|b bs IH]; cbn [flat_map map]; [reflexivity|].
  rewrite commits_app, commits_deliver_batch, IH. reflexivity.
Qed.

Lemma deliveries_map_delivery (b : list MessageRow) :
  Forall (fun m => sender m <> "") b ->
  deliveries (map delivery b) = map delivery b.
Proof.
  induction 1 as [|m b Hm _ IH]; [reflexivity|].
  unfold deliveries in *. cbn [map filter].
  unfold is_delivery at 1. cbn [cm_sender delivery].
  apply String.eqb_neq in Hm. rewrite Hm. cbn [negb]. f_equal. exact IH.
Qed.

Lemma deliveries_batches (bs : list (list MessageRow)) :
  Forall (fun m => sender m <> "") (concat bs) ->
  deliveries (flat_map batch_turns bs) = map delivery (concat bs).
Proof.
  induction bs as [|b bs IH]; cbn [flat_map concat]; intros H; [reflexivity|].
  apply Forall_app in H. destruct H as [Hb Hbs].
  unfold deliveries in *. unfold batch_turns at 1.
  rewrite !filter_app, map_app, IH by exact Hbs.
  fold (deliveries (map delivery b)). rewrite deliveries_map_delivery by exact Hb.
  cbn. rewrite app_nil_r. reflexivity.
Qed.



Lemma id_in_app (ids1 ids2 : list Z) (m : MessageRow) :
  id_in (ids1 ++ ids2) m = id_in ids1 m || id_in ids2 m.
Proof. unfold id_in. apply existsb_app. Qed.

Lemma mark_read_app (ids1 ids2 : list Z) (db : Store) :
  mark_read ids2 (mark_read ids1 db) = mark_read (ids1 ++ ids2) db.
Proof.
  unfold mark_read; cbn [users messages next_messageid]. f_equal.
  rewrite map_map. apply map_ext. intros m. rewrite id_in_app.
  destruct (id_in ids1 m) eqn:E1; cbn [orb].
  - rewrite id_in_set_isread. destruct (id_in ids2 m); reflexivity.
  - reflexivity.
Qed.

Lemma mark_read_nil (db : Store) : mark_read [] db = db.
Proof.
  unfold mark_read. destruct db as [us ms n]; cbn. f_equal.
  induction ms as [|m ms IH]; cbn; [reflexivity | f_equal; exact IH].
Qed.

Lemma replay_batches (bs : list (list MessageRow)) (db : Store) :
  fold_left (fun d l => exec_all l d)
            (map (fun b => [MarkRead (map messageid b)]) bs) db =
  mark_read (map messageid (concat bs)) db.
Proof.
  revert db. induction bs as [|b bs IH]; intros db; cbn [map fold_left concat].
  - symmetry. apply mark_read_nil.
  - rewrite IH. unfold exec_all; cbn [fold_left exec].
    rewrite mark_read_app, map_app. reflexivity.
Qed.

Lemma replay_delivery (msgs : list MessageRow) (db : Store) :
  replay (flat_map deliver_batch (batches msgs) ++ [Yield done_reading]) db =
  mark_read (map messageid msgs) db.
Proof.
  unfold replay. rewrite commits_app, commits_batches. cbn [commits flat_map].
  rewrite app_nil_r, replay_batches, batches_concat. reflexivity.
Qed.

Lemma unread_from_sender (user : option string) (chosen : string) (m : MessageRow) :
  unread_from user chosen m = true ->
  sql_eq (receiver m) user = true /\ sender m = chosen /\ isread m = false.
Proof.
  unfold unread_from. rewrite !andb_true_iff, negb_true_iff, String.eqb_eq. tauto.
Qed.

Lemma select_unread_from_In (db : Store) (user : option string) (chosen : string)
    (m : MessageRow) :
  In m (select_unread_from db user chosen) <->
  In m (messages db) /\ unread_from user chosen m = true.
Proof.
  rewrite <- filter_In. split; apply Permutation_in;
    [|symmetry]; apply select_unread_from_perm.
Qed.

Lemma unread_from_after_mark (db : Store) (user : option string) (chosen : string) :
  filter (unread_from user chosen)
    (messages (mark_read (map messageid (select_unread_from db user chosen)) db)) = [].
Proof.
  set (ids := map messageid (select_unread_from db user chosen)).
  destruct (filter _ _) as [|m l] eqn:E; [reflexivity|]. exfalso.
  assert (Hin : In m (filter (unread_from user chosen) (messages (mark_read ids db))))
    by (rewrite E; left; reflexivity).
  apply filter_In in Hin. destruct Hin as [Hin Hun].
  unfold mark_read in Hin; cbn [messages] in Hin.
  apply in_map_iff in Hin. destruct Hin as [m0 [Hm0 Hin0]].
  destruct (id_in ids m0) eqn:Eid.
  - subst m. apply unread_from_sender in Hun. cbn in Hun. destruct Hun as [_ [_ Hun]].
    discriminate Hun.
  - subst m0. assert (Hs : In m (select_unread_from db user chosen))
      by (apply select_unread_from_In; split; assumption).
    unfold id_in in Eid. apply (in_map messageid) in Hs. fold ids in Hs.
    assert (existsb (Z.eqb (messageid m)) ids = true).
    { apply existsb_exists. exists (messageid m). split; [exact Hs | apply Z.eqb_refl]. }
    congruence.
Qed.


(* ================================================================= *)
(** ** The triage conversation *)

Lemma ceil_div_bounds (k : nat) :
  k <= batch_size * ceil_div k batch_size < k + batch_size.
Proof.
  unfold ceil_div, batch_size.
  pose proof (Nat.div_mod_eq (k + 5 - 1) 5) as E.
  pose proof (Nat.mod_upper_bound (k + 5 - 1) 5) as B. lia.
Qed.

Lemma for_loop_break (db db' : Store) (loc loc' : Locals)
    (req : CheckMessagesRequest) (rest : list CheckMessagesRequest)
    (tr : list (Event CheckMessagesResponse)) :
  loop_body db loc req = (tr, Break, loc', db') ->
  for_loop db loc (req :: rest) = (mkRun tr 1 true db', loc').
Proof. intros H. cbn [for_loop]. rewrite H. reflexivity. Qed.

Lemma for_loop_continue (db db' : Store) (loc loc' : Locals)
    (req : CheckMessagesRequest) (rest : list CheckMessagesRequest)
    (tr : list (Event CheckMessagesResponse)) :
  loop_body db loc req = (tr, Continue, loc', db') ->
  for_loop db loc (req :: rest) =
    (mkRun (tr ++ trace (fst (for_loop db' loc' rest)))
           (S (consumed (fst (for_loop db' loc' rest))))
           (broke (fst (for_loop db' loc' rest)))
           (final (fst (for_loop db' loc' rest))),
     snd (for_loop db' loc' rest)).
Proof.
  intros H. cbn [for_loop]. rewrite H.
  destruct (for_loop db' loc' rest) as [r l]. reflexivity.
Qed.

Lemma for_loop_broke_consumed (db : Store) (loc : Locals)
    (reqs : list CheckMessagesRequest) :
  broke (fst (for_loop db loc reqs)) = true ->
  1 <= consumed (fst (for_loop db loc reqs)).
Proof.
  destruct reqs as [|req rest]; cbn [for_loop]; [discriminate|].
  destruct (loop_body db loc req) as [[[tr ctl] loc'] db'].
  destruct ctl; [destruct (for_loop db' loc' rest) as [r l]|]; cbn; lia.
Qed.

Lemma loop_body_deliver (db : Store) (loc : Locals) (req : CheckMessagesRequest)
    (u chosen : string) :
  stage loc = AwaitSender ->
  username loc = Some u ->
  Py.strip (req_sender req) = chosen ->
  chosen <> "" ->
  select_unread_from db (Some u) chosen <> [] ->
  loop_body db loc req =
    ((flat_map deliver_batch (batches (select_unread_from db (Some u) chosen))
      ++ [Yield done_reading])%list,
     Break, loc,
     mark_read (map messageid (select_unread_from db (Some u) chosen)) db).
Proof.
  intros Hst Hu Hch Hne Hmsgs. unfold loop_body. rewrite Hst, Hch, Hu.
  apply String.eqb_neq in Hne. rewrite Hne. cbv zeta.
  rewrite <- (replay_delivery (select_unread_from db (Some u) chosen) db).
  destruct (select_unread_from db (Some u) chosen); [contradiction | reflexivity].
Qed.

Lemma commits_map_const {R A} (r : R) (l : list A) :
  commits (map (fun _ => Yield r) l) = [].
Proof. induction l as [|x l IH]; cbn; [reflexivity | exact IH]. Qed.


(** C5. The first turn of a triage conversation: an empty (stripped)
    username is answered by the one turn "No username provided.
    Aborting." and the handler stops; a user with no unread message is
    answered by the one turn "You have 0 unread messages." and the
    handler stops; a user with [n > 0] unread messages is sent the
    prompt for '1' or '2' and the handler continues in stage
    [AwaitChoice]: it stops by itself only after having taken at least
    one more client turn, and takes the next turn whenever there is
    one. *)
Theorem triage_first_turn (db : Store) (req : CheckMessagesRequest)
    (rest : list CheckMessagesRequest) :
  let u := Py.strip (req_username req) in
  let n := select_unread_count db u in
  let run := CheckMessages db (req :: rest) in
  (u = "" ->
     run = mkRun [Yield (say "No username provided. Aborting.")] 1 true db) /\
  (u <> "" -> n = 0 ->
     run = mkRun [Yield (say "You have 0 unread messages.")] 1 true db) /\
  (u <> "" -> 0 < n ->
     loop_body db (mkLocals None AwaitUsername) req =
       ([Yield (unread_prompt n)], Continue, mkLocals (Some u) AwaitChoice, db) /\
     (exists tl, trace run = Yield (unread_prompt n) :: tl) /\
     (rest = [] -> run = mkRun [Yield (unread_prompt n)] 1 false db) /\
     (rest <> [] -> 2 <= consumed run) /\
     (broke run = true -> 2 <= consumed run)).
Proof.
  intros u n run.
  assert (Hbody : forall m, u <> "" -> n = m ->
            loop_body db (mkLocals None AwaitUsername) req =
            if m =? 0 then ([Yield (say "You have 0 unread messages.")], Break,
                             mkLocals (Some u) AwaitUsername, db)
            else ([Yield (unread_prompt m)], Continue,
                  mkLocals (Some u) AwaitChoice, db)).
  { intros m Hu Hn. unfold loop_body. cbn [stage]. fold u.
    apply String.eqb_neq in Hu. rewrite Hu. fold n. rewrite Hn. reflexivity. }
  split; [|split].
  - intros Hu. unfold run, CheckMessages. cbn [for_loop].
    unfold loop_body. cbn [stage]. fold u. rewrite Hu. reflexivity.
  - intros Hu Hn. unfold run, CheckMessages.
    rewrite (for_loop_break db db _ (mkLocals (Some u) AwaitUsername) req rest
               [Yield (say "You have 0 unread messages.")]); [reflexivity|].
    rewrite (Hbody 0 Hu Hn). reflexivity.
  - intros Hu Hn.
    assert (Hb : loop_body db (mkLocals None AwaitUsername) req =
                 ([Yield (unread_prompt n)], Continue,
                  mkLocals (Some u) AwaitChoice, db)).
    { rewrite (Hbody n Hu eq_refl). destruct n; [lia | reflexivity]. }
    split; [exact Hb|].
    unfold run, CheckMessages. rewrite (for_loop_continue _ _ _ _ _ _ _ Hb).
    cbn [fst trace consumed broke app].
    split; [eexists; reflexivity|].
    split; [intros ->; reflexivity|].
    split.
    + intros Hr. destruct rest as [|r2 rest']; [congruence|].
      cbn [for_loop].
      destruct (loop_body db (mkLocals (Some u) AwaitChoice) r2) as [[[tr ctl] loc'] db'].
      destruct ctl; [destruct (for_loop db' loc' rest') as [r l]|]; cbn; lia.
    + intros Hbr. apply for_loop_broke_consumed in Hbr. lia.
Qed.

Lemma for_loop_invalid (msg : string)
    (bad : CheckMessagesRequest -> Prop) (db : Store) (loc : Locals) :
  (forall req, bad req -> loop_body db loc req = ([Yield (say msg)], Continue, loc, db)) ->
  forall reqs rest, Forall bad reqs ->
  for_loop db loc (reqs ++ rest) =
    (mkRun (map (fun _ => Yield (say msg)) reqs ++ trace (fst (for_loop db loc rest)))
           (length reqs + consumed (fst (for_loop db loc rest)))
           (broke (fst (for_loop db loc rest)))
           (final (fst (for_loop db loc rest))),
     snd (for_loop db loc rest)).
Proof.
  intros Hbody reqs rest Hall. induction Hall as [|req reqs Hreq _ IH].
  - cbn [app map length Nat.add]. destruct (for_loop db loc rest) as [[tr c b f] l].
    reflexivity.
  - cbn [app]. rewrite (for_loop_continue _ _ _ _ _ _ _ (Hbody req Hreq)).
    rewrite IH. reflexivity.
Qed.

(** C6. A turn in [AwaitChoice] whose stripped choice is neither "1" nor
    "2" is answered by the re-prompt "Invalid choice. Please type '1' or
    '2'.", and a turn in [AwaitSender] whose stripped sender is empty by
    "Please provide a valid sender name."; the iteration ends by
    [continue] with the same locals (hence the same stage) and the same
    store, and commits nothing.  Hence any number of such turns in a row
    gives that many re-prompts, leaves the handler running in the same
    stage on the same store, and the conversation goes on from there
    with whatever turns follow. *)
Theorem triage_invalid_turns_loop (db : Store) (loc : Locals)
    (reqs rest : list CheckMessagesRequest) :
  let invalid := say "Invalid choice. Please type '1' or '2'." in
  let provide := say "Please provide a valid sender name." in
  let after := for_loop db loc rest in
  (stage loc = AwaitChoice -> Forall invalid_choice reqs ->
     (forall req, In req reqs ->
        loop_body db loc req = ([Yield invalid], Continue, loc, db)) /\
     for_loop db loc reqs =
       (mkRun (map (fun _ => Yield invalid) reqs) (length reqs) false db, loc) /\
     no_commit (trace (fst (for_loop db loc reqs))) /\
     for_loop db loc (reqs ++ rest) =
       (mkRun (map (fun _ => Yield invalid) reqs ++ trace (fst after))
              (length reqs + consumed (fst after))
              (broke (fst after)) (final (fst after)), snd after)) /\
  (stage loc = AwaitSender -> Forall empty_sender reqs ->
     (forall req, In req reqs ->
        loop_body db loc req = ([Yield provide], Continue, loc, db)) /\
     for_loop db loc reqs =
       (mkRun (map (fun _ => Yield provide) reqs) (length reqs) false db, loc) /\
     no_commit (trace (fst (for_loop db loc reqs))) /\
     for_loop db loc (reqs ++ rest) =
       (mkRun (map (fun _ => Yield provide) reqs ++ trace (fst after))
              (length reqs + consumed (fst after))
              (broke (fst after)) (final (fst after)), snd after)).
Proof.
  intros invalid provide after.
  split; intros Hst Hall.
  - assert (Hbody : forall req, invalid_choice req ->
              loop_body db loc req = ([Yield invalid], Continue, loc, db)).
    { intros req [H1 H2]. unfold loop_body. rewrite Hst.
      apply String.eqb_neq in H1, H2. rewrite H1, H2. reflexivity. }
    pose proof (for_loop_invalid _ _ db loc Hbody reqs [] Hall) as Hrun.
    rewrite app_nil_r in Hrun. cbn in Hrun.
    rewrite app_nil_r, Nat.add_0_r in Hrun.
    split; [intros req Hin; apply Hbody; rewrite Forall_forall in Hall; auto|].
    split; [exact Hrun|].
    split; [rewrite Hrun; unfold no_commit; cbn [fst trace];
            apply commits_map_const|].
    apply (for_loop_invalid _ _ db loc Hbody reqs rest Hall).
  - assert (Hbody : forall req, empty_sender req ->
              loop_body db loc req = ([Yield provide], Continue, loc, db)).
    { intros req H1. unfold loop_body. rewrite Hst.
      unfold empty_sender in H1. rewrite H1. reflexivity. }
    pose proof (for_loop_invalid _ _ db loc Hbody reqs [] Hall) as Hrun.
    rewrite app_nil_r in Hrun. cbn in Hrun.
    rewrite app_nil_r, Nat.add_0_r in Hrun.
    split; [intros req Hin; apply Hbody; rewrite Forall_forall in Hall; auto|].
    split; [exact Hrun|].
    split; [rewrite Hrun; unfold no_commit; cbn [fst trace];
            apply commits_map_const|].
    apply (for_loop_invalid _ _ db loc Hbody reqs rest Hall).
Qed.

(* ================================================================= *)
(** ** Which calls add a row to [users] *)

Lemma loop_body_users (db : Store) (loc : Locals) (req : CheckMessagesRequest) :
  users (snd (loop_body db loc req)) = users db.
Proof.
  unfold loop_body. destruct (stage loc).
  - destruct (String.eqb (Py.strip (req_username req)) ""); [reflexivity|].
    destruct (select_unread_count db (Py.strip (req_username req)) =? 0); reflexivity.
  - destruct (String.eqb (Py.strip (req_choice req)) "2"); [reflexivity|].
    destruct (String.eqb (Py.strip (req_choice req)) "1"); [|reflexivity].
    destruct (select_unread_senders db (username loc)); reflexivity.
  - destruct (String.eqb (Py.strip (req_sender req)) ""); [reflexivity|].
    cbv zeta. rewrite replay_delivery.
    destruct (select_unread_from db (username loc) (Py.strip (req_sender req)));
      reflexivity.
Qed.

Lemma for_loop_users (reqs : list CheckMessagesRequest) (db : Store) (loc : Locals) :
  users (final (fst (for_loop db loc reqs))) = users db.
Proof.
  revert db loc. induction reqs as [|req rest IH]; intros db loc; cbn [for_loop].
  - reflexivity.
  - pose proof (loop_body_users db loc req) as Hb.
    destruct (loop_body db loc req) as [[[tr ctl] loc'] db']. cbn [snd] in Hb.
    destruct ctl.
    + specialize (IH db' loc'). destruct (for_loop db' loc' rest) as [r l].
      cbn [fst final] in *. congruence.
    + exact Hb.
Qed.

Lemma user_exists_filter (db : Store) (keep : UserRow -> bool) (name : string)
    (ms : list MessageRow) (n : Z) :
  user_exists (mkStore (filter keep (users db)) ms n) name -> user_exists db name.
Proof.
  intros [r [Hin Hr]]. cbn [users] in Hin. apply filter_In in Hin.
  exists r. split; [apply Hin | exact Hr].
Qed.

Lemma update_active_names (db : Store) (name : string) (b : bool) :
  map u_username (users (update_active db name b)) = map u_username (users db).
Proof.
  unfold update_active; cbn [users]. rewrite map_map. apply map_ext.
  intros r. destruct (String.eqb (u_username r) name); reflexivity.
Qed.

Lemma user_exists_names (db : Store) (name : string) :
  user_exists db name <-> In name (map u_username (users db)).
Proof.
  unfold user_exists. rewrite in_map_iff. split; intros [r [H1 H2]]; exists r; auto.
Qed.

Section Stability.

Variable hashpw : string -> string -> string.
Variable checkpw : string -> string -> bool.

Lemma serve_call_no_new_user (db : Store) (c : Call) (u : string) :
  ~ registers u c ->
  user_exists (serve_call hashpw checkpw db c) u -> user_exists db u.
Proof.
  destruct c as [salt rq|rq|rq|now md rq|turns|rq|turns|turns];
    cbn [serve_call registers]; intros Hreg.
  - unfold Register.
    repeat match goal with
           | |- context [if ?b then _ else _] => destruct b
           end; cbn [snd]; try (intros H; exact H).
    rewrite !user_exists_names. unfold insert_user; cbn [users].
    rewrite map_app, in_app_iff. cbn [map In u_username].
    intros [H|[H|[]]]; [exact H | contradiction].
  - unfold Login.
    repeat match goal with
           | |- context [if ?b then _ else _] => destruct b
           end; cbn [snd]; try (intros H; exact H).
    rewrite !user_exists_names, update_active_names. intros H; exact H.
  - unfold Logoff.
    destruct (String.eqb (Py.strip (logoff_username rq)) ""); cbn [snd];
      [intros H; exact H|].
    rewrite !user_exists_names, update_active_names. intros H; exact H.
  - unfold SendMessage.
    repeat match goal with
           | |- context [if ?b then _ else _] => destruct b
           end; cbn [snd]; intros H; exact H.
  - rewrite !user_exists_names. unfold CheckMessages.
    rewrite for_loop_users. intros H; exact H.
  - intros H; exact H.
  - unfold DeleteLastMessage. destruct turns as [|rq _]; [intros H; exact H|].
    destruct (String.eqb _ "yes"); [|intros H; exact H].
    destruct (select_last_unread_sent db _); intros H; exact H.
  - unfold DeactivateAccount. destruct turns as [|rq _]; [intros H; exact H|].
    destruct (String.eqb _ "yes"); [|intros H; exact H].
    cbn [final]. unfold exec_all; cbn [fold_left exec users messages next_messageid].
    apply user_exists_filter.
Qed.

Lemma serve_calls_no_new_user (calls : list Call) (db : Store) (u : string) :
  Forall (fun c => ~ registers u c) calls ->
  ~ user_exists db u ->
  ~ user_exists (serve_calls hashpw checkpw db calls) u.
Proof.
  revert db. induction calls as [|c calls IH]; intros db Hall Hno;
    cbn [serve_calls fold_left]; [exact Hno|].
  inversion Hall as [|c' l Hc Hl]; subst.
  apply (IH _ Hl). intros H. apply Hno.
  apply (serve_call_no_new_user db c u Hc H).
Qed.

End Stability.

(* ================================================================= *)
(** ** [DeactivateAccount] *)

(** C3. When the confirmation of the turn is "yes" (after stripping and
    lower-casing, so for "yes" itself), [DeactivateAccount] commits the
    deletion of the messages sent by [u] and of the user row of [u], in
    one transaction, answers "removed" and stops.  In the store it
    leaves, no message has sender [u], no row of [users] has username
    [u], and [SearchUsers] does not list [u] for any caller, then and
    after any further calls that do not register [u] again; the messages
    whose sender is not [u], those received by [u] among them, are all
    still there, as are the other users. *)
Theorem DeactivateAccount_cascade
    (hashpw : string -> string -> string) (checkpw : string -> string -> bool)
    (db : Store) (req : ConfirmRequest) (rest : list ConfirmRequest) :
  Py.lower (Py.strip (conf_confirmation req)) = "yes" ->
  let u := Py.strip (conf_username req) in
  let run := DeactivateAccount db (req :: rest) in
  trace run =
    [Yield (mkResponse "deactivate"
              "Are you sure you want to deactivate your account? (yes/no)");
     Commit [DeleteMessagesFrom u; DeleteUser u];
     Yield (mkResponse "deactivate" "Your account and sent messages are removed.")] /\
  consumed run = 1 /\ broke run = true /\
  (forall m, In m (messages (final run)) -> sender m <> u) /\
  ~ user_exists (final run) u /\
  (forall caller, ~ In u (sr_usernames (SearchUsers (Some (final run)) caller))) /\
  (forall calls caller,
     Forall (fun c => ~ registers u c) calls ->
     ~ In u (sr_usernames
               (SearchUsers (Some (serve_calls hashpw checkpw (final run) calls))
                            caller))) /\
  (forall m, In m (messages db) -> sender m <> u -> In m (messages (final run))) /\
  (forall m, In m (messages db) -> receiver m = u -> sender m <> u ->
             In m (messages (final run))) /\
  (forall m, In m (messages (final run)) -> In m (messages db)) /\
  (forall r, In r (users (final run)) <-> In r (users db) /\ u_username r <> u).
Proof.
  intros Hyes u run.
  assert (Hrun : run = mkRun
            [Yield (mkResponse "deactivate"
                      "Are you sure you want to deactivate your account? (yes/no)");
             Commit [DeleteMessagesFrom u; DeleteUser u];
             Yield (mkResponse "deactivate"
                      "Your account and sent messages are removed.")]
            1 true
            (mkStore
               (filter (fun r => negb (String.eqb (u_username r) u)) (users db))
               (filter (fun m => negb (String.eqb (sender m) u)) (messages db))
               (next_messageid db))).
  { unfold run, DeactivateAccount. rewrite Hyes. reflexivity. }
  rewrite Hrun. cbn [trace consumed broke final users messages].
  assert (Hno : ~ user_exists
                  (mkStore
                     (filter (fun r => negb (String.eqb (u_username r) u)) (users db))
                     (filter (fun m => negb (String.eqb (sender m) u)) (messages db))
                     (next_messageid db)) u).
  { intros [r [Hin Hr]]. cbn [users] in Hin. apply filter_In in Hin.
    destruct Hin as [_ Hne]. apply negb_true_iff, String.eqb_neq in Hne. contradiction. }
  split; [reflexivity|]. split; [reflexivity|]. split; [reflexivity|].
  split.
  { intros m Hin. apply filter_In in Hin. destruct Hin as [_ Hne].
    apply negb_true_iff, String.eqb_neq in Hne. exact Hne. }
  split; [exact Hno|].
  split.
  { intros caller Hin. apply SearchUsers_names in Hin. apply Hno, Hin. }
  split.
  { intros calls caller Hall Hin. apply SearchUsers_names in Hin.
    apply (serve_calls_no_new_user hashpw checkpw calls _ u Hall Hno), Hin. }
  split.
  { intros m Hin Hne. apply filter_In. split; [exact Hin|].
    apply negb_true_iff, String.eqb_neq. exact Hne. }
  split.
  { intros m Hin _ Hne. apply filter_In. split; [exact Hin|].
    apply negb_true_iff, String.eqb_neq. exact Hne. }
  split.
  { intros m Hin. apply filter_In in Hin. apply Hin. }
  intros r. rewrite filter_In, negb_true_iff, String.eqb_neq. reflexivity.
Qed.

(* ================================================================= *)
(** ** [DeleteLastMessage] *)

Lemma ascending_last (l : list MessageRow) (m : MessageRow) :
  ascending (l ++ [m]) ->
  forall x, In x (l ++ [m]) -> (messageid x <= messageid m)%Z.
Proof.
  unfold ascending. induction l as [|y l IH]; cbn [app]; intros Hs x Hx.
  - destruct Hx as [<-|[]]. lia.
  - apply StronglySorted_inv in Hs. destruct Hs as [Hl Hy].
    destruct Hx as [<-|Hx].
    + rewrite Forall_forall in Hy. apply Hy. apply in_or_app. right. left. reflexivity.
    + apply IH; assumption.
Qed.


Lemma select_last_unread_sent_none (db : Store) (u : string) :
  select_last_unread_sent db u = None <->
  (forall m, In m (messages db) -> unread_sent_by u m = false).
Proof.
  unfold select_last_unread_sent.
  set (l := order_by_messageid (filter (unread_sent_by u) (messages db))).
  assert (Hperm : Permutation l (filter (unread_sent_by u) (messages db)))
    by apply order_by_messageid_perm.
  split.
  - intros H m Hin. destruct (unread_sent_by u m) eqn:E; [|reflexivity]. exfalso.
    assert (Hm : In m l).
    { apply (Permutation_in _ (Permutation_sym Hperm)). apply filter_In. auto. }
    apply (in_map messageid), in_rev in Hm.
    destruct (rev (map messageid l)); [destruct Hm | discriminate H].
  - intros H. destruct l as [|m l'] eqn:E; [reflexivity|]. exfalso.
    assert (Hm : In m (filter (unread_sent_by u) (messages db))).
    { apply (Permutation_in _ Hperm). left. reflexivity. }
    apply filter_In in Hm. destruct Hm as [Hin Hun]. rewrite (H m Hin) in Hun.
    discriminate.
Qed.

Lemma select_last_unread_sent_some (db : Store) (u : string) (last_id : Z) :
  select_last_unread_sent db u = Some last_id ->
  exists last, In last (messages db) /\ unread_sent_by u last = true /\
               messageid last = last_id /\
               forall m, In m (messages db) -> unread_sent_by u m = true ->
                         (messageid m <= last_id)%Z.
Proof.
  unfold select_last_unread_sent.
  set (l := order_by_messageid (filter (unread_sent_by u) (messages db))).
  assert (Hperm : Permutation l (filter (unread_sent_by u) (messages db)))
    by apply order_by_messageid_perm.
  assert (Hasc : ascending l) by apply order_by_messageid_ascending.
  rewrite <- map_rev. intros H.
  destruct (rev l) as [|last r] eqn:E; [discriminate|].
  cbn in H. injection H as Hid.
  assert (El : l = (rev r ++ [last])%list)
    by (rewrite <- (rev_involutive l), E; reflexivity).
  assert (Hlast : In last (filter (unread_sent_by u) (messages db))).
  { apply (Permutation_in _ Hperm). rewrite El. apply in_or_app. right. left. reflexivity. }
  apply filter_In in Hlast. destruct Hlast as [Hin Hun].
  exists last. repeat split; try assumption.
  intros m Hm Hmu. rewrite <- Hid. rewrite El in Hasc.
  apply (ascending_last _ _ Hasc). rewrite <- El.
  apply (Permutation_in _ (Permutation_sym Hperm)). apply filter_In. auto.
Qed.

Lemma delete_by_id_In (l : list MessageRow) (last x : MessageRow) :
  NoDup (map messageid l) -> In last l ->
  (In x (filter (fun m => negb (messageid m =? messageid last)%Z) l) <->
   In x l /\ x <> last).
Proof.
  intros Hnd Hlast. rewrite filter_In, negb_true_iff, Z.eqb_neq.
  split; intros [Hin Hne]; split; try exact Hin.
  - intros ->. apply Hne. reflexivity.
  - intros Hid. apply Hne.
    clear Hne. induction l as [|y l IH]; [destruct Hin|].
    cbn [map] in Hnd. apply NoDup_cons_iff in Hnd. destruct Hnd as [Hy Hnd].
    destruct Hin as [->|Hin], Hlast as [->|Hlast].
    + reflexivity.
    + exfalso. apply Hy. rewrite Hid. apply in_map. exact Hlast.
    + exfalso. apply Hy. rewrite <- Hid. apply in_map. exact Hin.
    + apply IH; assumption.
Qed.

(** C2, as the code has it.  [DeleteLastMessage] yields its prompt and
    takes one turn; it compares the confirmation, stripped and
    lower-cased, with "yes", and uses the stripped username.  When they
    are equal and no unread message has that sender, it answers "No
    unread messages to delete." and the store is as before; when some
    has, it deletes the one of greatest id among them (and, ids being
    keys, nothing else) and answers "deleted".  When they differ ("no",
    the empty text, anything else) it answers "Delete canceled." and the
    store is as before.  In each case it stops after that answer,
    whatever turns follow. *)
Theorem DeleteLastMessage_spec (db : Store) (req : ConfirmRequest)
    (rest : list ConfirmRequest) :
  let u := Py.strip (conf_username req) in
  let confirm := Py.lower (Py.strip (conf_confirmation req)) in
  let run := DeleteLastMessage db (req :: rest) in
  let prompt := Yield (mkResponse "delete"
    "Are you sure you want to delete your last unread message? (yes/no)") in
  (confirm = "yes" ->
     ((forall m, In m (messages db) -> unread_sent_by u m = false) ->
        run = mkRun [prompt;
                     Yield (mkResponse "delete" "No unread messages to delete.")]
                    1 true db) /\
     (forall m0, In m0 (messages db) -> unread_sent_by u m0 = true ->
        exists last,
          In last (messages db) /\ sender last = u /\ isread last = false /\
          (forall m, In m (messages db) -> sender m = u -> isread m = false ->
                     (messageid m <= messageid last)%Z) /\
          run = mkRun [prompt; Commit [DeleteMessage (messageid last)];
                       Yield (mkResponse "delete"
                                "Your last unread message was deleted.")]
                      1 true
                      (mkStore (users db)
                         (filter (fun m => negb (messageid m =? messageid last)%Z)
                                 (messages db))
                         (next_messageid db)) /\
          (NoDup (map messageid (messages db)) ->
           forall x, In x (messages (final run)) <-> In x (messages db) /\ x <> last))) /\
  (confirm <> "yes" ->
     run = mkRun [prompt; Yield (mkResponse "delete" "Delete canceled.")] 1 true db).
Proof.
  intros u confirm run prompt. split.
  - intros Hyes. split.
    + intros Hnone. apply select_last_unread_sent_none in Hnone.
      unfold run, DeleteLastMessage. fold confirm u. rewrite Hyes, Hnone. reflexivity.
    + intros m0 Hin0 Hun0.
      destruct (select_last_unread_sent db u) as [last_id|] eqn:E.
      2:{ rewrite select_last_unread_sent_none in E.
          rewrite (E m0 Hin0) in Hun0. discriminate. }
      destruct (select_last_unread_sent_some db u last_id E)
        as [last [Hin [Hun [Hid Hmax]]]].
      assert (Hrun : run = mkRun
                [prompt; Commit [DeleteMessage (messageid last)];
                 Yield (mkResponse "delete" "Your last unread message was deleted.")]
                1 true
                (mkStore (users db)
                   (filter (fun m => negb (messageid m =? messageid last)%Z)
                           (messages db))
                   (next_messageid db))).
      { unfold run, DeleteLastMessage. fold confirm u. rewrite Hyes, E, Hid. reflexivity. }
      unfold unread_sent_by in Hun.
      apply andb_true_iff in Hun. destruct Hun as [Hs Hr].
      apply String.eqb_eq in Hs. apply negb_true_iff in Hr.
      exists last. split; [exact Hin|]. split; [exact Hs|]. split; [exact Hr|].
      split.
      { intros m Hm Hms Hmr. rewrite Hid. apply Hmax; [exact Hm|].
        unfold unread_sent_by. rewrite Hms, Hmr, String.eqb_refl. reflexivity. }
      split; [exact Hrun|].
      intros Hnd x. rewrite Hrun. cbn [final messages].
      apply delete_by_id_In; assumption.
  - intros Hno. unfold run, DeleteLastMessage. fold confirm u.
    apply String.eqb_neq in Hno. rewrite Hno. reflexivity.
Qed.

(** C2, as the claim words it, fails: the confirmation "YES" is not the
    string "yes", yet the handler answers "deleted" and message 9, the
    last unread message sent by alice, is gone from the store. *)
Lemma DeleteLastMessage_uppercase_yes_deletes :
  let req := mkConfirmRequest "alice" "YES" in
  let run := DeleteLastMessage example_db [req] in
  conf_confirmation req <> "yes" /\
  yields (trace run) =
    [mkResponse "delete"
       "Are you sure you want to delete your last unread message? (yes/no)";
     mkResponse "delete" "Your last unread message was deleted."] /\
  In (example_message 9 "bob" "alice" "a9" false) (messages example_db) /\
  ~ In (example_message 9 "bob" "alice" "a9" false) (messages (final run)) /\
  final run <> example_db.
Proof.
  cbv zeta. split; [discriminate|]. split; [reflexivity|].
  split; [vm_compute; tauto|].
  split.
  - vm_compute. intros H.
    repeat (destruct H as [H|H]; [discriminate H|]). exact H.
  - intros H. apply (f_equal (fun d => length (messages d))) in H.
    vm_compute in H. discriminate H.
Qed.

(* ================================================================= *)
(** ** Stripping twice *)

Lemma lstrip_cases (s : string) :
  Py.lstrip s = "" \/
  exists c s', Py.lstrip s = String c s' /\ Py.isspace c = false.
Proof.
  induction s as [|c s IH]; cbn [Py.lstrip]; [left; reflexivity|].
  destruct (Py.isspace c) eqn:E; [exact IH|].
  right. exists c, s. split; [reflexivity | exact E].
Qed.

Lemma rstrip_head (c : ascii) (s : string) :
  Py.isspace c = false -> exists r, Py.rstrip (String c s) = String c r.
Proof.
  intros E. cbn [Py.rstrip]. destruct (Py.rstrip s) as [|c' r].
  - rewrite E. exists "". reflexivity.
  - exists (String c' r). reflexivity.
Qed.

Lemma rstrip_idempotent (s : string) : Py.rstrip (Py.rstrip s) = Py.rstrip s.
Proof.
  induction s as [|c s IH]; [reflexivity|].
  cbn [Py.rstrip]. destruct (Py.rstrip s) as [|c' r] eqn:E.
  - destruct (Py.isspace c) eqn:Ec; [reflexivity|].
    cbn [Py.rstrip]. rewrite Ec. reflexivity.
  - change (Py.rstrip (String c (String c' r)))
      with (match Py.rstrip (String c' r) with
            | EmptyString => if Py.isspace c then EmptyString else String c EmptyString
            | r' => String c r'
            end).
    rewrite IH. reflexivity.
Qed.

Lemma strip_idempotent (s : string) : Py.strip (Py.strip s) = Py.strip s.
Proof.
  unfold Py.strip. destruct (lstrip_cases s) as [->|[c [s' [-> Ec]]]]; [reflexivity|].
  destruct (rstrip_head c s' Ec) as [r Hr]. rewrite Hr.
  cbn [Py.lstrip]. rewrite Ec, <- Hr. apply rstrip_idempotent.
Qed.

(** A successful [Register] stores a name that is not empty and that
    stripping leaves as it is: the name a triage conversation of that
    user looks up. *)
Lemma Register_stores_stripped_name (hashpw : string -> string -> string)
    (db : Store) (salt : string) (request : RegisterRequest) (r : UserRow) :
  In r (users (snd (Register hashpw db salt request))) ->
  In r (users db) \/ (u_username r <> "" /\ Py.strip (u_username r) = u_username r).
Proof.
  unfold Register.
  destruct (String.eqb_spec (Py.strip (reg_username request)) "") as [E|E];
    cbn [orb]; [left; assumption|].
  repeat match goal with
         | |- context [if ?b then _ else _] => destruct b
         end; cbn [snd]; try (left; assumption).
  unfold insert_user; cbn [users]. rewrite in_app_iff. cbn [In].
  intros [H|[<-|[]]]; [left; exact H | right].
  cbn [u_username]. split; [exact E | apply strip_idempotent].
Qed.

(* ================================================================= *)
(** ** From [SendMessage] to triage *)

Lemma deliveries_of_delivery (msgs : list MessageRow) :
  Forall (fun m => sender m <> "") msgs ->
  deliveries (yields (flat_map deliver_batch (batches msgs) ++ [Yield done_reading]))
  = map delivery msgs.
Proof.
  intros Hs. rewrite yields_app, yields_batches.
  unfold deliveries. rewrite filter_app.
  fold (deliveries (flat_map batch_turns (batches msgs))).
  rewrite deliveries_batches by (rewrite batches_concat; exact Hs).
  rewrite batches_concat. cbn. apply app_nil_r.
Qed.

Lemma mark_read_not_In (ids : list Z) (db : Store) (m : MessageRow) :
  isread m = false -> id_in ids m = true -> ~ In m (messages (mark_read ids db)).
Proof.
  intros Hr Hid Hin. unfold mark_read in Hin; cbn [messages] in Hin.
  apply in_map_iff in Hin. destruct Hin as [x [Hx _]].
  destruct (id_in ids x) eqn:E.
  - subst m. cbn in Hr. discriminate.
  - subst x. congruence.
Qed.

Lemma mark_read_In (ids : list Z) (db : Store) (m : MessageRow) :
  In m (messages db) -> id_in ids m = true ->
  In (set_isread m) (messages (mark_read ids db)).
Proof.
  intros Hin Hid. unfold mark_read; cbn [messages].
  apply in_map_iff. exists m. rewrite Hid. auto.
Qed.

Lemma id_in_ids (l : list MessageRow) (m : MessageRow) :
  In m l -> id_in (map messageid l) m = true.
Proof.
  intros Hin. unfold id_in. apply existsb_exists. exists (messageid m).
  split; [apply in_map; exact Hin | apply Z.eqb_refl].
Qed.

Lemma unread_for_new (target sndr body : string) (now : DateTime) (id : Z) :
  unread_for (Some target) (mkMessage id target sndr body now false) = true.
Proof. unfold unread_for; cbn. rewrite String.eqb_refl. reflexivity. Qed.

Lemma unread_for_read (user : option string) (m : MessageRow) :
  isread m = true -> unread_for user m = false.
Proof. intros H. unfold unread_for. rewrite H. apply andb_false_r. Qed.

(** C7. [SendMessage] answers [success = false] and leaves the store as
    it is when the stripped text does not start with "@", when it has no
    space (so none after the "@username" part), and when the name between
    the "@" and the first space is not a username of [users]; a text that
    starts with "@" and has a space does split in this way.  Otherwise
    it answers [success = true] and appends one row to [messages]: the
    body after the first space, for that receiver, unread.  From then on
    the row counts among the receiver's unread messages: the first turn
    of the receiver's triage reports one unread message more, and the
    turn choosing the sender delivers it; that turn marks it read, and
    once its id has been marked read it is no longer among the unread
    messages, the unread count being back to what it was. *)
Theorem SendMessage_spec (db : Store) (now : DateTime)
    (md : list (string * string)) (request : GeneralMessage)
    (target body : string) :
  let full_text := Py.strip (gm_message request) in
  let sndr := md_get md "username" "unknown" in
  let out := SendMessage db now md request in
  (Py.startswith full_text "@" = false ->
     sm_success (fst out) = false /\ snd out = db) /\
  (Py.startswith full_text "@" = true -> has_space full_text = false ->
     sm_success (fst out) = false /\ snd out = db) /\
  (Py.startswith full_text "@" = true -> has_space full_text = true ->
     exists target' body',
       full_text = String "@"%char (target' ++ String " "%char body') /\
       has_space target' = false) /\
  (full_text = String "@"%char (target ++ String " "%char body) ->
   has_space target = false ->
       (~ user_exists db target ->
          sm_success (fst out) = false /\ snd out = db) /\
       (user_exists db target ->
          let new := mkMessage (next_messageid db) target sndr body now false in
          let db' := snd out in
          sm_success (fst out) = true /\
          users db' = users db /\
          messages db' = (messages db ++ [new])%list /\
          In new (filter (unread_for (Some target)) (messages db')) /\
          select_unread_count db' target = S (select_unread_count db target) /\
          (forall first,
             Py.strip (req_username first) = target -> target <> "" ->
             loop_body db' (mkLocals None AwaitUsername) first =
               ([Yield (unread_prompt (S (select_unread_count db target)))],
                Continue, mkLocals (Some target) AwaitChoice, db')) /\
          (forall loc req,
             stage loc = AwaitSender -> username loc = Some target ->
             Py.strip (req_sender req) = sndr -> sndr <> "" ->
             exists tr db'',
               loop_body db' loc req = (tr, Break, loc, db'') /\
               In (delivery new) (yields tr) /\
               In (set_isread new) (messages db'') /\
               ~ In new (messages db'') /\
               filter (unread_from (Some target) sndr) (messages db'') = []) /\
          (forall ids, In (next_messageid db) ids ->
             ~ In new (messages (mark_read ids db')) /\
             forall m, In m (messages (mark_read ids db')) ->
                       messageid m = next_messageid db ->
                       unread_for (Some target) m = false) /\
          (store_wf db ->
             select_unread_count (mark_read [next_messageid db] db') target =
             select_unread_count db target))).
Proof.
  intros full_text sndr out.
  split; [|split; [|split]].
  - intros Hs. unfold out, SendMessage. fold full_text. rewrite Hs. split; reflexivity.
  - intros Hs Hsp. unfold out, SendMessage. fold full_text.
    rewrite Hs, (split_no_space _ Hsp). split; reflexivity.
  - intros Hs Hsp.
    apply startswith_at in Hs. destruct Hs as [t Ht].
    assert (Hspt : has_space t = true).
    { rewrite Ht in Hsp. unfold has_space in *. cbn [Py.any] in Hsp.
      change (Ascii.eqb "@"%char " "%char) with false in Hsp. exact Hsp. }
    destruct (has_space_split t Hspt) as [target' [body' [Et Htarget]]].
    exists target', body'.
    split; [rewrite Ht, Et; reflexivity | exact Htarget].
  - intros Efull Htarget.
    pose proof (SendMessage_well_formed db now md request target body Efull Htarget)
      as Hout. fold out sndr in Hout.
    split.
    + intros Hno. apply checkRealUsername_false_iff in Hno.
      rewrite Hout, Hno. split; reflexivity.
    + intros Hex new db'. apply checkRealUsername_iff in Hex.
      assert (Edb : db' = insert_message db now target sndr body)
        by (unfold db'; rewrite Hout, Hex; reflexivity).
      assert (Emsgs : messages db' = (messages db ++ [new])%list)
        by (rewrite Edb; reflexivity).
      assert (Hnew : In new (messages db'))
        by (rewrite Emsgs; apply in_or_app; right; left; reflexivity).
      assert (Hcount : select_unread_count db' target =
                       S (select_unread_count db target)).
      { unfold select_unread_count at 1. rewrite Emsgs, unread_count_app.
        cbn [filter]. unfold new. rewrite unread_for_new. cbn [length]. lia. }
      split; [rewrite Hout, Hex; reflexivity|].
      split; [rewrite Edb; reflexivity|].
      split; [exact Emsgs|].
      split; [apply filter_In; split; [exact Hnew | apply unread_for_new]|].
      split; [exact Hcount|].
      split.
      { intros first Hfirst Hne. unfold loop_body. cbn [stage]. rewrite Hfirst.
        apply String.eqb_neq in Hne. rewrite Hne, Hcount. reflexivity. }
      split.
      { intros loc req Hst Hu Hreq Hne.
        set (msgs := select_unread_from db' (Some target) sndr).
        assert (Hin : In new msgs).
        { apply select_unread_from_In. split; [exact Hnew|].
          unfold unread_from, new; cbn. rewrite !String.eqb_refl. reflexivity. }
        exists (flat_map deliver_batch (batches msgs) ++ [Yield done_reading])%list,
               (mark_read (map messageid msgs) db').
        split.
        { apply loop_body_deliver; try assumption.
          fold msgs. intros Hnil. rewrite Hnil in Hin. destruct Hin. }
        assert (Hsenders : Forall (fun m => sender m <> "") msgs).
        { apply Forall_forall. intros m Hm. apply select_unread_from_In in Hm.
          destruct Hm as [_ Hm]. apply unread_from_sender in Hm.
          destruct Hm as [_ [-> _]]. exact Hne. }
        split.
        { assert (Hd : In (delivery new)
                         (deliveries (yields (flat_map deliver_batch (batches msgs)
                                              ++ [Yield done_reading]))))
            by (rewrite deliveries_of_delivery by exact Hsenders;
                apply in_map; exact Hin).
          unfold deliveries in Hd. apply filter_In in Hd. apply Hd. }
        split; [apply mark_read_In; [exact Hnew | apply id_in_ids; exact Hin]|].
        split; [apply mark_read_not_In; [reflexivity | apply id_in_ids; exact Hin]|].
        apply unread_from_after_mark. }
      split.
      { intros ids Hids.
        assert (Hid : forall m, messageid m = next_messageid db -> id_in ids m = true).
        { intros m Hm. unfold id_in. apply existsb_exists.
          exists (next_messageid db). split; [exact Hids | apply Z.eqb_eq; exact Hm]. }
        split; [apply mark_read_not_In; [reflexivity | apply Hid; reflexivity]|].
        intros m Hm Hmid. apply unread_for_read.
        unfold mark_read in Hm; cbn [messages] in Hm.
        apply in_map_iff in Hm. destruct Hm as [x [Hx _]].
        destruct (id_in ids x) eqn:E; subst m; [reflexivity|].
        rewrite (Hid x Hmid) in E. discriminate. }
      intros Hwf. unfold select_unread_count, mark_read. cbn [messages].
      rewrite Emsgs, map_app, filter_app, length_app.
      rewrite (map_mark_fresh db (messages db))
        by (intros m Hm; apply id_in_fresh; assumption).
      cbn [map]. unfold id_in at 1. unfold new at 1. cbn [messageid existsb].
      rewrite Z.eqb_refl. cbn [orb filter].
      rewrite unread_for_read by reflexivity. cbn [length]. lia.
Qed.

(* ================================================================= *)
(** ** The statements at the example store *)


(** Marking 8 and 1 read twice is marking them once; row 8, read
    already, is not changed by the update. *)
Lemma mark_read_idempotent_example :
  let m8 := example_message 8 "alice" "bob" "m8" true in
  (if id_in [8%Z; 1%Z] m8 then set_isread m8 else m8) = m8 /\
  In m8 (messages (mark_read [8%Z; 1%Z] example_db)) /\
  exec_all [MarkRead [8%Z; 1%Z]; MarkRead [8%Z; 1%Z]] example_db =
  exec_all [MarkRead [8%Z; 1%Z]] example_db.
Proof.
  intros m8.
  destruct (mark_read_idempotent [8%Z; 1%Z] example_db)
    as (H1 & _ & H3 & _ & _ & _ & _ & _ & H9).
  split; [apply H1; reflexivity|].
  split; [apply H3; [vm_compute; tauto | reflexivity] | exact H9].
Defined.

(** Alice's search lists bob, who is logged off, and carol; without a
    store the answer is a failure. *)
Lemma SearchUsers_spec_example :
  sr_success (SearchUsers (Some example_db) (mkSearchRequest " alice ")) = true /\
  In "bob" (sr_usernames (SearchUsers (Some example_db) (mkSearchRequest " alice "))) /\
  sr_success (SearchUsers None (mkSearchRequest " alice ")) = false.
Proof.
  pose proof (SearchUsers_spec (Some example_db) (mkSearchRequest " alice ")) as H.
  cbv zeta in H. destruct H as [H _].
  destruct (H example_db eq_refl) as (Hs & _ & _ & Hoff & _).
  split; [exact Hs|]. split.
  - apply (Hoff (mkUser "bob" "digest-b" false)).
    + vm_compute; tauto.
    + vm_compute; discriminate.
    + reflexivity.
  - pose proof (SearchUsers_spec None (mkSearchRequest " alice ")) as H'.
    cbv zeta in H'. destruct H' as [_ H']. apply H'. reflexivity.
Defined.

(** The five outcomes of [Register], in the order of the checks. *)
Lemma Register_spec_example :
  fst (Register example_hashpw example_db "s" (mkRegisterRequest "alice" " " "abc")) =
    mkResponse "1" "Registration canceled: All fields are required." /\
  fst (Register example_hashpw example_db "s" (mkRegisterRequest " alice " "abc" "x")) =
    mkResponse "1" "Username taken. Please choose another." /\
  fst (Register example_hashpw example_db "s" (mkRegisterRequest "dave" "abcdefg" "x")) =
    mkResponse "1"
      "Invalid password: Must be >=7 chars, include uppercase, digit, and special char." /\
  fst (Register example_hashpw example_db "s" (mkRegisterRequest "dave" "Abcdef1!" "x")) =
    mkResponse "1" "Passwords do not match." /\
  Register example_hashpw example_db "s" (mkRegisterRequest " dave" "Abcdef1!" "Abcdef1! ") =
    (mkResponse "1" "Registration successful. You are now logged in!",
     mkStore (users example_db ++ [mkUser "dave" "$2b$s$Abcdef1!" true])
             (messages example_db) (next_messageid example_db)).
Proof.
  assert (Hdave : ~ user_exists example_db "dave")
    by (apply checkRealUsername_false_iff; reflexivity).
  assert (Halice : user_exists example_db "alice")
    by (apply checkRealUsername_iff; reflexivity).
  assert (Hgood : password_policy "Abcdef1!")
    by (apply checkValidPassword_iff; reflexivity).
  assert (Hbad : ~ password_policy "abcdefg")
    by (rewrite <- checkValidPassword_iff; discriminate).
  assert (Hfull : forall a b c : string, a <> "" -> b <> "" -> c <> "" ->
                    a <> "" /\ b <> "" /\ c <> "") by (intros; auto).
  split; [|split; [|split; [|split]]].
  - pose proof (Register_spec example_hashpw example_db "s"
                  (mkRegisterRequest "alice" " " "abc")) as H.
    cbv zeta in H. destruct H as (H & _). rewrite H; [reflexivity|].
    right; left; reflexivity.
  - pose proof (Register_spec example_hashpw example_db "s"
                  (mkRegisterRequest " alice " "abc" "x")) as H.
    cbv zeta in H. destruct H as (_ & H & _).
    destruct H as (H & _); [apply Hfull; discriminate|].
    rewrite H; [reflexivity | exact Halice].
  - pose proof (Register_spec example_hashpw example_db "s"
                  (mkRegisterRequest "dave" "abcdefg" "x")) as H.
    cbv zeta in H. destruct H as (_ & H & _).
    destruct H as (_ & H & _); [apply Hfull; discriminate|].
    rewrite H; [reflexivity | exact Hdave | exact Hbad].
  - pose proof (Register_spec example_hashpw example_db "s"
                  (mkRegisterRequest "dave" "Abcdef1!" "x")) as H.
    cbv zeta in H. destruct H as (_ & H & _).
    destruct H as (_ & _ & H & _); [apply Hfull; discriminate|].
    rewrite H; [reflexivity | exact Hdave | exact Hgood | discriminate].
  - pose proof (Register_spec example_hashpw example_db "s"
                  (mkRegisterRequest " dave" "Abcdef1!" "Abcdef1! ")) as H.
    cbv zeta in H. destruct H as (_ & H & _).
    destruct H as (_ & _ & _ & H); [apply Hfull; discriminate|].
    apply H; [exact Hdave | exact Hgood | reflexivity].
Defined.

(** A message to bob sent without a "username" in the metadata is stored
    with the sender "unknown", which is no user; sent with the metadata
    username "mallory", who is no user either, it is stored with the
    sender "mallory". *)
Lemma SendMessage_sender_unchecked_example :
  let hello := mkGeneralMessage "sendmessage" " @bob hello there " in
  let out := SendMessage example_db noon [("user-agent", "grpc-python")] hello in
  let forged := SendMessage example_db noon
                  [("username", "alice"); ("user-agent", "grpc-python");
                   ("username", "mallory")] hello in
  md_get [("user-agent", "grpc-python")] "username" "unknown" = "unknown" /\
  ~ user_exists example_db "unknown" /\
  sm_success (fst out) = true /\
  In (mkMessage 10 "bob" "unknown" "hello there" noon false) (messages (snd out)) /\
  ~ user_exists example_db "mallory" /\
  sm_success (fst forged) = true /\
  In (mkMessage 10 "bob" "mallory" "hello there" noon false) (messages (snd forged)).
Proof.
  intros hello out forged.
  assert (Hbob : user_exists example_db "bob")
    by (apply checkRealUsername_iff; reflexivity).
  assert (Hunknown : ~ user_exists example_db "unknown")
    by (apply checkRealUsername_false_iff; reflexivity).
  assert (Hmallory : ~ user_exists example_db "mallory")
    by (apply checkRealUsername_false_iff; reflexivity).
  pose proof (SendMessage_sender_unchecked example_db noon
                [("user-agent", "grpc-python")] hello
                "bob" "hello there" eq_refl eq_refl Hbob) as H.
  cbv zeta in H. destruct H as (Hs & _ & _ & _ & Hins).
  assert (Habs : forall v, ~ In ("username", v) [("user-agent", "grpc-python")]).
  { intros v [Hv|[]]. discriminate Hv. }
  split; [apply Hs; exact Habs|]. split; [exact Hunknown|].
  split; [rewrite (Hs Habs) in Hins; apply Hins; exact Hunknown|].
  split; [rewrite (Hs Habs) in Hins; apply Hins; exact Hunknown|].
  pose proof (SendMessage_sender_unchecked example_db noon
                [("username", "alice"); ("user-agent", "grpc-python");
                 ("username", "mallory")] hello
                "bob" "hello there" eq_refl eq_refl Hbob) as H'.
  cbv zeta in H'. destruct H' as (_ & Hkey & Hok & _).
  destruct (Hkey [("username", "alice"); ("user-agent", "grpc-python")] "mallory" []
              eq_refl (fun v' (F : In ("username", v') []) => F)) as [_ Hin].
  split; [exact Hmallory|]. split; [exact Hok | exact Hin].
Defined.

(** The four outcomes of [SendMessage], and the way of the stored message
    through carol's triage. *)
Lemma SendMessage_spec_example :
  let md := [("username", "alice")] in
  let send text := SendMessage example_db noon md (mkGeneralMessage "sendmessage" text) in
  let new := mkMessage 10 "carol" "alice" "hi carol" noon false in
  send "hello carol" = (mkSendMessageResponse false
     "Message must start with '@username' for a direct message.", example_db) /\
  snd (send "@carol") = example_db /\
  snd (send "@dave hi") = example_db /\
  messages (snd (send " @carol hi carol")) = (messages example_db ++ [new])%list /\
  select_unread_count (snd (send " @carol hi carol")) "carol" = 1 /\
  select_unread_count (mark_read [10%Z] (snd (send " @carol hi carol"))) "carol" = 0 /\
  ~ In new (messages (mark_read [10%Z] (snd (send " @carol hi carol")))).
Proof.
  intros md send new. subst send. cbv beta.
  assert (Hcarol : user_exists example_db "carol")
    by (apply checkRealUsername_iff; reflexivity).
  assert (Hdave : ~ user_exists example_db "dave")
    by (apply checkRealUsername_false_iff; reflexivity).
  assert (Hwf : store_wf example_db).
  { split.
    - repeat (constructor; [cbn; intuition discriminate|]). constructor.
    - repeat (constructor; [reflexivity|]). constructor. }
  split; [|split; [|split]].
  - pose proof (SendMessage_spec example_db noon md
                  (mkGeneralMessage "sendmessage" "hello carol") "" "") as H.
    cbv zeta in H. destruct H as (H & _). destruct (H eq_refl) as [_ H2].
    rewrite (surjective_pairing (SendMessage _ _ _ _)), H2. reflexivity.
  - pose proof (SendMessage_spec example_db noon md
                  (mkGeneralMessage "sendmessage" "@carol") "" "") as H.
    cbv zeta in H. destruct H as (_ & H & _). apply (H eq_refl eq_refl).
  - pose proof (SendMessage_spec example_db noon md
                  (mkGeneralMessage "sendmessage" "@dave hi") "dave" "hi") as H.
    cbv zeta in H. destruct H as (_ & _ & _ & H).
    destruct (H eq_refl eq_refl) as [H1 _]. apply (H1 Hdave).
  - pose proof (SendMessage_spec example_db noon md
                  (mkGeneralMessage "sendmessage" " @carol hi carol")
                  "carol" "hi carol") as H.
    cbv zeta in H. destruct H as (_ & _ & _ & H).
    destruct (H eq_refl eq_refl) as [_ H2].
    destruct (H2 Hcarol) as (_ & _ & Hm & _ & Hc & _ & _ & Hread & Hback).
    split; [exact Hm|]. split; [rewrite Hc; reflexivity|].
    split; [exact (eq_trans (Hback Hwf) eq_refl)|].
    destruct (Hread [10%Z] (or_introl eq_refl)) as [Hgone _]. exact Hgone.
Defined.

(** The first turn of a triage conversation for a blank name, for carol,
    who has nothing unread, and for alice, who has seven unread
    messages. *)
Lemma triage_first_turn_example :
  CheckMessages example_db [mkCheckMessagesRequest "   " "" ""] =
    mkRun [Yield (say "No username provided. Aborting.")] 1 true example_db /\
  CheckMessages example_db [mkCheckMessagesRequest "carol" "" "";
                            mkCheckMessagesRequest "carol" "1" ""] =
    mkRun [Yield (say "You have 0 unread messages.")] 1 true example_db /\
  CheckMessages example_db [mkCheckMessagesRequest " alice" "" ""] =
    mkRun [Yield (unread_prompt 7)] 1 false example_db /\
  2 <= consumed (CheckMessages example_db [mkCheckMessagesRequest " alice" "" "";
                                           mkCheckMessagesRequest "alice" "2" ""]).
Proof.
  split; [|split; [|split]].
  - pose proof (triage_first_turn example_db (mkCheckMessagesRequest "   " "" "") [])
      as H.
    cbv zeta in H. destruct H as (H & _). apply H. reflexivity.
  - pose proof (triage_first_turn example_db (mkCheckMessagesRequest "carol" "" "")
                  [mkCheckMessagesRequest "carol" "1" ""]) as H.
    cbv zeta in H. destruct H as (_ & H & _). apply H; [discriminate | reflexivity].
  - pose proof (triage_first_turn example_db (mkCheckMessagesRequest " alice" "" "") [])
      as H.
    cbv zeta in H. destruct H as (_ & _ & H).
    assert (Hne : Py.strip " alice" <> "") by discriminate.
    assert (Hpos : 0 < select_unread_count example_db (Py.strip " alice"))
      by (vm_compute; lia).
    destruct (H Hne Hpos) as (_ & _ & H3 & _). apply H3. reflexivity.
  - pose proof (triage_first_turn example_db (mkCheckMessagesRequest " alice" "" "")
                  [mkCheckMessagesRequest "alice" "2" ""]) as H.
    cbv zeta in H. destruct H as (_ & _ & H).
    assert (Hne : Py.strip " alice" <> "") by discriminate.
    assert (Hpos : 0 < select_unread_count example_db (Py.strip " alice"))
      by (vm_compute; lia).
    destruct (H Hne Hpos) as (_ & _ & _ & H4 & _). apply H4. discriminate.
Defined.

(** C5, as the claim words it, fails: a first turn carrying the username
    of three spaces, which is not empty and for which nothing is unread,
    is answered by "No username provided. Aborting." and not by the "0
    unread messages" turn; and the turn carrying " alice", a name to
    which no message is addressed, is answered by the prompt for alice's
    seven unread messages, the handler staying in the conversation. *)
Lemma triage_blank_username_aborts :
  let blank := mkCheckMessagesRequest "   " "" "" in
  let padded := mkCheckMessagesRequest " alice" "" "" in
  req_username blank <> "" /\
  select_unread_count example_db (req_username blank) = 0 /\
  yields (trace (CheckMessages example_db [blank])) =
    [say "No username provided. Aborting."] /\
  yields (trace (CheckMessages example_db [blank])) <>
    [say "You have 0 unread messages."] /\
  req_username padded <> "" /\
  select_unread_count example_db (req_username padded) = 0 /\
  CheckMessages example_db [padded] =
    mkRun [Yield (unread_prompt 7)] 1 false example_db.
Proof.
  cbv zeta. split; [discriminate|]. split; [reflexivity|]. split; [reflexivity|].
  split; [discriminate|]. split; [discriminate|]. split; reflexivity.
Qed.

(** Three invalid choices in a row, then "2"; two blank senders in a row. *)
Lemma triage_invalid_turns_loop_example :
  let choice c := mkCheckMessagesRequest "alice" c "" in
  let from s := mkCheckMessagesRequest "alice" "" s in
  let reprompt := Yield (say "Invalid choice. Please type '1' or '2'.") in
  for_loop example_db (mkLocals (Some "alice") AwaitChoice)
           [choice "3"; choice ""; choice "yes"] =
    (mkRun [reprompt; reprompt; reprompt] 3 false example_db,
     mkLocals (Some "alice") AwaitChoice) /\
  fst (for_loop example_db (mkLocals (Some "alice") AwaitChoice)
                ([choice "3"; choice ""; choice "yes"] ++ [choice "2"])) =
    mkRun [reprompt; reprompt; reprompt; Yield (say "Skipping reading messages.")]
          4 true example_db /\
  for_loop example_db (mkLocals (Some "alice") AwaitSender) [from ""; from "  "] =
    (mkRun [Yield (say "Please provide a valid sender name.");
            Yield (say "Please provide a valid sender name.")] 2 false example_db,
     mkLocals (Some "alice") AwaitSender).
Proof.
  intros choice from reprompt.
  assert (Hbad : Forall invalid_choice [choice "3"; choice ""; choice "yes"]).
  { repeat (constructor; [split; discriminate|]). constructor. }
  assert (Hblank : Forall empty_sender [from ""; from "  "]).
  { repeat (constructor; [reflexivity|]). constructor. }
  split; [|split].
  - pose proof (triage_invalid_turns_loop example_db
                  (mkLocals (Some "alice") AwaitChoice)
                  [choice "3"; choice ""; choice "yes"] []) as H.
    cbv zeta in H. destruct H as (H & _).
    destruct (H eq_refl Hbad) as (_ & H2 & _). exact H2.
  - pose proof (triage_invalid_turns_loop example_db
                  (mkLocals (Some "alice") AwaitChoice)
                  [choice "3"; choice ""; choice "yes"] [choice "2"]) as H.
    cbv zeta in H. destruct H as (H & _).
    destruct (H eq_refl Hbad) as (_ & _ & _ & H4). rewrite H4. reflexivity.
  - pose proof (triage_invalid_turns_loop example_db
                  (mkLocals (Some "alice") AwaitSender)
                  [from ""; from "  "] []) as H.
    cbv zeta in H. destruct H as (_ & H).
    destruct (H eq_refl Hblank) as (_ & H2 & _). exact H2.
Defined.

(** C6, as the claim words it, fails: in [AwaitChoice] the turn carrying
    " 2", which is neither "1" nor "2", is answered by "Skipping reading
    messages." and ends the conversation, and the turn carrying "1 "
    moves the conversation on to [AwaitSender]; neither is re-prompted. *)
Lemma triage_padded_choice_accepted :
  let loc := mkLocals (Some "alice") AwaitChoice in
  let skip := mkCheckMessagesRequest "alice" " 2" "" in
  let read := mkCheckMessagesRequest "alice" "1 " "" in
  req_choice skip <> "1" /\ req_choice skip <> "2" /\
  for_loop example_db loc [skip] =
    (mkRun [Yield (say "Skipping reading messages.")] 1 true example_db, loc) /\
  req_choice read <> "1" /\ req_choice read <> "2" /\
  stage (snd (for_loop example_db loc [read])) = AwaitSender /\
  yields (trace (fst (for_loop example_db loc [read]))) <>
    [say "Invalid choice. Please type '1' or '2'."].
Proof.
  cbv zeta. split; [discriminate|]. split; [discriminate|]. split; [reflexivity|].
  split; [discriminate|]. split; [discriminate|]. split; [reflexivity|].
  vm_compute. discriminate.
Qed.

(** Carol confirms with " Yes": her message 2 goes; dave has sent
    nothing; alice answers "no". *)
Lemma DeleteLastMessage_spec_example :
  let ask who answer := DeleteLastMessage example_db [mkConfirmRequest who answer] in
  (exists last,
     messageid last = 2%Z /\
     yields (trace (ask "carol" " Yes")) =
       [mkResponse "delete"
          "Are you sure you want to delete your last unread message? (yes/no)";
        mkResponse "delete" "Your last unread message was deleted."] /\
     forall x, In x (messages (final (ask "carol" " Yes"))) <->
               In x (messages example_db) /\ x <> last) /\
  final (ask "dave" "yes") = example_db /\
  yields (trace (ask "dave" "yes")) =
    [mkResponse "delete"
       "Are you sure you want to delete your last unread message? (yes/no)";
     mkResponse "delete" "No unread messages to delete."] /\
  ask "alice" "no" =
    mkRun [Yield (mkResponse "delete"
             "Are you sure you want to delete your last unread message? (yes/no)");
           Yield (mkResponse "delete" "Delete canceled.")] 1 true example_db.
Proof.
  intros ask. subst ask. cbv beta.
  assert (Hnd : NoDup (map messageid (messages example_db))).
  { repeat (constructor; [cbn; intuition discriminate|]). constructor. }
  split; [|split; [|split]].
  - pose proof (DeleteLastMessage_spec example_db (mkConfirmRequest "carol" " Yes") [])
      as H.
    cbv zeta in H. destruct H as (H & _). destruct (H eq_refl) as [_ H2].
    destruct (H2 (example_message 2 "alice" "carol" "c2" false))
      as (last & Hin & Hs & Hr & _ & Hrun & Hrest);
      [vm_compute; tauto | reflexivity |].
    exists last. split.
    + apply (f_equal (fun r => commits (trace r))) in Hrun.
      vm_compute in Hrun. injection Hrun as Hid. symmetry. exact Hid.
    + split; [rewrite Hrun; reflexivity | exact (Hrest Hnd)].
  - pose proof (DeleteLastMessage_spec example_db (mkConfirmRequest "dave" "yes") [])
      as H.
    cbv zeta in H. destruct H as (H & _). destruct (H eq_refl) as [H1 _].
    rewrite H1; [reflexivity|].
    intros m Hm. vm_compute in Hm.
    repeat (destruct Hm as [<-|Hm]; [reflexivity|]). destruct Hm.
  - pose proof (DeleteLastMessage_spec example_db (mkConfirmRequest "dave" "yes") [])
      as H.
    cbv zeta in H. destruct H as (H & _). destruct (H eq_refl) as [H1 _].
    rewrite H1; [reflexivity|].
    intros m Hm. vm_compute in Hm.
    repeat (destruct Hm as [<-|Hm]; [reflexivity|]). destruct Hm.
  - pose proof (DeleteLastMessage_spec example_db (mkConfirmRequest "alice" "no") [])
      as H.
    cbv zeta in H. destruct H as (_ & H). apply H. discriminate.
Defined.

(** Bob deactivates his account: his seven messages to alice go, the
    message he received from alice stays, and no later search lists him,
    also after carol logs off and alice sends a message. *)
Lemma DeactivateAccount_cascade_example :
  let run := DeactivateAccount example_db [mkConfirmRequest " bob" "yes"] in
  let later := serve_calls example_hashpw example_checkpw (final run)
                 [CallLogoff (mkLogoffRequest "carol");
                  CallSendMessage noon [("username", "alice")]
                    (mkGeneralMessage "sendmessage" "@carol hello")] in
  map messageid (messages (final run)) = [2%Z; 9%Z] /\
  ~ user_exists (final run) "bob" /\
  ~ In "bob" (sr_usernames (SearchUsers (Some (final run)) (mkSearchRequest "alice"))) /\
  ~ In "bob" (sr_usernames (SearchUsers (Some later) (mkSearchRequest "alice"))) /\
  In (example_message 9 "bob" "alice" "a9" false) (messages (final run)).
Proof.
  intros run later.
  pose proof (DeactivateAccount_cascade example_hashpw example_checkpw example_db
                (mkConfirmRequest " bob" "yes") [] eq_refl) as H.
  cbv zeta in H.
  destruct H as (_ & _ & _ & _ & Hrow & Hsearch & Hlater & _ & Hkept & _).
  split; [reflexivity|]. split; [exact Hrow|].
  split; [apply Hsearch|]. split.
  - apply Hlater. repeat (constructor; [intros []|]). constructor.
  - apply Hkept; [vm_compute; tauto | reflexivity | discriminate].
Defined.

(* ================================================================= *)
(** ** [Login] and [Logoff] *)

Lemma update_active_absent (db : Store) (name : string) (b : bool) :
  ~ user_exists db name -> update_active db name b = db.
Proof.
  intros Hno. unfold update_active. destruct db as [us ms n]. cbn [users messages next_messageid].
  f_equal. unfold user_exists in Hno. cbn [users] in Hno.
  induction us as [|r us IH]; [reflexivity|]. cbn [map].
  destruct (String.eqb_spec (u_username r) name) as [E|E].
  - exfalso. apply Hno. exists r. split; [left; reflexivity | exact E].
  - f_equal. apply IH. intros [r' [Hin Hr']]. apply Hno. exists r'. split; [right|]; assumption.
Qed.

Lemma update_active_passwords (db : Store) (name : string) (b : bool) :
  map u_password (users (update_active db name b)) = map u_password (users db).
Proof.
  unfold update_active; cbn [users]. rewrite map_map. apply map_ext.
  intros r. destruct (String.eqb (u_username r) name); reflexivity.
Qed.

Lemma update_active_flag (db : Store) (name : string) (b : bool) (r : UserRow) :
  In r (users (update_active db name b)) ->
  (u_username r = name /\ u_active r = b) \/ (u_username r <> name /\ In r (users db)).
Proof.
  unfold update_active; cbn [users]. rewrite in_map_iff. intros [r0 [Hr Hin]].
  destruct (String.eqb_spec (u_username r0) name) as [E|E]; subst r.
  - left. split; [exact E | reflexivity].
  - right. split; assumption.
Qed.

Lemma update_active_twice (db : Store) (name : string) (b : bool) :
  update_active (update_active db name b) name b = update_active db name b.
Proof.
  unfold update_active; cbn [users messages next_messageid]. f_equal.
  rewrite map_map. apply map_ext. intros r.
  destruct (String.eqb (u_username r) name) eqn:E; cbn [u_username]; rewrite E; reflexivity.
Qed.

Lemma select_password_unique (db : Store) (r : UserRow) :
  NoDup (map u_username (users db)) -> In r (users db) ->
  select_password db (u_username r) = Some (u_password r).
Proof.
  unfold select_password. induction (users db) as [|x l IH]; intros Hnd Hin; [destruct Hin|].
  cbn [map] in Hnd. apply NoDup_cons_iff in Hnd. destruct Hnd as [Hx Hnd].
  cbn [filter]. destruct (String.eqb_spec (u_username x) (u_username r)) as [E|E].
  - destruct Hin as [->|Hin]; [reflexivity|].
    exfalso. apply Hx. rewrite E. apply in_map. exact Hin.
  - destruct Hin as [->|Hin]; [congruence | apply IH; assumption].
Qed.

(** X1. [Login] answers "User not found." when no row has the stripped
    username and "Incorrect password." when [checkpw] refuses the
    stripped password against the stored digest (the digest of the row
    of that name, usernames being keys); in both cases the store is left
    as it is.  Otherwise it welcomes the user and sets the [active] flag
    of that user's row, and nothing else: usernames, digests, the other
    rows' flags and the messages are unchanged. *)
Theorem Login_spec (checkpw : string -> string -> bool)
    (db : Store) (request : LoginRequest) :
  let u := Py.strip (login_username request) in
  let p := Py.strip (login_password request) in
  let out := Login checkpw db request in
  (~ user_exists db u -> out = (mkResponse "2" "User not found.", db)) /\
  (user_exists db u -> checkRealPassword checkpw db u p = false ->
     out = (mkResponse "2" "Incorrect password.", db)) /\
  (user_exists db u -> checkRealPassword checkpw db u p = true ->
     fst out = mkResponse "2" ("Welcome, " ++ u ++ "!") /\
     snd out = update_active db u true /\
     (forall r, In r (users (snd out)) ->
        (u_username r = u /\ u_active r = true) \/
        (u_username r <> u /\ In r (users db)))) /\
  (NoDup (map u_username (users db)) ->
   forall r, In r (users db) -> u_username r = u ->
     checkRealPassword checkpw db u p = checkpw p (u_password r)) /\
  map u_username (users (snd out)) = map u_username (users db) /\
  map u_password (users (snd out)) = map u_password (users db) /\
  messages (snd out) = messages db /\
  next_messageid (snd out) = next_messageid db.
Proof.
  intros u p out. subst out. unfold Login. fold u p.
  split; [|split; [|split; [|split]]].
  - intros Hno. apply checkRealUsername_false_iff in Hno. rewrite Hno. reflexivity.
  - intros Hex Hpw. apply checkRealUsername_iff in Hex. rewrite Hex, Hpw. reflexivity.
  - intros Hex Hpw. apply checkRealUsername_iff in Hex. rewrite Hex, Hpw. cbn [negb fst snd].
    split; [reflexivity|]. split; [reflexivity|].
    intros r Hr. apply update_active_flag. exact Hr.
  - intros Hnd r Hin Hr. unfold checkRealPassword. rewrite <- Hr.
    rewrite (select_password_unique db r Hnd Hin). reflexivity.
  - destruct (checkRealUsername db u); cbn [negb];
      [destruct (checkRealPassword checkpw db u p); cbn [negb snd]|cbn [snd]];
      try (repeat split; reflexivity).
    split; [apply update_active_names|]. split; [apply update_active_passwords|].
    split; reflexivity.
Qed.

(** X2. [Logoff] refuses a blank username.  For any other it answers
    "<name> has been logged off." without looking the name up: every
    row of that name gets [active = 0], nothing else changes, and when
    no row has that name the store is left exactly as it was.  Logging
    off twice gives the same store and the same answer as once. *)
Theorem Logoff_spec (db : Store) (request : LogoffRequest) :
  let u := Py.strip (logoff_username request) in
  let out := Logoff db request in
  (u = "" -> out = (mkResponse "logoff" "No username provided.", db)) /\
  (u <> "" ->
     out = (mkResponse "logoff" (u ++ " has been logged off."),
            update_active db u false) /\
     (forall r, In r (users (snd out)) ->
        (u_username r = u /\ u_active r = false) \/
        (u_username r <> u /\ In r (users db))) /\
     (~ user_exists db u -> snd out = db)) /\
  Logoff (snd out) request = (fst out, snd out) /\
  map u_username (users (snd out)) = map u_username (users db) /\
  map u_password (users (snd out)) = map u_password (users db) /\
  messages (snd out) = messages db /\
  next_messageid (snd out) = next_messageid db.
Proof.
  intros u out. subst out. unfold Logoff. fold u.
  destruct (String.eqb_spec u "") as [E|E].
  - split; [reflexivity|]. split; [contradiction|]. cbn [fst snd].
    repeat split; reflexivity.
  - split; [contradiction|]. cbn [fst snd]. split.
    + intros _. split; [reflexivity|]. split.
      * intros r Hr. apply update_active_flag. exact Hr.
      * apply update_active_absent.
    + split; [rewrite update_active_twice; reflexivity|].
      split; [apply update_active_names|]. split; [apply update_active_passwords|].
      split; reflexivity.
Qed.

(* ================================================================= *)
(** ** [Register], then [Login] or [Register] again *)

Lemma Register_success_inv (hashpw : string -> string -> string)
    (db : Store) (salt : string) (request : RegisterRequest) :
  fst (Register hashpw db salt request) =
    mkResponse "1" "Registration successful. You are now logged in!" ->
  let u := Py.strip (reg_username request) in
  let p := Py.strip (reg_password request) in
  u <> "" /\ p <> "" /\ ~ user_exists db u /\ checkValidPassword p = true /\
  p = Py.strip (reg_confirm_password request) /\
  snd (Register hashpw db salt request) = insert_user db u (hashpw p salt).
Proof.
  intros H u p. revert H. unfold Register. fold u p.
  destruct (String.eqb_spec u "") as [Eu|Eu]; cbn [orb]; [discriminate|].
  destruct (String.eqb_spec p "") as [Ep|Ep]; cbn [orb]; [discriminate|].
  destruct (String.eqb (Py.strip (reg_confirm_password request)) ""); [discriminate|].
  destruct (checkRealUsername db u) eqn:Ex; [discriminate|].
  destruct (checkValidPassword p) eqn:Ev; cbn [negb]; [|discriminate].
  destruct (String.eqb_spec p (Py.strip (reg_confirm_password request))) as [Ec|Ec];
    cbn [negb]; [|discriminate].
  intros _. apply checkRealUsername_false_iff in Ex. cbn [snd].
  repeat (split; [first [assumption | reflexivity]|]). reflexivity.
Qed.

Lemma filter_name_absent (db : Store) (name : string) :
  ~ user_exists db name ->
  filter (fun r => String.eqb (u_username r) name) (users db) = [].
Proof.
  intros Hno. apply checkRealUsername_false_iff in Hno.
  unfold checkRealUsername in Hno. apply Nat.ltb_ge in Hno.
  destruct (filter _ (users db)); [reflexivity | cbn in Hno; lia].
Qed.

Lemma select_password_inserted (db : Store) (name hashed : string) :
  ~ user_exists db name ->
  select_password (insert_user db name hashed) name = Some hashed.
Proof.
  intros Hno. unfold select_password, insert_user. cbn [users].
  rewrite filter_app, (filter_name_absent db name Hno). cbn [app filter u_username].
  rewrite String.eqb_refl. reflexivity.
Qed.

Lemma user_exists_inserted (db : Store) (name hashed : string) :
  user_exists (insert_user db name hashed) name.
Proof.
  exists (mkUser name hashed true). split; [|reflexivity].
  unfold insert_user; cbn [users]. apply in_or_app. right. left. reflexivity.
Qed.

Lemma update_active_inserted (db : Store) (name hashed : string) :
  ~ user_exists db name ->
  update_active (insert_user db name hashed) name true = insert_user db name hashed.
Proof.
  intros Hno. unfold update_active, insert_user. cbn [users messages next_messageid].
  f_equal. rewrite map_app. cbn [map u_username u_password].
  rewrite String.eqb_refl. f_equal.
  assert (H : forall r, In r (users db) -> u_username r <> name).
  { intros r Hin E. apply Hno. exists r. split; assumption. }
  induction (users db) as [|r l IH]; [reflexivity|]. cbn [map].
  destruct (String.eqb_spec (u_username r) name) as [E|E].
  - exfalso. apply (H r); [left; reflexivity | exact E].
  - f_equal. apply IH. intros r' Hr'. apply H. right. exact Hr'.
Qed.

(** X3. After a successful [Register] the account exists, is active and
    holds the digest of the stripped password.  A [Login] with that
    username (up to white space around it) is then refused with
    "Incorrect password." for every password that [checkpw] does not
    accept against that digest; with a password that [checkpw] accepts
    it is welcomed, and the store stays as [Register] left it. *)
Theorem Register_then_Login
    (hashpw : string -> string -> string) (checkpw : string -> string -> bool)
    (db : Store) (salt : string) (reg : RegisterRequest) (login : LoginRequest) :
  fst (Register hashpw db salt reg) =
    mkResponse "1" "Registration successful. You are now logged in!" ->
  Py.strip (login_username login) = Py.strip (reg_username reg) ->
  let u := Py.strip (reg_username reg) in
  let digest := hashpw (Py.strip (reg_password reg)) salt in
  let db' := snd (Register hashpw db salt reg) in
  In (mkUser u digest true) (users db') /\
  select_password db' u = Some digest /\
  (checkpw (Py.strip (login_password login)) digest = false ->
     Login checkpw db' login = (mkResponse "2" "Incorrect password.", db')) /\
  (checkpw (Py.strip (login_password login)) digest = true ->
     Login checkpw db' login = (mkResponse "2" ("Welcome, " ++ u ++ "!"), db')).
Proof.
  intros Hok Hname u digest db'.
  destruct (Register_success_inv hashpw db salt reg Hok)
    as (Hu & Hp & Hno & Hv & Hc & Hdb).
  fold u in Hu, Hno, Hdb. fold digest in Hdb. fold db' in Hdb.
  assert (Hsel : select_password db' u = Some digest)
    by (rewrite Hdb; apply select_password_inserted; exact Hno).
  assert (Hex : checkRealUsername db' u = true)
    by (apply checkRealUsername_iff; rewrite Hdb; apply user_exists_inserted).
  split.
  { rewrite Hdb. unfold insert_user; cbn [users]. apply in_or_app. right. left. reflexivity. }
  split; [exact Hsel|].
  split; intros Hpw; unfold Login, checkRealPassword; rewrite Hname; fold u;
    rewrite Hex, Hsel, Hpw; cbn [negb]; [reflexivity|].
  f_equal. rewrite Hdb. apply update_active_inserted. exact Hno.
Qed.

Lemma serve_call_keeps_user
    (hashpw : string -> string -> string) (checkpw : string -> string -> bool)
    (db : Store) (c : Call) (u : string) :
  ~ removes u c -> user_exists db u ->
  user_exists (serve_call hashpw checkpw db c) u.
Proof.
  destruct c as [salt rq|rq|rq|now md rq|turns|rq|turns|turns];
    cbn [serve_call removes]; intros Hrem Hex.
  - unfold Register.
    repeat match goal with
           | |- context [if ?b then _ else _] => destruct b
           end; cbn [snd]; try exact Hex.
    apply user_exists_names. unfold insert_user; cbn [users].
    rewrite map_app. apply in_or_app. left. apply user_exists_names. exact Hex.
  - unfold Login.
    repeat match goal with
           | |- context [if ?b then _ else _] => destruct b
           end; cbn [snd]; try exact Hex.
    apply user_exists_names. rewrite update_active_names.
    apply user_exists_names. exact Hex.
  - unfold Logoff. destruct (String.eqb _ ""); cbn [snd]; [exact Hex|].
    apply user_exists_names. rewrite update_active_names.
    apply user_exists_names. exact Hex.
  - unfold SendMessage.
    repeat match goal with
           | |- context [if ?b then _ else _] => destruct b
           end; cbn [snd]; exact Hex.
  - apply user_exists_names. unfold CheckMessages. rewrite for_loop_users.
    apply user_exists_names. exact Hex.
  - exact Hex.
  - unfold DeleteLastMessage. destruct turns as [|rq rest]; [exact Hex|].
    destruct (String.eqb _ "yes"); [|exact Hex].
    destruct (select_last_unread_sent db _); exact Hex.
  - unfold DeactivateAccount. destruct turns as [|rq rest]; [exact Hex|].
    destruct (String.eqb_spec (Py.lower (Py.strip (conf_confirmation rq))) "yes")
      as [Eyes|Eno]; [|exact Hex].
    cbn [final]. unfold exec_all. cbn [fold_left exec users messages next_messageid].
    destruct Hex as [r [Hin Hr]]. exists r. split; [|exact Hr]. cbn [users].
    apply filter_In. split; [exact Hin|].
    apply negb_true_iff, String.eqb_neq. intros E. apply Hrem.
    split; [congruence | exact Eyes].
Qed.

Lemma serve_calls_keeps_user
    (hashpw : string -> string -> string) (checkpw : string -> string -> bool)
    (calls : list Call) (db : Store) (u : string) :
  Forall (fun c => ~ removes u c) calls -> user_exists db u ->
  user_exists (serve_calls hashpw checkpw db calls) u.
Proof.
  revert db. induction calls as [|c calls IH]; intros db Hall Hex;
    cbn [serve_calls fold_left]; [exact Hex|].
  inversion Hall as [|c' l Hc Hl]; subst.
  apply (IH _ Hl). apply serve_call_keeps_user; assumption.
Qed.

(** X4. While an account exists its name cannot be registered anew.
    After a successful [Register] of [u], and after any further calls
    among which no [DeactivateAccount] removes [u], every [Register]
    whose username strips to [u] leaves the store as it is, and answers
    "Username taken. Please choose another." as soon as its three
    fields are filled in, whatever password it carries.  Once a
    [DeactivateAccount] has removed [u], the name is free again: the
    account is gone and the first registration succeeds anew. *)
Theorem Register_twice
    (hashpw : string -> string -> string) (checkpw : string -> string -> bool)
    (db : Store) (salt salt' : string) (reg reg' : RegisterRequest)
    (calls : list Call) :
  fst (Register hashpw db salt reg) =
    mkResponse "1" "Registration successful. You are now logged in!" ->
  Py.strip (reg_username reg') = Py.strip (reg_username reg) ->
  Forall (fun c => ~ removes (Py.strip (reg_username reg)) c) calls ->
  let db' := serve_calls hashpw checkpw (snd (Register hashpw db salt reg)) calls in
  user_exists db' (Py.strip (reg_username reg)) /\
  snd (Register hashpw db' salt' reg') = db' /\
  (Py.strip (reg_password reg') <> "" ->
   Py.strip (reg_confirm_password reg') <> "" ->
   fst (Register hashpw db' salt' reg') =
     mkResponse "1" "Username taken. Please choose another.") /\
  (forall req rest,
     removes (Py.strip (reg_username reg)) (CallDeactivateAccount (req :: rest)) ->
     let db'' := serve_call hashpw checkpw db' (CallDeactivateAccount (req :: rest)) in
     ~ user_exists db'' (Py.strip (reg_username reg)) /\
     fst (Register hashpw db'' salt' reg) =
       mkResponse "1" "Registration successful. You are now logged in!").
Proof.
  intros Hok Hname Hcalls db'.
  destruct (Register_success_inv hashpw db salt reg Hok)
    as (Hu & _ & _ & _ & _ & Hdb).
  assert (Hexists : user_exists db' (Py.strip (reg_username reg))).
  { unfold db'. apply serve_calls_keeps_user; [exact Hcalls|].
    rewrite Hdb. apply user_exists_inserted. }
  assert (Hex : checkRealUsername db' (Py.strip (reg_username reg)) = true)
    by (apply checkRealUsername_iff; exact Hexists).
  split; [exact Hexists|].
  assert (Hfree : forall req rest,
            removes (Py.strip (reg_username reg)) (CallDeactivateAccount (req :: rest)) ->
            ~ user_exists (serve_call hashpw checkpw db'
                             (CallDeactivateAccount (req :: rest)))
                          (Py.strip (reg_username reg))).
  { intros req rest [Hreq Hyes]. cbn [serve_call]. unfold DeactivateAccount.
    rewrite Hyes, Hreq. cbn [String.eqb Ascii.eqb Bool.eqb andb final exec_all fold_left exec].
    intros [r [Hin Hr]]. cbn [users] in Hin. apply filter_In in Hin.
    destruct Hin as [_ Hne]. apply negb_true_iff, String.eqb_neq in Hne.
    contradiction. }
  split.
  { unfold Register. rewrite Hname, Hex.
    apply String.eqb_neq in Hu. rewrite Hu. cbn [orb].
    destruct (_ || _); reflexivity. }
  split.
  { intros Hp Hc. unfold Register. rewrite Hname, Hex.
    apply String.eqb_neq in Hu, Hp, Hc. rewrite Hu, Hp, Hc. reflexivity. }
  intros req rest Hrem db''. split; [exact (Hfree req rest Hrem)|].
  pose proof (Hfree req rest Hrem) as Hno. fold db'' in Hno.
  apply checkRealUsername_false_iff in Hno.
  destruct (Register_success_inv hashpw db salt reg Hok)
    as (_ & Hp & _ & Hv & Hc & _).
  unfold Register. rewrite Hno, Hv, <- Hc, String.eqb_refl.
  apply String.eqb_neq in Hu, Hp. rewrite Hu, Hp. reflexivity.
Qed.

Lemma contains_Welcome (u : string) :
  Py.contains "Welcome" ("Welcome, " ++ u ++ "!") = true.
Proof. reflexivity. Qed.

(** X5. The client reads the outcome of a call off the text of the
    answer, and these tests are exact.  "Welcome" occurs in the answer
    of [Login] exactly when the user exists and the password was
    accepted (whatever the username is), and then the user's flag has
    been set, the store being unchanged otherwise.  "successful" occurs
    in the lower-cased answer of [Register] exactly when the answer is
    the success text, and then the name was free and the row of the
    account has been added to [users], the store being unchanged
    otherwise.  A turn of [DeactivateAccount] contains "removed" exactly
    when the deletion was committed, and then the store is the one after
    the two [DELETE]s, being unchanged otherwise. *)
Theorem client_reads_outcome
    (hashpw : string -> string -> string) (checkpw : string -> string -> bool)
    (db : Store) :
  (forall request,
     let u := Py.strip (login_username request) in
     let p := Py.strip (login_password request) in
     let out := Login checkpw db request in
     (login_accepted (fst out) = true <->
      user_exists db u /\ checkRealPassword checkpw db u p = true) /\
     (login_accepted (fst out) = true -> snd out = update_active db u true) /\
     (login_accepted (fst out) = false -> snd out = db)) /\
  (forall salt request,
     let u := Py.strip (reg_username request) in
     let p := Py.strip (reg_password request) in
     let out := Register hashpw db salt request in
     (register_accepted (fst out) = true <->
      fst out = mkResponse "1" "Registration successful. You are now logged in!") /\
     (register_accepted (fst out) = true ->
      ~ user_exists db u /\
      snd out = insert_user db u (hashpw p salt) /\
      In (mkUser u (hashpw p salt) true) (users (snd out))) /\
     (register_accepted (fst out) = false -> snd out = db)) /\
  (forall turns,
     let run := DeactivateAccount db turns in
     (existsb deactivate_removed (yields (trace run)) = true <->
      commits (trace run) <> []) /\
     (existsb deactivate_removed (yields (trace run)) = true ->
      exists req rest,
        turns = req :: rest /\
        final run =
          exec_all [DeleteMessagesFrom (Py.strip (conf_username req));
                    DeleteUser (Py.strip (conf_username req))] db) /\
     (existsb deactivate_removed (yields (trace run)) = false -> final run = db)).
Proof.
  split; [|split].
  - intros request u p out. subst out. unfold Login, login_accepted. fold u p.
    rewrite <- checkRealUsername_iff.
    destruct (checkRealUsername db u); cbn [negb fst snd server_message].
    + destruct (checkRealPassword checkpw db u p); cbn [negb fst snd server_message].
      * rewrite contains_Welcome. split; [tauto|]. split; [reflexivity | discriminate].
      * split; [split; [discriminate | intros [_ H]; discriminate H]|].
        split; [discriminate | reflexivity].
    + split; [split; [discriminate | intros [H _]; discriminate H]|].
      split; [discriminate | reflexivity].
  - intros salt request u p out.
    assert (Hiff : register_accepted (fst out) = true <->
                   fst out = mkResponse "1"
                               "Registration successful. You are now logged in!").
    { subst out. unfold Register, register_accepted.
      repeat match goal with
             | |- context [if ?b then _ else _] => destruct b
             end; cbn [fst]; split; intros H; try reflexivity; discriminate H. }
    split; [exact Hiff|]. split.
    + intros Hacc. apply Hiff in Hacc.
      destruct (Register_success_inv hashpw db salt request Hacc)
        as (_ & _ & Hno & _ & _ & Hdb).
      fold u p in Hno, Hdb. fold out in Hdb.
      split; [exact Hno|]. split; [exact Hdb|].
      rewrite Hdb. unfold insert_user; cbn [users].
      apply in_or_app. right. left. reflexivity.
    + subst out. unfold Register, register_accepted.
      repeat match goal with
             | |- context [if ?b then _ else _] => destruct b
             end; cbn [fst snd]; intros H; try reflexivity; discriminate H.
  - intros turns run. subst run. unfold DeactivateAccount.
    destruct turns as [|req rest].
    + cbn. split; [split; [discriminate | intros H; contradiction H; reflexivity]|].
      split; [discriminate | reflexivity].
    + destruct (String.eqb _ "yes"); cbn.
      * split; [split; [discriminate | reflexivity]|].
        split; [intros _; exists req, rest; split; reflexivity | discriminate].
      * split; [split; [discriminate | intros H; contradiction H; reflexivity]|].
        split; [discriminate | reflexivity].
Qed.

(* ================================================================= *)
(** ** What a triage conversation does to the store *)

Lemma replay_app {R} (t1 t2 : list (Event R)) (db : Store) :
  replay (t1 ++ t2) db = replay t2 (replay t1 db).
Proof. unfold replay. rewrite commits_app. apply fold_left_app. Qed.

Lemma loop_body_store (db : Store) (loc : Locals) (req : CheckMessagesRequest) :
  snd (loop_body db loc req) = db \/
  (stage loc = AwaitSender /\ Py.strip (req_sender req) <> "" /\
   snd (loop_body db loc req) =
     mark_read (map messageid
                  (select_unread_from db (username loc) (Py.strip (req_sender req)))) db).
Proof.
  unfold loop_body. destruct (stage loc).
  - left. destruct (String.eqb (Py.strip (req_username req)) ""); [reflexivity|].
    destruct (select_unread_count db (Py.strip (req_username req)) =? 0); reflexivity.
  - left. destruct (String.eqb (Py.strip (req_choice req)) "2"); [reflexivity|].
    destruct (String.eqb (Py.strip (req_choice req)) "1"); [|reflexivity].
    destruct (select_unread_senders db (username loc)); reflexivity.
  - destruct (String.eqb_spec (Py.strip (req_sender req)) "") as [E|E];
      [left; reflexivity|].
    cbv zeta. rewrite replay_delivery.
    destruct (select_unread_from db (username loc) (Py.strip (req_sender req))) eqn:Em.
    + left. reflexivity.
    + right. split; [reflexivity|]. split; [exact E | reflexivity].
Qed.

Lemma loop_body_replay (db : Store) (loc : Locals) (req : CheckMessagesRequest) :
  snd (loop_body db loc req) = replay (fst (fst (fst (loop_body db loc req)))) db.
Proof.
  unfold loop_body. destruct (stage loc).
  - destruct (String.eqb (Py.strip (req_username req)) ""); [reflexivity|].
    destruct (select_unread_count db (Py.strip (req_username req)) =? 0); reflexivity.
  - destruct (String.eqb (Py.strip (req_choice req)) "2"); [reflexivity|].
    destruct (String.eqb (Py.strip (req_choice req)) "1"); [|reflexivity].
    destruct (select_unread_senders db (username loc)); reflexivity.
  - destruct (String.eqb (Py.strip (req_sender req)) ""); [reflexivity|].
    destruct (select_unread_from db (username loc) (Py.strip (req_sender req)));
      reflexivity.
Qed.

Lemma loop_body_continue (db db' : Store) (loc loc' : Locals)
    (req : CheckMessagesRequest) (tr : list (Event CheckMessagesResponse)) :
  loop_body db loc req = (tr, Continue, loc', db') ->
  db' = db /\ commits tr = [] /\
  ((stage loc = AwaitUsername /\ Py.strip (req_username req) <> "" /\
    loc' = mkLocals (Some (Py.strip (req_username req))) AwaitChoice) \/
   (stage loc <> AwaitUsername /\ username loc' = username loc /\
    stage loc' <> AwaitUsername)).
Proof.
  unfold loop_body. destruct (stage loc) eqn:Es.
  - destruct (String.eqb_spec (Py.strip (req_username req)) "") as [E|E];
      [discriminate|].
    destruct (select_unread_count db (Py.strip (req_username req)) =? 0);
      [discriminate|].
    intros H. injection H as <- <- <-. split; [reflexivity|]. split; [reflexivity|].
    left. split; [reflexivity|]. split; [exact E | reflexivity].
  - destruct (String.eqb (Py.strip (req_choice req)) "2"); [discriminate|].
    destruct (String.eqb (Py.strip (req_choice req)) "1").
    + destruct (select_unread_senders db (username loc)); [discriminate|].
      intros H. injection H as <- <- <-. split; [reflexivity|]. split; [reflexivity|].
      right. split; [discriminate|]. split; [reflexivity | discriminate].
    + intros H. injection H as <- <- <-. split; [reflexivity|]. split; [reflexivity|].
      right. split; [discriminate|]. split; [reflexivity | rewrite Es; discriminate].
  - destruct (String.eqb (Py.strip (req_sender req)) "").
    + intros H. injection H as <- <- <-. split; [reflexivity|]. split; [reflexivity|].
      right. split; [discriminate|]. split; [reflexivity | rewrite Es; discriminate].
    + destruct (select_unread_from db (username loc) (Py.strip (req_sender req)));
        discriminate.
Qed.

Lemma for_loop_replay (reqs : list CheckMessagesRequest) (db : Store) (loc : Locals) :
  final (fst (for_loop db loc reqs)) = replay (trace (fst (for_loop db loc reqs))) db.
Proof.
  revert db loc. induction reqs as [|req rest IH]; intros db loc; cbn [for_loop].
  - reflexivity.
  - pose proof (loop_body_replay db loc req) as Hr.
    destruct (loop_body db loc req) as [[[tr ctl] loc'] db'] eqn:Eb.
    cbn [fst snd] in Hr. destruct ctl.
    + specialize (IH db' loc'). destruct (for_loop db' loc' rest) as [r l].
      cbn [fst final trace] in *. rewrite replay_app, <- Hr. exact IH.
    + exact Hr.
Qed.

Lemma for_loop_effect (reqs : list CheckMessagesRequest) (db : Store) (loc : Locals) :
  stage loc <> AwaitUsername ->
  final (fst (for_loop db loc reqs)) = db \/
  exists req, In req reqs /\ Py.strip (req_sender req) <> "" /\
    final (fst (for_loop db loc reqs)) =
      mark_read (map messageid
                   (select_unread_from db (username loc) (Py.strip (req_sender req)))) db.
Proof.
  revert loc. induction reqs as [|req rest IH]; intros loc Hst; cbn [for_loop].
  - left. reflexivity.
  - pose proof (loop_body_store db loc req) as Hs.
    destruct (loop_body db loc req) as [[[tr ctl] loc'] db'] eqn:Eb.
    cbn [snd] in Hs. destruct ctl.
    + destruct (loop_body_continue _ _ _ _ _ _ Eb) as (-> & _ & [[Hc _]|(_ & Hu & Hst')]);
        [contradiction|].
      specialize (IH loc' Hst'). destruct (for_loop db loc' rest) as [r l].
      cbn [fst final] in *. destruct IH as [IH|[rq (Hin & Hne & IH)]].
      * left. exact IH.
      * right. exists rq. split; [right; exact Hin|]. split; [exact Hne|].
        rewrite <- Hu. exact IH.
    + cbn [fst final]. destruct Hs as [Hs|(_ & Hne & Hs)].
      * left. exact Hs.
      * right. exists req. split; [left; reflexivity|]. split; assumption.
Qed.

Lemma CheckMessages_cases (db : Store) (reqs : list CheckMessagesRequest) :
  final (CheckMessages db reqs) = db \/
  exists first rest req,
    reqs = first :: rest /\ In req rest /\
    Py.strip (req_username first) <> "" /\ Py.strip (req_sender req) <> "" /\
    final (CheckMessages db reqs) =
      mark_read (map messageid
                   (select_unread_from db (Some (Py.strip (req_username first)))
                                       (Py.strip (req_sender req)))) db.
Proof.
  unfold CheckMessages. destruct reqs as [|first rest]; [left; reflexivity|].
  cbn [for_loop].
  pose proof (loop_body_store db (mkLocals None AwaitUsername) first) as Hs.
  destruct (loop_body db (mkLocals None AwaitUsername) first)
    as [[[tr ctl] loc'] db'] eqn:Eb.
  cbn [snd stage] in Hs. destruct ctl.
  - destruct (loop_body_continue _ _ _ _ _ _ Eb) as (-> & _ & [(_ & Hu & ->)|(Hc & _)]);
      [|contradiction Hc; reflexivity].
    pose proof (for_loop_effect rest db
                  (mkLocals (Some (Py.strip (req_username first))) AwaitChoice)) as He.
    destruct (for_loop db _ rest) as [r l]. cbn [fst final username] in *.
    destruct He as [He|[rq (Hin & Hne & He)]]; [discriminate | left; exact He |].
    right. exists first, rest, rq. repeat (split; [first [reflexivity | assumption]|]).
    exact He.
  - cbn [fst final]. destruct Hs as [Hs|(Hc & _)]; [left; exact Hs | discriminate Hc].
Qed.

Lemma NoDup_ids_inj (l : list MessageRow) (a b : MessageRow) :
  NoDup (map messageid l) -> In a l -> In b l -> messageid a = messageid b -> a = b.
Proof.
  induction l as [|x l IH]; intros Hnd Ha Hb Hid; [destruct Ha|].
  cbn [map] in Hnd. apply NoDup_cons_iff in Hnd. destruct Hnd as [Hx Hnd].
  destruct Ha as [->|Ha], Hb as [->|Hb].
  - reflexivity.
  - exfalso. apply Hx. rewrite Hid. apply in_map. exact Hb.
  - exfalso. apply Hx. rewrite <- Hid. apply in_map. exact Ha.
  - apply IH; assumption.
Qed.

Lemma id_in_selected (db : Store) (user : option string) (chosen : string)
    (m : MessageRow) :
  NoDup (map messageid (messages db)) -> In m (messages db) ->
  id_in (map messageid (select_unread_from db user chosen)) m = true ->
  unread_from user chosen m = true.
Proof.
  intros Hnd Hin Hid. unfold id_in in Hid. apply existsb_exists in Hid.
  destruct Hid as [i [Hi Heq]]. apply Z.eqb_eq in Heq. subst i.
  apply in_map_iff in Hi. destruct Hi as [x [Hx Hsel]].
  apply select_unread_from_In in Hsel. destruct Hsel as [Hxin Hxu].
  rewrite (NoDup_ids_inj _ m x Hnd Hin Hxin (eq_sym Hx)). exact Hxu.
Qed.

Lemma mark_read_same_rows (ids : list Z) (db : Store) :
  map set_isread (messages (mark_read ids db)) = map set_isread (messages db).
Proof.
  unfold mark_read; cbn [messages]. rewrite map_map. apply map_ext.
  intros m. destruct (id_in ids m); reflexivity.
Qed.

Lemma mark_read_ids (ids : list Z) (db : Store) :
  map messageid (messages (mark_read ids db)) = map messageid (messages db).
Proof.
  unfold mark_read; cbn [messages]. rewrite map_map. apply map_ext.
  intros m. destruct (id_in ids m); reflexivity.
Qed.

Lemma mark_read_keeps (ids : list Z) (db : Store) (m : MessageRow) :
  In m (messages db) -> id_in ids m = false -> In m (messages (mark_read ids db)).
Proof.
  intros Hin Hid. unfold mark_read; cbn [messages].
  apply in_map_iff. exists m. rewrite Hid. auto.
Qed.

(** X6. Whatever turns it is given, a triage conversation changes the
    store by its committed updates only, and in one way only: either not
    at all, or by marking read the unread messages that one sender (the
    stripped, non-empty sender of a later turn) has sent to one receiver
    (the stripped, non-empty username of the first turn).  It changes no
    user, deletes and adds no message, changes no field of a message but
    the read flag, and never marks a message unread; with ids as keys, a
    message addressed to anybody else or sent by anybody else is left
    exactly as it is. *)
Theorem CheckMessages_effect (db : Store) (reqs : list CheckMessagesRequest) :
  let run := CheckMessages db reqs in
  final run = replay (trace run) db /\
  users (final run) = users db /\
  next_messageid (final run) = next_messageid db /\
  map set_isread (messages (final run)) = map set_isread (messages db) /\
  (forall m, In m (messages db) -> isread m = true -> In m (messages (final run))) /\
  (final run = db \/
   exists first rest req,
     reqs = first :: rest /\ In req rest /\
     Py.strip (req_username first) <> "" /\ Py.strip (req_sender req) <> "" /\
     final run =
       mark_read (map messageid
                    (select_unread_from db (Some (Py.strip (req_username first)))
                                        (Py.strip (req_sender req)))) db /\
     (NoDup (map messageid (messages db)) ->
      forall m, In m (messages db) ->
        receiver m <> Py.strip (req_username first) \/
        sender m <> Py.strip (req_sender req) ->
        In m (messages (final run)))).
Proof.
  intros run.
  split; [apply for_loop_replay|].
  destruct (CheckMessages_cases db reqs) as [H|(first & rest & req & Hr & Hin & Hu & Hs & H)];
    fold run in H.
  - rewrite H. repeat (split; [reflexivity|]). split; [auto | left; reflexivity].
  - rewrite H. split; [reflexivity|]. split; [reflexivity|].
    split; [apply mark_read_same_rows|].
    split.
    { intros m Hm Hread. unfold mark_read; cbn [messages]. apply in_map_iff.
      exists m. split; [|exact Hm].
      destruct (id_in _ m); [apply set_isread_read; exact Hread | reflexivity]. }
    right. exists first, rest, req.
    repeat (split; [first [reflexivity | assumption]|]).
    intros Hnd m Hm Hother. apply mark_read_keeps; [exact Hm|].
    destruct (id_in _ m) eqn:Eid; [|reflexivity]. exfalso.
    apply (id_in_selected db _ _ m Hnd Hm) in Eid.
    apply unread_from_sender in Eid. destruct Eid as (Hrecv & Hsnd & _).
    cbn [sql_eq] in Hrecv. apply String.eqb_eq in Hrecv.
    destruct Hother as [Ho|Ho]; contradiction.
Qed.

(* ================================================================= *)
(** ** Invariants along sequences of calls *)

Lemma SendMessage_cases (db : Store) (now : DateTime)
    (md : list (string * string)) (request : GeneralMessage) :
  (sm_success (fst (SendMessage db now md request)) = false /\
   snd (SendMessage db now md request) = db) \/
  exists target body,
    Py.strip (gm_message request) = String "@"%char (target ++ String " "%char body) /\
    has_space target = false /\ user_exists db target /\
    SendMessage db now md request =
      (mkSendMessageResponse true "",
       insert_message db now target (md_get md "username" "unknown") body).
Proof.
  destruct (Py.startswith (Py.strip (gm_message request)) "@") eqn:Es.
  2:{ left. unfold SendMessage. rewrite Es. split; reflexivity. }
  destruct (has_space (Py.strip (gm_message request))) eqn:Esp.
  2:{ left. unfold SendMessage. rewrite Es, (split_no_space _ Esp). split; reflexivity. }
  apply startswith_at in Es. destruct Es as [t Ht].
  assert (Hspt : has_space t = true).
  { rewrite Ht in Esp. unfold has_space in *. cbn [Py.any] in Esp.
    change (Ascii.eqb "@"%char " "%char) with false in Esp. exact Esp. }
  destruct (has_space_split t Hspt) as [target [body [Et Htarget]]].
  assert (Efull : Py.strip (gm_message request) =
                  String "@"%char (target ++ String " "%char body))
    by (rewrite Ht, Et; reflexivity).
  rewrite (SendMessage_well_formed db now md request target body Efull Htarget).
  destruct (checkRealUsername db target) eqn:Ex.
  - right. exists target, body. apply checkRealUsername_iff in Ex.
    repeat (split; [assumption|]). reflexivity.
  - left. split; reflexivity.
Qed.

Section Steps.

Variable hashpw : string -> string -> string.
Variable checkpw : string -> string -> bool.

Lemma serve_call_step (db : Store) (c : Call) :
  store_step db (serve_call hashpw checkpw db c).
Proof.
  destruct c as [salt rq|rq|rq|now md rq|turns|rq|turns|turns]; cbn [serve_call].
  - unfold Register.
    destruct (String.eqb_spec (Py.strip (reg_username rq)) "") as [Eu|Eu];
      cbn [orb]; [apply step_none|].
    destruct (_ || _); [apply step_none|].
    destruct (checkRealUsername db _) eqn:Ex; [apply step_none|].
    destruct (negb (checkValidPassword _)); [apply step_none|].
    destruct (negb (String.eqb _ _)); [apply step_none|].
    cbn [snd]. apply step_insert_user;
      [exact Eu | apply strip_idempotent | apply checkRealUsername_false_iff; exact Ex].
  - unfold Login.
    destruct (negb (checkRealUsername db _)); [apply step_none|].
    destruct (negb (checkRealPassword checkpw db _ _)); [apply step_none|].
    apply step_update_active.
  - unfold Logoff. destruct (String.eqb _ ""); [apply step_none|].
    apply step_update_active.
  - destruct (SendMessage_cases db now md rq) as [[_ ->]|(t & b & _ & Hsp & Hex & ->)];
      [apply step_none|].
    cbn [snd]. apply step_insert_message; assumption.
  - destruct (CheckMessages_cases db turns)
      as [->|(first & rest & req & _ & _ & _ & _ & ->)];
      [apply step_none | apply step_mark_read].
  - apply step_none.
  - unfold DeleteLastMessage. destruct turns as [|rq _]; [apply step_none|].
    destruct (String.eqb _ "yes"); [|apply step_none].
    destruct (select_last_unread_sent db _); [|apply step_none].
    cbn [final]. apply step_delete_message.
  - unfold DeactivateAccount. destruct turns as [|rq _]; [apply step_none|].
    destruct (String.eqb _ "yes"); [|apply step_none].
    cbn [final]. apply step_deactivate.
Qed.

End Steps.

Lemma later_state_refl (m : MessageRow) : later_state m m.
Proof. split; [reflexivity | auto]. Qed.

Lemma later_state_trans (a b c : MessageRow) :
  later_state a b -> later_state b c -> later_state a c.
Proof. intros [H1 H2] [H3 H4]. split; [congruence | auto]. Qed.

Lemma later_state_id (m m' : MessageRow) :
  later_state m m' -> messageid m' = messageid m.
Proof. intros [H _]. apply (f_equal messageid) in H. exact H. Qed.

Lemma store_wf_filter (db : Store) (us : list UserRow) (f : MessageRow -> bool) :
  store_wf db -> store_wf (mkStore us (filter f (messages db)) (next_messageid db)).
Proof.
  intros [Hnd Hlt]. split; cbn [messages next_messageid].
  - apply NoDup_ids_filter. exact Hnd.
  - rewrite Forall_forall in *. intros m Hm. apply filter_In in Hm. apply Hlt, Hm.
Qed.

Lemma store_step_messages (db db' : Store) :
  store_wf db -> store_step db db' ->
  store_wf db' /\
  (next_messageid db <= next_messageid db')%Z /\
  (forall m', In m' (messages db') ->
     (exists m, In m (messages db) /\ later_state m m') \/
     messageid m' = next_messageid db).
Proof.
  intros Hwf Hstep.
  assert (Hsame : forall m', In m' (messages db) ->
            (exists m, In m (messages db) /\ later_state m m') \/
            messageid m' = next_messageid db).
  { intros m' Hm. left. exists m'. split; [exact Hm | apply later_state_refl]. }
  destruct Hstep as [|u h _ _ _|u b|now t s b _ _|ids|last_id|u].
  - split; [exact Hwf|]. split; [lia | exact Hsame].
  - split; [exact Hwf|]. split; [cbn; lia | exact Hsame].
  - split; [exact Hwf|]. split; [cbn; lia | exact Hsame].
  - split; [apply insert_message_wf; exact Hwf|]. split; [cbn; lia|].
    intros m' Hm. unfold insert_message in Hm; cbn [messages] in Hm.
    apply in_app_or in Hm. destruct Hm as [Hm|[<-|[]]]; [apply Hsame; exact Hm|].
    right. reflexivity.
  - split.
    { destruct Hwf as [Hnd Hlt]. split.
      - rewrite mark_read_ids. exact Hnd.
      - cbn [next_messageid mark_read messages]. apply Forall_forall. intros m Hm.
        apply in_map_iff in Hm. destruct Hm as [x [Hx Hin]].
        rewrite Forall_forall in Hlt. specialize (Hlt x Hin).
        destruct (id_in ids x); subst m; exact Hlt. }
    split; [cbn; lia|].
    intros m' Hm. left. unfold mark_read in Hm; cbn [messages] in Hm.
    apply in_map_iff in Hm. destruct Hm as [x [Hx Hin]]. exists x. split; [exact Hin|].
    destruct (id_in ids x); subst m'; [|apply later_state_refl].
    split; [reflexivity | reflexivity].
  - split; [apply store_wf_filter; exact Hwf|]. split; [cbn; lia|].
    intros m' Hm. cbn [exec messages] in Hm. apply filter_In in Hm.
    apply Hsame, Hm.
  - split; [unfold exec_all; cbn [fold_left exec users messages next_messageid];
            apply store_wf_filter; exact Hwf|].
    split; [cbn; lia|].
    intros m' Hm. unfold exec_all in Hm.
    cbn [fold_left exec users messages next_messageid] in Hm.
    apply filter_In in Hm. apply Hsame, Hm.
Qed.

(** X7. Along any sequence of calls the message ids stay keys below the
    counter, the counter never goes back, and no stored message is ever
    rewritten: every message of the later store whose id is below the
    earlier counter is a message of the earlier store, with the same
    id, receiver, sender, text and time, read if it was read before.
    (So a message once read is never unread again and, the ids coming
    from the counter, an id below the counter keeps denoting the message
    it denoted before.) *)
Theorem serve_calls_messages
    (hashpw : string -> string -> string) (checkpw : string -> string -> bool)
    (calls : list Call) (db : Store) :
  store_wf db ->
  let db' := serve_calls hashpw checkpw db calls in
  store_wf db' /\
  (next_messageid db <= next_messageid db')%Z /\
  (forall m', In m' (messages db') -> (messageid m' < next_messageid db)%Z ->
     exists m, In m (messages db) /\ later_state m m').
Proof.
  revert db. induction calls as [|c calls IH]; intros db Hwf db'.
  - subst db'. cbn [serve_calls fold_left]. split; [exact Hwf|]. split; [lia|].
    intros m' Hm _. exists m'. split; [exact Hm | apply later_state_refl].
  - subst db'. cbn [serve_calls fold_left].
    destruct (store_step_messages db _ Hwf (serve_call_step hashpw checkpw db c))
      as (Hwf1 & Hle1 & Hold1).
    destruct (IH _ Hwf1) as (Hwf2 & Hle2 & Hold2).
    split; [exact Hwf2|]. split; [unfold serve_calls in Hle2; lia|].
    intros m' Hm Hlt.
    destruct (Hold2 m' Hm) as (m1 & Hm1 & Hl1); [lia|].
    destruct (Hold1 m1 Hm1) as [(m & Hm0 & Hl0)|Hnew].
    + exists m. split; [exact Hm0 | apply (later_state_trans _ _ _ Hl0 Hl1)].
    + rewrite (later_state_id _ _ Hl1) in Hlt. lia.
Qed.

Lemma NoDup_map_filter_users (f : UserRow -> bool) (l : list UserRow) :
  NoDup (map u_username l) -> NoDup (map u_username (filter f l)).
Proof.
  induction l as [|x l IH]; intros Hnd; cbn [filter map]; [constructor|].
  cbn [map] in Hnd. apply NoDup_cons_iff in Hnd. destruct Hnd as [Hx Hnd].
  destruct (f x); cbn [map]; [|apply IH; exact Hnd].
  constructor; [|apply IH; exact Hnd].
  intros Hin. apply Hx. apply in_map_iff in Hin. destruct Hin as [y [Hy Hin]].
  apply filter_In in Hin. rewrite <- Hy. apply in_map. apply Hin.
Qed.

Lemma users_wf_names (db db' : Store) :
  map u_username (users db') = map u_username (users db) ->
  users_wf db -> users_wf db'.
Proof.
  intros Hn [Hnd Hall]. split; [rewrite Hn; exact Hnd|].
  rewrite Forall_forall in *. intros r Hr.
  assert (Hin : In (u_username r) (map u_username (users db)))
    by (rewrite <- Hn; apply in_map; exact Hr).
  apply in_map_iff in Hin. destruct Hin as [r0 [Hr0 Hin0]].
  rewrite <- Hr0. apply Hall. exact Hin0.
Qed.

Lemma store_step_users (db db' : Store) :
  users_wf db -> store_step db db' -> users_wf db'.
Proof.
  intros Hwf Hstep.
  destruct Hstep as [|u h Hne Hstrip Hno|u b|now t s b _ _|ids|last_id|u].
  - exact Hwf.
  - destruct Hwf as [Hnd Hall]. unfold insert_user. split; cbn [users].
    + rewrite map_app. cbn [map u_username].
      apply NoDup_app; [exact Hnd | repeat constructor; intros [] |].
      intros x Hx [<-|[]]. apply Hno. apply user_exists_names. exact Hx.
    + apply Forall_app. split; [exact Hall|].
      constructor; [cbn; split; assumption | constructor].
  - apply (users_wf_names db); [apply update_active_names | exact Hwf].
  - exact Hwf.
  - exact Hwf.
  - exact Hwf.
  - destruct Hwf as [Hnd Hall]. unfold exec_all.
    cbn [fold_left exec users messages next_messageid]. split; cbn [users].
    + apply NoDup_map_filter_users. exact Hnd.
    + rewrite Forall_forall in *. intros r Hr. apply filter_In in Hr. apply Hall, Hr.
Qed.

(** X8. Along any sequence of calls the usernames stay keys, and they
    stay as [Register] stores them, not empty and without white space
    around them: no call creates a second account of a name or an
    account that a stripped username could not reach. *)
Theorem serve_calls_users
    (hashpw : string -> string -> string) (checkpw : string -> string -> bool)
    (calls : list Call) (db : Store) :
  users_wf db -> users_wf (serve_calls hashpw checkpw db calls).
Proof.
  revert db. induction calls as [|c calls IH]; intros db Hwf;
    cbn [serve_calls fold_left]; [exact Hwf|].
  apply IH. apply (store_step_users db); [exact Hwf | apply serve_call_step].
Qed.

(* ================================================================= *)
(** ** The senders offered by the triage conversation *)

Lemma list_sum_cons (a : nat) (l : list nat) : list_sum (a :: l) = a + list_sum l.
Proof. reflexivity. Qed.

Lemma bump_count (s k : string) (acc : list (string * nat)) :
  count_for k (bump s acc) = count_for k acc + (if String.eqb s k then 1 else 0).
Proof.
  unfold count_for, total_count. induction acc as [|[k0 n] acc IH]; cbn [bump].
  - cbn [filter fst]. destruct (String.eqb s k); reflexivity.
  - destruct (String.eqb_spec k0 s) as [->|Hne]; cbn [filter fst].
    + destruct (String.eqb s k); cbn [map snd]; rewrite ?list_sum_cons; lia.
    + destruct (String.eqb k0 k); cbn [map snd]; rewrite ?list_sum_cons, IH; lia.
Qed.

Lemma bump_total (s : string) (acc : list (string * nat)) :
  total_count (bump s acc) = S (total_count acc).
Proof.
  unfold total_count. induction acc as [|[k0 n] acc IH]; cbn [bump]; [reflexivity|].
  destruct (String.eqb k0 s); cbn [map snd]; rewrite ?list_sum_cons, ?IH; lia.
Qed.

Lemma bump_keys (s k : string) (acc : list (string * nat)) :
  In k (map fst (bump s acc)) <-> k = s \/ In k (map fst acc).
Proof.
  induction acc as [|[k0 n] acc IH]; cbn [bump].
  - cbn. intuition congruence.
  - destruct (String.eqb_spec k0 s) as [->|Hne]; cbn [map fst In].
    + intuition congruence.
    + rewrite IH. intuition congruence.
Qed.

Lemma bump_NoDup (s : string) (acc : list (string * nat)) :
  NoDup (map fst acc) -> NoDup (map fst (bump s acc)).
Proof.
  induction acc as [|[k0 n] acc IH]; cbn [bump]; intros Hnd.
  - repeat constructor. intros [].
  - cbn [map fst] in Hnd. apply NoDup_cons_iff in Hnd. destruct Hnd as [Hk Hnd].
    destruct (String.eqb_spec k0 s) as [->|Hne]; cbn [map fst].
    + constructor; assumption.
    + constructor; [|apply IH; exact Hnd].
      rewrite bump_keys. intros [->|H]; [congruence | contradiction].
Qed.

Lemma bump_positive (s : string) (acc : list (string * nat)) :
  Forall (fun r => 0 < snd r) acc -> Forall (fun r => 0 < snd r) (bump s acc).
Proof.
  induction acc as [|[k0 n] acc IH]; cbn [bump]; intros H.
  - repeat constructor.
  - inversion H as [|x l Hx Hl]; subst.
    destruct (String.eqb k0 s); constructor; cbn [snd] in *; auto; lia.
Qed.

Lemma group_by_sender (l : list MessageRow) (acc : list (string * nat)) :
  let info := fold_left (fun acc m => bump (sender m) acc) l acc in
  (forall k, count_for k info =
             count_for k acc + length (filter (fun m => String.eqb (sender m) k) l)) /\
  total_count info = total_count acc + length l /\
  (NoDup (map fst acc) -> NoDup (map fst info)) /\
  (Forall (fun r => 0 < snd r) acc -> Forall (fun r => 0 < snd r) info) /\
  (forall k, In k (map fst info) <->
             In k (map fst acc) \/ exists m, In m l /\ sender m = k).
Proof.
  revert acc. induction l as [|m l IH]; intros acc; cbn [fold_left].
  - cbv zeta. cbn [filter length].
    split; [intros k; lia|]. split; [lia|]. split; [auto|]. split; [auto|].
    intros k. split; [intros H; left; exact H | intros [H|[m [[] _]]]; exact H].
  - destruct (IH (bump (sender m) acc)) as (Hc & Ht & Hn & Hp & Hk). cbv zeta.
    split; [|split; [|split; [|split]]].
    + intros k. rewrite Hc, bump_count. cbn [filter].
      destruct (String.eqb (sender m) k); cbn [length]; lia.
    + rewrite Ht, bump_total. cbn [length]. lia.
    + intros H. apply Hn, bump_NoDup, H.
    + intros H. apply Hp, bump_positive, H.
    + intros k. rewrite Hk, bump_keys. split.
      * intros [[->|H]|[x [Hx Hs]]].
        -- right. exists m. split; [left|]; reflexivity.
        -- left. exact H.
        -- right. exists x. split; [right; exact Hx | exact Hs].
      * intros [H|[x [[->|Hx] Hs]]].
        -- left. right. exact H.
        -- left. left. symmetry. exact Hs.
        -- right. exists x. split; assumption.
Qed.

Lemma count_for_In (s : string) (n : nat) (info : list (string * nat)) :
  NoDup (map fst info) -> In (s, n) info -> count_for s info = n.
Proof.
  unfold count_for, total_count.
  induction info as [|[k0 n0] info IH]; intros Hnd Hin; [destruct Hin|].
  cbn [map fst] in Hnd. apply NoDup_cons_iff in Hnd. destruct Hnd as [Hk Hnd].
  cbn [filter fst]. destruct Hin as [E|Hin].
  - injection E as -> ->. rewrite String.eqb_refl. cbn [map snd]. rewrite list_sum_cons.
    assert (H0 : filter (fun r : string * nat => String.eqb (fst r) s) info = []).
    { clear IH Hnd. induction info as [|[k1 n1] info IH']; [reflexivity|].
      cbn [filter fst]. destruct (String.eqb_spec k1 s) as [->|Hne].
      - exfalso. apply Hk. left. reflexivity.
      - apply IH'. intros H. apply Hk. right. exact H. }
    rewrite H0. cbn. lia.
  - destruct (String.eqb_spec k0 s) as [->|Hne].
    + exfalso. apply Hk. apply (in_map fst) in Hin. exact Hin.
    + apply IH; assumption.
Qed.

Lemma filter_sender_unread (user : option string) (s : string) (l : list MessageRow) :
  filter (fun m => String.eqb (sender m) s) (filter (unread_for user) l) =
  filter (unread_from user s) l.
Proof.
  induction l as [|m l IH]; [reflexivity|]. cbn [filter].
  unfold unread_for at 1, unread_from at 1.
  destruct (sql_eq (receiver m) user), (isread m); cbn [andb negb filter];
    destruct (String.eqb (sender m) s); cbn [andb]; rewrite ?IH; try reflexivity;
    rewrite ?andb_false_r; try reflexivity; exact IH.
Qed.

Lemma select_unread_from_length (db : Store) (user : option string) (s : string) :
  length (select_unread_from db user s) =
  length (filter (unread_from user s) (messages db)).
Proof. apply Permutation_length, select_unread_from_perm. Qed.

Lemma select_unread_senders_facts (db : Store) (user : option string) :
  let info := select_unread_senders db user in
  total_count info = length (filter (unread_for user) (messages db)) /\
  NoDup (map fst info) /\
  (forall s n, In (s, n) info ->
     0 < n /\ length (select_unread_from db user s) = n) /\
  (forall s, In s (map fst info) <-> select_unread_from db user s <> []).
Proof.
  intros info.
  destruct (group_by_sender (filter (unread_for user) (messages db)) [])
    as (Hc & Ht & Hn & Hp & Hk).
  cbv zeta in *. fold (select_unread_senders db user) in *. fold info in Hc, Ht, Hn, Hp, Hk.
  assert (Hnd : NoDup (map fst info)) by (apply Hn; constructor).
  split; [rewrite Ht; reflexivity|]. split; [exact Hnd|]. split.
  - intros s n Hin. split.
    + assert (Hall : Forall (fun r => 0 < snd r) info) by (apply Hp; constructor).
      rewrite Forall_forall in Hall. apply (Hall (s, n) Hin).
    + rewrite select_unread_from_length, <- filter_sender_unread.
      rewrite <- (count_for_In s n info Hnd Hin), Hc. reflexivity.
  - intros s. rewrite Hk. split.
    + intros [[]|[m [Hm Hs]]] Hnil.
      apply filter_In in Hm. destruct Hm as [Hm Hu].
      assert (Hin : In m (select_unread_from db user s)).
      { apply select_unread_from_In. split; [exact Hm|].
        unfold unread_for in Hu. unfold unread_from.
        apply andb_true_iff in Hu. destruct Hu as [-> ->].
        rewrite Hs, String.eqb_refl. reflexivity. }
      rewrite Hnil in Hin. destruct Hin.
    + intros Hne. right.
      destruct (select_unread_from db user s) as [|m l] eqn:E; [contradiction Hne; reflexivity|].
      assert (Hin : In m (select_unread_from db user s)) by (rewrite E; left; reflexivity).
      apply select_unread_from_In in Hin. destruct Hin as [Hm Hu].
      apply unread_from_sender in Hu. destruct Hu as (Hr & Hs & Hi).
      exists m. split; [|exact Hs]. apply filter_In. split; [exact Hm|].
      unfold unread_for. rewrite Hr, Hi. reflexivity.
Qed.

Lemma sender_turn_deliveries (db : Store) (u : string) (req : CheckMessagesRequest) :
  deliveries (yields (fst (fst (fst
    (loop_body db (mkLocals (Some u) AwaitSender) req))))) =
  if String.eqb (Py.strip (req_sender req)) "" then []
  else map delivery (select_unread_from db (Some u) (Py.strip (req_sender req))).
Proof.
  destruct (String.eqb_spec (Py.strip (req_sender req)) "") as [E|E].
  - unfold loop_body. cbn [stage]. rewrite E. reflexivity.
  - destruct (select_unread_from db (Some u) (Py.strip (req_sender req)))
      as [|m l] eqn:Em.
    + unfold loop_body. cbn [stage username].
      apply String.eqb_neq in E. rewrite E. cbv zeta. rewrite Em. reflexivity.
    + assert (Hne : select_unread_from db (Some u) (Py.strip (req_sender req)) <> [])
        by (rewrite Em; discriminate).
      rewrite (loop_body_deliver db (mkLocals (Some u) AwaitSender) req u
                 (Py.strip (req_sender req)) eq_refl eq_refl eq_refl E Hne).
      cbn [fst]. rewrite deliveries_of_delivery; [rewrite Em; reflexivity|].
      apply Forall_forall. intros x Hx. apply select_unread_from_In in Hx.
      destruct Hx as [_ Hx]. apply unread_from_sender in Hx.
      destruct Hx as [_ [-> _]]. exact E.
Qed.

(** X9. The answer to the choice "1" is consistent with what the next
    turn delivers.  The senders it lists are pairwise distinct, each
    with a count of at least one, the number of the user's unread
    messages from that sender, and these counts add up to the unread
    count announced by the first turn.  When that count is positive the
    answer is this list, never "No unread messages found.".  A sender
    turn delivers the unread messages from its stripped sender and no
    others: for a listed sender that a turn can name (not empty, no
    white space around it) these are as many delivery turns as the
    count says; a listed sender that is empty or has white space around
    it (senders come unchecked from the metadata) cannot be named, and
    no turn delivers for it.  A non-empty stripped sender is answered by
    "No unread messages from <sender>." exactly when it is not on the
    list. *)
Theorem triage_senders_offered (db : Store) (loc : Locals)
    (req : CheckMessagesRequest) (u : string) :
  stage loc = AwaitChoice ->
  username loc = Some u ->
  Py.strip (req_choice req) = "1" ->
  let info := select_unread_senders db (Some u) in
  let turn req' := loop_body db (mkLocals (Some u) AwaitSender) req' in
  total_count info = select_unread_count db u /\
  NoDup (map fst info) /\
  (forall s n, In (s, n) info ->
     0 < n /\ length (select_unread_from db (Some u) s) = n) /\
  (0 < select_unread_count db u ->
     loop_body db loc req =
       ([Yield (senders_prompt info)], Continue, mkLocals (Some u) AwaitSender, db)) /\
  (forall req',
     deliveries (yields (fst (fst (fst (turn req'))))) =
     if String.eqb (Py.strip (req_sender req')) "" then []
     else map delivery (select_unread_from db (Some u) (Py.strip (req_sender req')))) /\
  (forall s n req',
     In (s, n) info -> s <> "" -> Py.strip (req_sender req') = s ->
     length (deliveries (yields (fst (fst (fst (turn req')))))) = n /\
     Forall (fun r => cm_sender r = s) (deliveries (yields (fst (fst (fst (turn req'))))))) /\
  (forall s req',
     s = "" \/ Py.strip s <> s ->
     Forall (fun r => cm_sender r <> s)
            (deliveries (yields (fst (fst (fst (turn req'))))))) /\
  (forall req',
     let chosen := Py.strip (req_sender req') in
     chosen <> "" ->
     (~ In chosen (map fst info) <->
      turn req' =
        ([Yield (say ("No unread messages from " ++ chosen ++ "."))], Break,
         mkLocals (Some u) AwaitSender, db))).
Proof.
  intros Hst Hu Hch info turn.
  destruct (select_unread_senders_facts db (Some u)) as (Ht & Hnd & Hcount & Hlisted).
  fold info in Ht, Hnd, Hcount, Hlisted.
  assert (Hfrom : forall req' r,
            In r (deliveries (yields (fst (fst (fst (turn req')))))) ->
            cm_sender r = Py.strip (req_sender req') /\ Py.strip (req_sender req') <> "").
  { intros req' r Hr. unfold turn in Hr. rewrite sender_turn_deliveries in Hr.
    destruct (String.eqb_spec (Py.strip (req_sender req')) "") as [E|E]; [destruct Hr|].
    apply in_map_iff in Hr. destruct Hr as [m [<- Hm]].
    apply select_unread_from_In in Hm. destruct Hm as [_ Hm].
    apply unread_from_sender in Hm. destruct Hm as [_ [Hs _]].
    split; [exact Hs | exact E]. }
  split; [exact Ht|]. split; [exact Hnd|]. split; [exact Hcount|]. split.
  { intros Hpos. unfold loop_body. rewrite Hst, Hch, Hu. cbn [String.eqb Ascii.eqb Bool.eqb].
    fold info. destruct info as [|r info'] eqn:Ei; [|reflexivity].
    unfold select_unread_count in Hpos. rewrite <- Ht in Hpos. cbn in Hpos. lia. }
  split; [intros req'; apply sender_turn_deliveries|].
  split.
  { intros s n req' Hin Hs Hreq. split.
    - unfold turn. rewrite sender_turn_deliveries, Hreq.
      apply String.eqb_neq in Hs. rewrite Hs, length_map.
      apply (Hcount s n Hin).
    - apply Forall_forall. intros r Hr. destruct (Hfrom req' r Hr) as [Hc _].
      rewrite Hc. exact Hreq. }
  split.
  { intros s req' Hs. apply Forall_forall. intros r Hr.
    destruct (Hfrom req' r Hr) as [Hc Hne]. rewrite Hc. intros E.
    destruct Hs as [Hs|Hs]; [congruence|].
    apply Hs. rewrite <- E. apply strip_idempotent. }
  intros req' chosen Hne. rewrite Hlisted.
  unfold turn, loop_body. cbn [stage username]. fold chosen.
  apply String.eqb_neq in Hne. rewrite Hne. cbv zeta.
  destruct (select_unread_from db (Some u) chosen) as [|m l] eqn:E.
  + split; [reflexivity | intros _ H; apply H; reflexivity].
  + split; [intros H; exfalso; apply H; discriminate|].
    intros H. exfalso.
    assert (Hc : commits (flat_map deliver_batch (batches (m :: l))
                          ++ [Yield done_reading]) = [])
      by (apply (f_equal (fun x => commits (fst (fst (fst x))))) in H; exact H).
    rewrite commits_app, commits_batches in Hc.
    apply (f_equal (@length _)) in Hc.
    rewrite length_app, length_map, batches_length in Hc.
    pose proof (ceil_div_bounds (length (m :: l))) as Hb.
    cbn [length] in Hc, Hb. unfold batch_size in *. lia.
Qed.

(* ================================================================= *)
(** ** A whole triage conversation *)

Lemma loop_body_first (db : Store) (req : CheckMessagesRequest) :
  Py.strip (req_username req) <> "" ->
  0 < select_unread_count db (Py.strip (req_username req)) ->
  loop_body db (mkLocals None AwaitUsername) req =
    ([Yield (unread_prompt (select_unread_count db (Py.strip (req_username req))))],
     Continue, mkLocals (Some (Py.strip (req_username req))) AwaitChoice, db).
Proof.
  intros Hu Hn. unfold loop_body. cbn [stage].
  apply String.eqb_neq in Hu. rewrite Hu.
  destruct (select_unread_count db (Py.strip (req_username req))); [lia | reflexivity].
Qed.

Lemma loop_body_read (db : Store) (loc : Locals) (req : CheckMessagesRequest)
    (u : string) :
  stage loc = AwaitChoice -> username loc = Some u ->
  Py.strip (req_choice req) = "1" ->
  0 < select_unread_count db u ->
  loop_body db loc req =
    ([Yield (senders_prompt (select_unread_senders db (Some u)))], Continue,
     mkLocals (Some u) AwaitSender, db).
Proof.
  intros Hst Hu Hch Hpos. unfold loop_body. rewrite Hst, Hch, Hu.
  cbn [String.eqb Ascii.eqb Bool.eqb].
  destruct (select_unread_senders_facts db (Some u)) as (Ht & _).
  destruct (select_unread_senders db (Some u)); [|reflexivity].
  unfold select_unread_count in Hpos. rewrite <- Ht in Hpos. cbn in Hpos. lia.
Qed.

Lemma unread_from_for (u s : string) (m : MessageRow) :
  unread_from (Some u) s m = unread_for (Some u) m && String.eqb (sender m) s.
Proof.
  unfold unread_from, unread_for.
  destruct (sql_eq (receiver m) (Some u)), (String.eqb (sender m) s), (isread m);
    reflexivity.
Qed.

Lemma filter_split_length {A} (p q : A -> bool) (l : list A) :
  length (filter p l) =
  length (filter (fun x => p x && q x) l) + length (filter (fun x => p x && negb (q x)) l).
Proof.
  induction l as [|x l IH]; [reflexivity|]. cbn [filter].
  destruct (p x), (q x); cbn [andb negb length]; lia.
Qed.

Lemma filter_map_length {A B} (f : B -> bool) (g : A -> B) (l : list A) :
  length (filter f (map g l)) = length (filter (fun x => f (g x)) l).
Proof.
  induction l as [|x l IH]; [reflexivity|]. cbn [map filter].
  destruct (f (g x)); cbn [length]; rewrite IH; reflexivity.
Qed.

Lemma unread_count_after_read (db : Store) (u s : string) :
  NoDup (map messageid (messages db)) ->
  select_unread_count
    (mark_read (map messageid (select_unread_from db (Some u) s)) db) u
  + length (select_unread_from db (Some u) s) = select_unread_count db u.
Proof.
  intros Hnd. unfold select_unread_count, mark_read. cbn [messages].
  rewrite filter_map_length, select_unread_from_length.
  rewrite (filter_split_length (unread_for (Some u))
             (fun m => String.eqb (sender m) s) (messages db)).
  rewrite Nat.add_comm. f_equal.
  - f_equal. apply filter_ext. intros m. apply unread_from_for.
  - f_equal. apply filter_ext_in. intros m Hm.
    destruct (id_in (map messageid (select_unread_from db (Some u) s)) m) eqn:Eid.
    + pose proof (id_in_selected db _ _ m Hnd Hm Eid) as Hsel.
      rewrite unread_from_for in Hsel. apply andb_true_iff in Hsel.
      destruct Hsel as [_ ->]. rewrite andb_false_r.
      apply unread_for_read. reflexivity.
    + destruct (unread_for (Some u) m) eqn:Eu; [|reflexivity].
      destruct (String.eqb (sender m) s) eqn:Es; [|reflexivity].
      exfalso. assert (Hsel : In m (select_unread_from db (Some u) s)).
      { apply select_unread_from_In. split; [exact Hm|].
        rewrite unread_from_for, Eu, Es. reflexivity. }
      apply id_in_ids in Hsel. congruence.
Qed.

(** X10. A conversation of three turns, a username, the choice "1" and a
    sender with [k > 0] unread messages for that user, runs through the
    three stages: the unread count [n], the list of senders, the [k]
    messages in batches and "Done reading messages from this sender.",
    after which the handler stops without reading further turns.  It
    leaves these [k] messages read: of the [n] unread messages of the
    user, [n - k] are left, none of them from that sender, so that a
    new conversation announces [n - k]. *)
Theorem triage_conversation (db : Store)
    (t1 t2 t3 : CheckMessagesRequest) (rest : list CheckMessagesRequest) :
  let u := Py.strip (req_username t1) in
  let chosen := Py.strip (req_sender t3) in
  let msgs := select_unread_from db (Some u) chosen in
  let n := select_unread_count db u in
  let run := CheckMessages db (t1 :: t2 :: t3 :: rest) in
  u <> "" -> Py.strip (req_choice t2) = "1" -> chosen <> "" -> msgs <> [] ->
  length msgs <= n /\
  run = mkRun ([Yield (unread_prompt n);
                Yield (senders_prompt (select_unread_senders db (Some u)))]
               ++ flat_map deliver_batch (batches msgs) ++ [Yield done_reading])%list
              3 true (mark_read (map messageid msgs) db) /\
  select_unread_from (final run) (Some u) chosen = [] /\
  ~ In chosen (map fst (select_unread_senders (final run) (Some u))) /\
  (NoDup (map messageid (messages db)) ->
   select_unread_count (final run) u = n - length msgs).
Proof.
  intros u chosen msgs n run Hu Hch Hne Hmsgs.
  assert (Hle : length msgs <= n).
  { unfold msgs, n, select_unread_count. rewrite select_unread_from_length.
    rewrite (filter_split_length (unread_for (Some u))
               (fun m => String.eqb (sender m) chosen) (messages db)).
    rewrite (filter_ext _ _ (unread_from_for u chosen)). lia. }
  assert (Hpos : 0 < n).
  { destruct msgs; [contradiction Hmsgs; reflexivity | cbn [length] in Hle; lia]. }
  assert (Hrun : run = mkRun
            ([Yield (unread_prompt n);
              Yield (senders_prompt (select_unread_senders db (Some u)))]
             ++ flat_map deliver_batch (batches msgs) ++ [Yield done_reading])%list
            3 true (mark_read (map messageid msgs) db)).
  { unfold run, CheckMessages.
    rewrite (for_loop_continue _ _ _ _ _ _ _ (loop_body_first db t1 Hu Hpos)).
    rewrite (for_loop_continue _ _ _ _ _ _ _
               (loop_body_read db (mkLocals (Some u) AwaitChoice) t2 u
                  eq_refl eq_refl Hch Hpos)).
    rewrite (for_loop_break _ _ _ _ _ _ _
               (loop_body_deliver db (mkLocals (Some u) AwaitSender) t3 u chosen
                  eq_refl eq_refl eq_refl Hne Hmsgs)).
    reflexivity. }
  split; [exact Hle|]. split; [exact Hrun|].
  rewrite Hrun. cbn [final].
  assert (Hgone : select_unread_from (mark_read (map messageid msgs) db) (Some u) chosen
                  = []).
  { unfold select_unread_from at 1. unfold msgs. rewrite unread_from_after_mark.
    reflexivity. }
  split; [exact Hgone|]. split.
  - destruct (select_unread_senders_facts (mark_read (map messageid msgs) db) (Some u))
      as (_ & _ & _ & Hlisted).
    rewrite Hlisted, Hgone. intros H. apply H. reflexivity.
  - intros Hnd. pose proof (unread_count_after_read db u chosen Hnd) as H.
    fold msgs n in H. lia.
Qed.

(* ================================================================= *)
(** ** The conversations as the client drives them *)

Lemma bidi_queue_stripped (entries : list string) (x : string) :
  In x (bidi_queue entries) -> x <> "" /\ Py.strip x = x.
Proof.
  unfold bidi_queue. rewrite in_flat_map. intros [e [_ Hx]].
  unfold send_message_bidi in Hx.
  destruct (String.eqb_spec (Py.strip e) "") as [E|E]; [destruct Hx|].
  destruct Hx as [<-|[]]. split; [exact E | apply strip_idempotent].
Qed.

Lemma request_generator_senders (username : string) (entries : list string)
    (req : CheckMessagesRequest) :
  In req (request_generator username (bidi_queue entries)) ->
  Py.strip (req_sender req) <> "1" /\ Py.strip (req_sender req) <> "2".
Proof.
  unfold request_generator. intros [<-|Hin]; [split; discriminate|].
  apply in_map_iff in Hin. destruct Hin as [x [<- Hx]].
  apply bidi_queue_stripped in Hx. destruct Hx as [_ Hs].
  unfold check_turn.
  destruct (String.eqb_spec x "1") as [E1|E1]; cbn [orb req_sender];
    [split; discriminate|].
  destruct (String.eqb_spec x "2") as [E2|E2]; cbn [req_sender];
    [split; discriminate|].
  rewrite Hs. split; assumption.
Qed.

(** X11. Through the client, the messages of a sender named "1" or "2"
    cannot be read.  Whatever is typed during a check session, no turn
    that [request_generator] sends carries such a sender: an entry "1"
    or "2" typed when the server awaits a sender goes out as a choice
    and is answered by "Please provide a valid sender name."; so, ids
    being keys, every message sent by "1" or by "2" is in the store
    after the conversation exactly as before. *)
Theorem client_cannot_choose_numeric_sender (db : Store) (username : string)
    (entries : list string) :
  let turns := request_generator username (bidi_queue entries) in
  (forall req, In req turns ->
     Py.strip (req_sender req) <> "1" /\ Py.strip (req_sender req) <> "2") /\
  (forall loc entry,
     stage loc = AwaitSender ->
     In (Py.strip entry) ["1"; "2"] ->
     map (loop_body db loc) (map (check_turn username) (send_message_bidi entry)) =
       [([Yield (say "Please provide a valid sender name.")], Continue, loc, db)]) /\
  (NoDup (map messageid (messages db)) ->
   forall m, In m (messages db) -> In (sender m) ["1"; "2"] ->
     In m (messages (final (CheckMessages db turns)))).
Proof.
  intros turns. split; [apply request_generator_senders|]. split.
  - intros loc entry Hst Hin. unfold send_message_bidi.
    destruct Hin as [<-|[<-|[]]]; cbn [String.eqb Ascii.eqb Bool.eqb map check_turn orb];
      unfold loop_body; rewrite Hst; reflexivity.
  - intros Hnd m Hm Hs.
    destruct (CheckMessages_cases db turns)
      as [->|(first & rest & req & Hr & Hin & _ & _ & ->)]; [exact Hm|].
    apply mark_read_keeps; [exact Hm|].
    destruct (id_in _ m) eqn:Eid; [|reflexivity]. exfalso.
    apply (id_in_selected db _ _ m Hnd Hm) in Eid.
    apply unread_from_sender in Eid. destruct Eid as (_ & Hsnd & _).
    assert (Hreq : In req turns) by (rewrite Hr; right; exact Hin).
    destruct (request_generator_senders username entries req Hreq) as [H1 H2].
    rewrite <- Hsnd in H1, H2.
    destruct Hs as [E|[E|[]]]; symmetry in E; contradiction.
Qed.

(** X12. Through the client, nothing is ever deleted and no account is
    ever deactivated.  [request_gen] first sends a turn with an empty
    confirmation "to trigger the prompt", but the server sends its
    prompt unasked and takes that first turn as the answer: whatever the
    user types afterwards, "yes" included, the conversation ends with
    "Delete canceled." or "Deactivation canceled.", the store is as it
    was, and the turn that carries the user's answer is never read. *)
Theorem client_confirmation_is_never_read (db : Store) (username : string)
    (queue : list string) :
  DeleteLastMessage db (request_gen username queue) =
    mkRun [Yield (mkResponse "delete"
             "Are you sure you want to delete your last unread message? (yes/no)");
           Yield (mkResponse "delete" "Delete canceled.")] 1 true db /\
  DeactivateAccount db (request_gen username queue) =
    mkRun [Yield (mkResponse "deactivate"
             "Are you sure you want to deactivate your account? (yes/no)");
           Yield (mkResponse "deactivate" "Deactivation canceled.")] 1 true db /\
  (forall answer, first_answer queue = Some answer ->
     length (request_gen username queue) = 2 /\
     consumed (DeleteLastMessage db (request_gen username queue)) = 1 /\
     consumed (DeactivateAccount db (request_gen username queue)) = 1).
Proof.
  split; [reflexivity|]. split; [reflexivity|].
  intros answer Ha. unfold request_gen. rewrite Ha. repeat split; reflexivity.
Qed.

(* ================================================================= *)
(** ** Who can be sent a message *)

Lemma store_step_receivers (db db' : Store) (m' : MessageRow) :
  store_step db db' -> In m' (messages db') ->
  (exists m, In m (messages db) /\ later_state m m') \/
  has_space (receiver m') = false.
Proof.
  intros Hstep Hm.
  assert (Hsame : forall x, In x (messages db) ->
            (exists m, In m (messages db) /\ later_state m x) \/
            has_space (receiver x) = false).
  { intros x Hx. left. exists x. split; [exact Hx | apply later_state_refl]. }
  destruct Hstep as [|u h _ _ _|u b|now t s b _ Hsp|ids|last_id|u].
  - apply Hsame, Hm.
  - apply Hsame, Hm.
  - apply Hsame, Hm.
  - unfold insert_message in Hm; cbn [messages] in Hm.
    apply in_app_or in Hm. destruct Hm as [Hm|[<-|[]]]; [apply Hsame, Hm|].
    right. exact Hsp.
  - left. unfold mark_read in Hm; cbn [messages] in Hm.
    apply in_map_iff in Hm. destruct Hm as [x [Hx Hin]]. exists x. split; [exact Hin|].
    destruct (id_in ids x); subst m'; [|apply later_state_refl].
    split; reflexivity.
  - cbn [exec messages] in Hm. apply filter_In in Hm. apply Hsame, Hm.
  - unfold exec_all in Hm. cbn [fold_left exec users messages next_messageid] in Hm.
    apply filter_In in Hm. apply Hsame, Hm.
Qed.

Lemma later_state_receiver (m m' : MessageRow) :
  later_state m m' -> receiver m' = receiver m.
Proof. intros [H _]. apply (f_equal receiver) in H. exact H. Qed.

(** X13. [SendMessage] takes as receiver the text between the "@" and
    the first space: when it succeeds, the stripped text is "@", the
    receiver, a space and the stored body, the receiver has no space in
    it and is a username of the table.  Hence a user whose name has a
    space inside, a name that [Register] accepts, can never be sent a
    message: after any sequence of calls, the messages addressed to such
    a name are messages that were in the store before. *)
Theorem no_message_for_spaced_names
    (hashpw : string -> string -> string) (checkpw : string -> string -> bool)
    (db : Store) :
  (forall now md request,
     sm_success (fst (SendMessage db now md request)) = true ->
     exists target body,
       Py.strip (gm_message request) =
         String "@"%char (target ++ String " "%char body) /\
       has_space target = false /\ user_exists db target /\
       messages (snd (SendMessage db now md request)) =
         (messages db ++
          [mkMessage (next_messageid db) target
                     (md_get md "username" "unknown") body now false])%list) /\
  (forall calls m',
     In m' (messages (serve_calls hashpw checkpw db calls)) ->
     has_space (receiver m') = true ->
     exists m, In m (messages db) /\ later_state m m') /\
  (forall salt request,
     let u := Py.strip (reg_username request) in
     let p := Py.strip (reg_password request) in
     u <> "" -> ~ user_exists db u -> checkValidPassword p = true ->
     p = Py.strip (reg_confirm_password request) ->
     user_exists (snd (Register hashpw db salt request)) u).
Proof.
  split; [|split].
  - intros now md request Hok.
    destruct (SendMessage_cases db now md request)
      as [[Hf _]|(t & b & Et & Hsp & Hex & Hout)]; [congruence|].
    exists t, b. rewrite Hout. repeat (split; [assumption|]). reflexivity.
  - intros calls. revert db. induction calls as [|c calls IH]; intros db m' Hm Hsp;
      cbn [serve_calls fold_left] in Hm.
    + exists m'. split; [exact Hm | apply later_state_refl].
    + destruct (IH _ m' Hm Hsp) as (m1 & Hm1 & Hl1).
      destruct (store_step_receivers db _ m1 (serve_call_step hashpw checkpw db c) Hm1)
        as [(m & Hm0 & Hl0)|Hno].
      * exists m. split; [exact Hm0 | apply (later_state_trans _ _ _ Hl0 Hl1)].
      * rewrite (later_state_receiver _ _ Hl1) in Hsp. congruence.
  - intros salt request u p Hu Hno Hv Hc. unfold Register. fold u p.
    apply String.eqb_neq in Hu. rewrite Hu. cbn [orb].
    assert (Hp : p <> "").
    { intros E. rewrite E in Hv. discriminate Hv. }
    apply String.eqb_neq in Hp. rewrite Hp. cbn [orb].
    rewrite <- Hc, Hp. apply checkRealUsername_false_iff in Hno. rewrite Hno, Hv.
    cbn [negb]. rewrite String.eqb_refl. cbn [negb snd].
    apply user_exists_inserted.
Qed.

(* ================================================================= *)
(** ** Sending and taking back *)

Lemma filter_all {A} (f : A -> bool) (l : list A) :
  (forall x, In x l -> f x = true) -> filter f l = l.
Proof.
  induction l as [|x l IH]; intros H; [reflexivity|]. cbn [filter].
  rewrite (H x (or_introl eq_refl)). f_equal. apply IH.
  intros y Hy. apply H. right. exact Hy.
Qed.

Lemma select_last_unread_sent_new (db : Store) (now : DateTime)
    (target sndr body : string) :
  store_wf db ->
  select_last_unread_sent (insert_message db now target sndr body) sndr =
    Some (next_messageid db).
Proof.
  intros [_ Hlt]. rewrite Forall_forall in Hlt.
  set (db1 := insert_message db now target sndr body).
  set (new := mkMessage (next_messageid db) target sndr body now false).
  assert (Hnew : In new (messages db1))
    by (unfold db1, insert_message; cbn [messages]; apply in_or_app; right; left;
        reflexivity).
  assert (Hun : unread_sent_by sndr new = true)
    by (unfold unread_sent_by, new; cbn; rewrite String.eqb_refl; reflexivity).
  destruct (select_last_unread_sent db1 sndr) as [i|] eqn:E.
  - destruct (select_last_unread_sent_some db1 sndr i E) as (last & Hin & _ & Hid & Hmax).
    specialize (Hmax new Hnew Hun). cbn [messageid new] in Hmax.
    unfold db1, insert_message in Hin; cbn [messages] in Hin.
    apply in_app_or in Hin. destruct Hin as [Hin|[<-|[]]].
    + specialize (Hlt last Hin). exfalso. lia.
    + cbn in Hid. rewrite <- Hid. reflexivity.
  - rewrite select_last_unread_sent_none in E. rewrite (E new Hnew) in Hun. discriminate.
Qed.

(** X14. On a store with key ids, a message just sent can be taken back:
    when [SendMessage] has succeeded, a [DeleteLastMessage] conversation
    confirmed for the sender's name deletes that very message (it has
    the greatest id), and the messages are again those from before;
    only the id counter has moved on. *)
Theorem SendMessage_then_DeleteLastMessage (db : Store) (now : DateTime)
    (md : list (string * string)) (request : GeneralMessage)
    (del : ConfirmRequest) (rest : list ConfirmRequest) :
  store_wf db ->
  sm_success (fst (SendMessage db now md request)) = true ->
  Py.strip (conf_username del) = md_get md "username" "unknown" ->
  Py.lower (Py.strip (conf_confirmation del)) = "yes" ->
  let db1 := snd (SendMessage db now md request) in
  let run := DeleteLastMessage db1 (del :: rest) in
  commits (trace run) = [[DeleteMessage (next_messageid db)]] /\
  yields (trace run) =
    [mkResponse "delete"
       "Are you sure you want to delete your last unread message? (yes/no)";
     mkResponse "delete" "Your last unread message was deleted."] /\
  messages (final run) = messages db /\
  users (final run) = users db /\
  next_messageid (final run) = (next_messageid db + 1)%Z.
Proof.
  intros Hwf Hok Hname Hyes db1 run.
  destruct (SendMessage_cases db now md request)
    as [[Hf _]|(t & b & _ & _ & _ & Hout)]; [congruence|].
  assert (Edb : db1 = insert_message db now t (md_get md "username" "unknown") b)
    by (unfold db1; rewrite Hout; reflexivity).
  assert (Hrun : run = mkRun
            [Yield (mkResponse "delete"
               "Are you sure you want to delete your last unread message? (yes/no)");
             Commit [DeleteMessage (next_messageid db)];
             Yield (mkResponse "delete" "Your last unread message was deleted.")]
            1 true (exec_all [DeleteMessage (next_messageid db)] db1)).
  { unfold run, DeleteLastMessage. rewrite Hyes, Hname, Edb.
    rewrite (select_last_unread_sent_new db now t _ b Hwf). reflexivity. }
  rewrite Hrun. cbn [trace final].
  split; [reflexivity|]. split; [reflexivity|].
  rewrite Edb. unfold exec_all, insert_message.
  cbn [fold_left exec users messages next_messageid].
  split; [|split; reflexivity].
  rewrite filter_app. cbn [filter messageid]. rewrite Z.eqb_refl. cbn [negb].
  rewrite app_nil_r. apply filter_all. intros x Hx.
  destruct Hwf as [_ Hlt]. rewrite Forall_forall in Hlt. specialize (Hlt x Hx).
  apply negb_true_iff, Z.eqb_neq. lia.
Qed.

(* ================================================================= *)
(** ** A name after its account is gone *)

Lemma Register_messages (hashpw : string -> string -> string)
    (db : Store) (salt : string) (request : RegisterRequest) :
  messages (snd (Register hashpw db salt request)) = messages db.
Proof.
  unfold Register.
  repeat match goal with
         | |- context [if ?b then _ else _] => destruct b
         end; reflexivity.
Qed.

Lemma filter_filter_and {A} (f g : A -> bool) (l : list A) :
  filter f (filter g l) = filter (fun x => f x && g x) l.
Proof.
  induction l as [|x l IH]; [reflexivity|]. cbn [filter].
  destruct (g x); cbn [filter]; rewrite ?andb_true_r, ?andb_false_r;
    [destruct (f x)|]; rewrite IH; reflexivity.
Qed.

(** X15. A deactivated name is free again, and whoever registers it next
    takes over the inbox.  After [DeactivateAccount] has removed [u],
    a [Register] for [u] is not refused as taken; it leaves the messages
    alone, so the new account finds as unread exactly the messages that
    others had sent to the old one and that were not read: its unread
    count is their number, and triage offers each of them under its
    sender. *)
Theorem name_reuse_inherits_inbox (hashpw : string -> string -> string)
    (db : Store) (req : ConfirmRequest) (rest : list ConfirmRequest)
    (salt : string) (reg : RegisterRequest) :
  Py.lower (Py.strip (conf_confirmation req)) = "yes" ->
  let u := Py.strip (conf_username req) in
  Py.strip (reg_username reg) = u ->
  let db1 := final (DeactivateAccount db (req :: rest)) in
  let db2 := snd (Register hashpw db1 salt reg) in
  fst (Register hashpw db1 salt reg) <>
    mkResponse "1" "Username taken. Please choose another." /\
  messages db2 =
    filter (fun m => negb (String.eqb (sender m) u)) (messages db) /\
  select_unread_count db2 u =
    length (filter (fun m => unread_for (Some u) m && negb (String.eqb (sender m) u))
                   (messages db)) /\
  (forall m, In m (messages db) ->
     receiver m = u -> sender m <> u -> isread m = false ->
     In m (select_unread_from db2 (Some u) (sender m))).
Proof.
  intros Hyes u Hreg db1 db2.
  assert (Edb1 : db1 = mkStore
            (filter (fun r => negb (String.eqb (u_username r) u)) (users db))
            (filter (fun m => negb (String.eqb (sender m) u)) (messages db))
            (next_messageid db)).
  { unfold db1, DeactivateAccount. rewrite Hyes. reflexivity. }
  assert (Hfree : checkRealUsername db1 u = false).
  { apply checkRealUsername_false_iff. intros [r [Hin Hr]].
    rewrite Edb1 in Hin. cbn [users] in Hin. apply filter_In in Hin.
    destruct Hin as [_ Hne]. apply negb_true_iff, String.eqb_neq in Hne. contradiction. }
  assert (Hmsgs : messages db2 =
                  filter (fun m => negb (String.eqb (sender m) u)) (messages db)).
  { unfold db2. rewrite Register_messages, Edb1. reflexivity. }
  split.
  { unfold Register. rewrite Hreg, Hfree.
    repeat match goal with
           | |- context [if ?b then _ else _] => destruct b
           end; cbn [fst]; discriminate. }
  split; [exact Hmsgs|]. split.
  - unfold select_unread_count. rewrite Hmsgs, filter_filter_and. reflexivity.
  - intros m Hm Hr Hs Hi. apply select_unread_from_In. split.
    + rewrite Hmsgs. apply filter_In. split; [exact Hm|].
      apply negb_true_iff, String.eqb_neq. exact Hs.
    + unfold unread_from. cbn [sql_eq]. rewrite Hr, Hi, !String.eqb_refl. reflexivity.
Qed.

(* ================================================================= *)
(** ** How many users a search lists *)

Lemma filter_out_one (x : string) (l : list string) :
  NoDup l -> In x l ->
  S (length (filter (fun n => negb (String.eqb n x)) l)) = length l.
Proof.
  induction l as [|y l IH]; intros Hnd Hin; [destruct Hin|].
  apply NoDup_cons_iff in Hnd. destruct Hnd as [Hy Hnd]. cbn [filter length].
  destruct (String.eqb_spec y x) as [->|Hne]; cbn [negb].
  - f_equal. f_equal. apply filter_all. intros z Hz.
    apply negb_true_iff, String.eqb_neq. intros ->. contradiction.
  - cbn [length]. f_equal. apply IH; [exact Hnd|].
    destruct Hin as [->|Hin]; [contradiction Hne; reflexivity | exact Hin].
Qed.

(** X16. With usernames as keys, a user's search lists every other
    account exactly once: the list has no repetition, and one name less
    than the table has rows; a caller who has no account (a blank or
    unknown name) is shown all of them. *)
Theorem SearchUsers_count (db : Store) (request : SearchRequest) :
  NoDup (map u_username (users db)) ->
  let caller := Py.strip (search_username request) in
  let names := sr_usernames (SearchUsers (Some db) request) in
  NoDup names /\
  (user_exists db caller -> S (length names) = length (users db)) /\
  (~ user_exists db caller -> names = map u_username (users db)).
Proof.
  intros Hnd caller names. unfold names, SearchUsers. cbn [sr_usernames]. fold caller.
  split; [apply NoDup_filter; exact Hnd|]. split.
  - intros Hex. apply user_exists_names in Hex.
    rewrite (filter_out_one caller _ Hnd Hex). apply length_map.
  - intros Hno. apply filter_all. intros n Hn.
    apply negb_true_iff, String.eqb_neq. intros ->.
    apply Hno, user_exists_names, Hn.
Qed.

(* ================================================================= *)
(** ** The further statements at the example store *)

Lemma example_db_store_wf : store_wf example_db.
Proof.
  split.
  - repeat (constructor; [cbn; intuition discriminate|]). constructor.
  - repeat (constructor; [reflexivity|]). constructor.
Qed.

Lemma example_db_users_wf : users_wf example_db.
Proof.
  split.
  - repeat (constructor; [cbn; intuition discriminate|]). constructor.
  - repeat (constructor; [split; [discriminate | reflexivity]|]). constructor.
Qed.

Lemma example_db_exists (name : string) :
  checkRealUsername example_db name = true -> user_exists example_db name.
Proof. apply checkRealUsername_iff. Qed.

Lemma example_db_absent (name : string) :
  checkRealUsername example_db name = false -> ~ user_exists example_db name.
Proof. apply checkRealUsername_false_iff. Qed.

(** An unknown name, a wrong password, and bob logging in. *)
Lemma Login_spec_example :
  Login example_checkpw example_db (mkLoginRequest " dave " "x") =
    (mkResponse "2" "User not found.", example_db) /\
  Login example_checkpw example_db (mkLoginRequest "bob" "wrong") =
    (mkResponse "2" "Incorrect password.", example_db) /\
  Login example_checkpw example_db (mkLoginRequest "bob " " digest-b") =
    (mkResponse "2" "Welcome, bob!", update_active example_db "bob" true).
Proof.
  split; [|split].
  - pose proof (Login_spec example_checkpw example_db (mkLoginRequest " dave " "x")) as H.
    cbv zeta in H. destruct H as (H & _). apply H. apply example_db_absent. reflexivity.
  - pose proof (Login_spec example_checkpw example_db (mkLoginRequest "bob" "wrong")) as H.
    cbv zeta in H. destruct H as (_ & H & _).
    apply H; [apply example_db_exists; reflexivity | reflexivity].
  - pose proof (Login_spec example_checkpw example_db
                  (mkLoginRequest "bob " " digest-b")) as H.
    cbv zeta in H. destruct H as (_ & _ & H & _).
    destruct H as (H1 & H2 & _);
      [apply example_db_exists; reflexivity | reflexivity |].
    rewrite (surjective_pairing (Login _ _ _)), H1, H2. reflexivity.
Defined.

(** A blank name, carol logging off, and a name that nobody has. *)
Lemma Logoff_spec_example :
  Logoff example_db (mkLogoffRequest "  ") =
    (mkResponse "logoff" "No username provided.", example_db) /\
  fst (Logoff example_db (mkLogoffRequest "carol ")) =
    mkResponse "logoff" "carol has been logged off." /\
  Logoff example_db (mkLogoffRequest "zed") =
    (mkResponse "logoff" "zed has been logged off.", example_db).
Proof.
  split; [|split].
  - pose proof (Logoff_spec example_db (mkLogoffRequest "  ")) as H.
    cbv zeta in H. destruct H as (H & _). apply H. reflexivity.
  - pose proof (Logoff_spec example_db (mkLogoffRequest "carol ")) as H.
    cbv zeta in H. destruct H as (_ & H & _).
    destruct H as (H & _); [discriminate|]. rewrite H. reflexivity.
  - pose proof (Logoff_spec example_db (mkLogoffRequest "zed")) as H.
    cbv zeta in H. destruct H as (_ & H & _).
    destruct H as (H1 & _ & H3); [discriminate|].
    rewrite (surjective_pairing (Logoff _ _)), H3, H1;
      [reflexivity | apply example_db_absent; reflexivity].
Defined.

(** Dave registers, then logs in with his password and with another. *)
Lemma Register_then_Login_example :
  let db' := snd (Register example_hashpw example_db "s"
                    (mkRegisterRequest "dave" "Abcdef1!" "Abcdef1!")) in
  Login example_checkpw db' (mkLoginRequest " dave" "Abcdef1!") =
    (mkResponse "2" "Welcome, dave!", db') /\
  Login example_checkpw db' (mkLoginRequest "dave" "Abcdef2!") =
    (mkResponse "2" "Incorrect password.", db').
Proof.
  intros db'. split.
  - pose proof (Register_then_Login example_hashpw example_checkpw example_db "s"
                  (mkRegisterRequest "dave" "Abcdef1!" "Abcdef1!")
                  (mkLoginRequest " dave" "Abcdef1!") eq_refl eq_refl) as H.
    cbv zeta in H. destruct H as (_ & _ & _ & H). apply H. reflexivity.
  - pose proof (Register_then_Login example_hashpw example_checkpw example_db "s"
                  (mkRegisterRequest "dave" "Abcdef1!" "Abcdef1!")
                  (mkLoginRequest "dave" "Abcdef2!") eq_refl eq_refl) as H.
    cbv zeta in H. destruct H as (_ & _ & H & _). apply H. reflexivity.
Defined.

(** Dave registers; right away, and also after dave has logged off and
    bob has deactivated his own account, a registration of " dave " is
    refused.  After dave has deactivated the account, his registration
    succeeds again. *)
Lemma Register_twice_example :
  let db1 := snd (Register example_hashpw example_db "s"
                    (mkRegisterRequest "dave" "Abcdef1!" "Abcdef1!")) in
  let db2 := serve_calls example_hashpw example_checkpw db1
               [CallLogoff (mkLogoffRequest "dave");
                CallDeactivateAccount [mkConfirmRequest "bob" "yes"]] in
  let db3 := serve_call example_hashpw example_checkpw db2
               (CallDeactivateAccount [mkConfirmRequest " dave" " YES "]) in
  Register example_hashpw db1 "t" (mkRegisterRequest " dave " "Other_9x" "Other_9x") =
    (mkResponse "1" "Username taken. Please choose another.", db1) /\
  Register example_hashpw db2 "t" (mkRegisterRequest " dave " "Other_9x" "Other_9x") =
    (mkResponse "1" "Username taken. Please choose another.", db2) /\
  fst (Register example_hashpw db3 "t" (mkRegisterRequest "dave" "Abcdef1!" "Abcdef1!")) =
    mkResponse "1" "Registration successful. You are now logged in!".
Proof.
  intros db1 db2 db3. split.
  - pose proof (Register_twice example_hashpw example_checkpw example_db "s" "t"
                  (mkRegisterRequest "dave" "Abcdef1!" "Abcdef1!")
                  (mkRegisterRequest " dave " "Other_9x" "Other_9x") []
                  eq_refl eq_refl (Forall_nil _)) as H.
    cbv zeta in H. destruct H as (_ & H1 & H2 & _). subst db1.
    rewrite (surjective_pairing (Register example_hashpw _ "t" _)).
    cbn [serve_calls fold_left] in H1, H2.
    rewrite H1, H2; [reflexivity | discriminate | discriminate].
  - assert (Hcalls : Forall (fun c => ~ removes "dave" c)
                       [CallLogoff (mkLogoffRequest "dave");
                        CallDeactivateAccount [mkConfirmRequest "bob" "yes"]]).
    { constructor; [intros []|]. constructor; [|constructor].
      intros [E _]. discriminate E. }
    pose proof (Register_twice example_hashpw example_checkpw example_db "s" "t"
                  (mkRegisterRequest "dave" "Abcdef1!" "Abcdef1!")
                  (mkRegisterRequest " dave " "Other_9x" "Other_9x") _
                  eq_refl eq_refl Hcalls) as H.
    cbv zeta in H. destruct H as (_ & H1 & H2 & H3). split.
    + subst db2 db1.
      rewrite (surjective_pairing (Register example_hashpw _ "t" _)).
      rewrite H1, H2; [reflexivity | discriminate | discriminate].
    + apply (H3 (mkConfirmRequest " dave" " YES ") []).
      split; reflexivity.
Defined.

(** A user called "Welcome" who mistypes the password is not let in;
    dave's registration is read as a success and his row is stored, a
    second one is not and stores nothing; bob's deactivation is read as
    done and his row is gone. *)
Lemma client_reads_outcome_example :
  let db := insert_user example_db "Welcome" "digest-w" in
  let reg := Register example_hashpw example_db "s"
               (mkRegisterRequest "dave" "Abcdef1!" "Abcdef1!") in
  let again := Register example_hashpw (snd reg) "t"
                 (mkRegisterRequest "dave" "Abcdef1!" "Abcdef1!") in
  let bye := DeactivateAccount example_db [mkConfirmRequest "bob" "yes"] in
  login_accepted (fst (Login example_checkpw db (mkLoginRequest "Welcome" "nope"))) = false /\
  login_accepted (fst (Login example_checkpw db (mkLoginRequest "Welcome" "digest-w"))) = true /\
  In (mkUser "dave" "$2b$s$Abcdef1!" true) (users (snd reg)) /\
  snd again = snd reg /\
  map u_username (users (final bye)) = ["alice"; "carol"].
Proof.
  intros db reg again bye.
  pose proof (client_reads_outcome example_hashpw example_checkpw db) as (Hlogin & _).
  pose proof (client_reads_outcome example_hashpw example_checkpw example_db)
    as (_ & Hreg & Hbye).
  pose proof (client_reads_outcome example_hashpw example_checkpw (snd reg))
    as (_ & Hagain & _).
  split; [|split; [|split; [|split]]].
  - pose proof (Hlogin (mkLoginRequest "Welcome" "nope")) as H. cbv zeta in H.
    destruct H as (H & _).
    destruct (login_accepted _) eqn:E; [|reflexivity].
    destruct (proj1 H eq_refl) as [_ E']. vm_compute in E'. discriminate E'.
  - pose proof (Hlogin (mkLoginRequest "Welcome" "digest-w")) as H. cbv zeta in H.
    destruct H as (H & _). apply H. split; [|reflexivity].
    apply checkRealUsername_iff. reflexivity.
  - pose proof (Hreg "s" (mkRegisterRequest "dave" "Abcdef1!" "Abcdef1!")) as H.
    cbv zeta in H. destruct H as (_ & H & _).
    destruct (H eq_refl) as (_ & _ & Hin). exact Hin.
  - pose proof (Hagain "t" (mkRegisterRequest "dave" "Abcdef1!" "Abcdef1!")) as H.
    cbv zeta in H. destruct H as (_ & _ & H). apply H. reflexivity.
  - pose proof (Hbye [mkConfirmRequest "bob" "yes"]) as H.
    cbv zeta in H. destruct H as (_ & H & _).
    destruct (H eq_refl) as (req & rest & Hturns & Hfinal).
    injection Hturns as <- <-. unfold bye. rewrite Hfinal. reflexivity.
Defined.

(** Alice reads bob's messages: carol's message to alice stays unread,
    and alice's own message to bob is not touched. *)
Lemma CheckMessages_effect_example :
  let turns := [mkCheckMessagesRequest "alice" "" "";
                mkCheckMessagesRequest "alice" "1" "";
                mkCheckMessagesRequest "alice" "" "bob"] in
  In (example_message 2 "alice" "carol" "c2" false)
     (messages (final (CheckMessages example_db turns))) /\
  In (example_message 9 "bob" "alice" "a9" false)
     (messages (final (CheckMessages example_db turns))) /\
  users (final (CheckMessages example_db turns)) = users example_db.
Proof.
  intros turns.
  pose proof (CheckMessages_effect example_db turns) as H. cbv zeta in H.
  destruct H as (_ & Hu & _ & _ & _ & [Hsame|Hread]).
  - rewrite Hsame. split; [vm_compute; tauto|]. split; [vm_compute; tauto | reflexivity].
  - destruct Hread as (first & rest & req & Hr & Hin & _ & _ & _ & Hkeep).
    injection Hr as <- <-.
    assert (Hreq : Py.strip (req_sender req) = "" \/ Py.strip (req_sender req) = "bob").
    { destruct Hin as [<-|[<-|[]]]; [left | right]; reflexivity. }
    destruct example_db_store_wf as [Hnd _].
    split; [|split; [|exact Hu]].
    + apply (Hkeep Hnd); [vm_compute; tauto|]. right.
      cbn [sender example_message]. destruct Hreq as [->| ->]; discriminate.
    + apply (Hkeep Hnd); [vm_compute; tauto|]. left. discriminate.
Defined.

(** Bob takes back nothing, alice reads bob's messages, bob leaves and a
    message is sent to carol: message 2 is still what it was, and the
    new message has the id 10. *)
Lemma serve_calls_messages_example :
  let calls :=
    [CallCheckMessages [mkCheckMessagesRequest "alice" "" "";
                        mkCheckMessagesRequest "alice" "1" "";
                        mkCheckMessagesRequest "alice" "" "bob"];
     CallDeactivateAccount [mkConfirmRequest "bob" "yes"];
     CallSendMessage noon [("username", "alice")]
       (mkGeneralMessage "sendmessage" "@carol hello")] in
  let db' := serve_calls example_hashpw example_checkpw example_db calls in
  store_wf db' /\
  map messageid (messages db') = [2%Z; 9%Z; 10%Z] /\
  exists m, In m (messages example_db) /\
            later_state m (example_message 2 "alice" "carol" "c2" false).
Proof.
  intros calls db'.
  pose proof (serve_calls_messages example_hashpw example_checkpw calls example_db
                example_db_store_wf) as H.
  cbv zeta in H. destruct H as (Hwf & _ & Hold).
  split; [exact Hwf|]. split; [reflexivity|].
  apply Hold; [vm_compute; tauto | reflexivity].
Defined.

(** After dave registers, carol logs off and bob leaves, the usernames
    are still keys. *)
Lemma serve_calls_users_example :
  users_wf (serve_calls example_hashpw example_checkpw example_db
              [CallRegister "s" (mkRegisterRequest " dave" "Abcdef1!" "Abcdef1!");
               CallLogoff (mkLogoffRequest "carol");
               CallDeactivateAccount [mkConfirmRequest "bob" "yes"]]).
Proof.
  apply (serve_calls_users example_hashpw example_checkpw). exact example_db_users_wf.
Defined.

(** Alice is offered bob(6) and carol(1), seven in all.  The turn that
    names " bob " delivers six messages, all from bob; "dave" is not on
    the list and is answered accordingly.  In a store where the only
    unread message came from the sender " bob " (with the spaces), that
    sender is listed with count one, and the turn that names it delivers
    nothing. *)
Lemma triage_senders_offered_example :
  let info := select_unread_senders example_db (Some "alice") in
  let turn db req := loop_body db (mkLocals (Some "alice") AwaitSender) req in
  let padded := mkStore [mkUser "alice" "digest-a" true]
                        [example_message 1 "alice" " bob " "m1" false] 2 in
  info = [("bob", 6); ("carol", 1)] /\
  total_count info = select_unread_count example_db "alice" /\
  length (select_unread_from example_db (Some "alice") "bob") = 6 /\
  length (deliveries (yields (fst (fst (fst
    (turn example_db (mkCheckMessagesRequest "alice" "" " bob "))))))) = 6 /\
  Forall (fun r => cm_sender r = "bob")
    (deliveries (yields (fst (fst (fst
       (turn example_db (mkCheckMessagesRequest "alice" "" " bob "))))))) /\
  turn example_db (mkCheckMessagesRequest "alice" "" " dave") =
    ([Yield (say "No unread messages from dave.")], Break,
     mkLocals (Some "alice") AwaitSender, example_db) /\
  select_unread_senders padded (Some "alice") = [(" bob ", 1)] /\
  deliveries (yields (fst (fst (fst
    (turn padded (mkCheckMessagesRequest "alice" "" " bob ")))))) = [].
Proof.
  intros info turn padded.
  pose proof (triage_senders_offered example_db (mkLocals (Some "alice") AwaitChoice)
                (mkCheckMessagesRequest "alice" " 1" "") "alice"
                eq_refl eq_refl eq_refl) as H.
  cbv zeta in H. destruct H as (Ht & _ & Hcount & _ & _ & Hlisted & _ & Hnot).
  pose proof (triage_senders_offered padded (mkLocals (Some "alice") AwaitChoice)
                (mkCheckMessagesRequest "alice" "1" "") "alice"
                eq_refl eq_refl eq_refl) as H'.
  cbv zeta in H'. destruct H' as (_ & _ & _ & _ & Hdel & _).
  assert (Hbob : In ("bob", 6) (select_unread_senders example_db (Some "alice")))
    by (left; reflexivity).
  destruct (Hlisted "bob" 6 (mkCheckMessagesRequest "alice" "" " bob ") Hbob
              ltac:(discriminate) eq_refl) as [Hlen Hall].
  split; [reflexivity|]. split; [exact Ht|]. split; [apply (Hcount "bob" 6 Hbob)|].
  split; [exact Hlen|]. split; [exact Hall|]. split.
  - apply (Hnot (mkCheckMessagesRequest "alice" "" " dave")); [discriminate|].
    vm_compute. intuition discriminate.
  - split; [reflexivity|].
    unfold turn. rewrite (Hdel (mkCheckMessagesRequest "alice" "" " bob ")).
    reflexivity.
Defined.

(** Alice's conversation about bob's six messages; one unread message,
    carol's, is left. *)
Lemma triage_conversation_example :
  let run := CheckMessages example_db
               [mkCheckMessagesRequest "alice" "" "";
                mkCheckMessagesRequest "alice" "1" "";
                mkCheckMessagesRequest "alice" "" "bob";
                mkCheckMessagesRequest "alice" "" "carol"] in
  consumed run = 3 /\ broke run = true /\
  select_unread_count (final run) "alice" = 1 /\
  select_unread_from (final run) (Some "alice") "bob" = [].
Proof.
  intros run.
  assert (Hmsgs : select_unread_from example_db (Some "alice") "bob" <> [])
    by (vm_compute; discriminate).
  assert (Hu : "alice" <> "") by discriminate.
  assert (Hb : "bob" <> "") by discriminate.
  pose proof (triage_conversation example_db
                (mkCheckMessagesRequest "alice" "" "")
                (mkCheckMessagesRequest "alice" "1" "")
                (mkCheckMessagesRequest "alice" "" "bob")
                [mkCheckMessagesRequest "alice" "" "carol"]
                Hu eq_refl Hb Hmsgs) as H.
  cbv zeta in H. destruct H as (_ & Hrun & Hgone & _ & Hleft).
  destruct example_db_store_wf as [Hnd _].
  split; [unfold run; rewrite Hrun; reflexivity|].
  split; [unfold run; rewrite Hrun; reflexivity|].
  split; [exact (eq_trans (Hleft Hnd) eq_refl) | exact Hgone].
Defined.

(** Alice has a message from the user "2"; typing "2" when asked for the
    sender does not deliver it. *)
Lemma client_cannot_choose_numeric_sender_example :
  let from2 := example_message 11 "alice" "2" "from two" false in
  let db := mkStore (users example_db) (messages example_db ++ [from2]) 12 in
  In from2 (messages (final (CheckMessages db
     (request_generator "alice" (bidi_queue ["1"; " 2 "; "2"]))))).
Proof.
  intros from2 db.
  pose proof (client_cannot_choose_numeric_sender db "alice" ["1"; " 2 "; "2"]) as H.
  cbv zeta in H. destruct H as (_ & _ & H).
  apply H.
  - repeat (constructor; [cbn; intuition discriminate|]). constructor.
  - vm_compute. tauto.
  - right. left. reflexivity.
Defined.

(** Carol types "delete" and then "yes": her message 2 is still there. *)
Lemma client_confirmation_is_never_read_example :
  final (DeleteLastMessage example_db (request_gen "carol" [" "; "Yes"])) = example_db /\
  length (request_gen "carol" [" "; "Yes"]) = 2 /\
  consumed (DeleteLastMessage example_db (request_gen "carol" [" "; "Yes"])) = 1.
Proof.
  pose proof (client_confirmation_is_never_read example_db "carol" [" "; "Yes"])
    as (Hd & _ & H).
  destruct (H "Yes" eq_refl) as (Hlen & Hc & _).
  split; [rewrite Hd; reflexivity|]. split; assumption.
Defined.

(** "ann lee" registers; "@ann lee hi" is for a user "ann", whom nobody
    is, and after it no message is addressed to "ann lee". *)
Lemma no_message_for_spaced_names_example :
  let db := snd (Register example_hashpw example_db "s"
                   (mkRegisterRequest "ann lee" "Abcdef1!" "Abcdef1!")) in
  user_exists db "ann lee" /\
  forall m', In m' (messages (serve_calls example_hashpw example_checkpw db
                      [CallSendMessage noon [("username", "bob")]
                         (mkGeneralMessage "sendmessage" "@ann lee hi")])) ->
             receiver m' <> "ann lee".
Proof.
  intros db. split.
  - pose proof (no_message_for_spaced_names example_hashpw example_checkpw example_db)
      as (_ & _ & H).
    apply (H "s" (mkRegisterRequest "ann lee" "Abcdef1!" "Abcdef1!"));
      [discriminate | apply example_db_absent; reflexivity | reflexivity | reflexivity].
  - intros m' Hm Hr.
    pose proof (no_message_for_spaced_names example_hashpw example_checkpw db)
      as (_ & H & _).
    destruct (H _ m' Hm) as (m & Hin & Hl); [rewrite Hr; reflexivity|].
    apply later_state_receiver in Hl. rewrite Hr in Hl.
    vm_compute in Hin.
    repeat (destruct Hin as [<-|Hin]; [discriminate Hl|]). destruct Hin.
Defined.

(** Alice sends carol a message and takes it back. *)
Lemma SendMessage_then_DeleteLastMessage_example :
  let db1 := snd (SendMessage example_db noon [("username", "alice")]
                    (mkGeneralMessage "sendmessage" "@carol sorry")) in
  length (messages db1) = 10 /\
  messages (final (DeleteLastMessage db1 [mkConfirmRequest "alice" "YES"])) =
    messages example_db.
Proof.
  intros db1. split; [reflexivity|].
  pose proof (SendMessage_then_DeleteLastMessage example_db noon [("username", "alice")]
                (mkGeneralMessage "sendmessage" "@carol sorry")
                (mkConfirmRequest "alice" "YES") []
                example_db_store_wf eq_refl eq_refl eq_refl) as H.
  cbv zeta in H. destruct H as (_ & _ & H & _). exact H.
Defined.

(** Bob leaves and a new bob registers: alice's unread message 9 to the
    old bob is offered to the new one. *)
Lemma name_reuse_inherits_inbox_example :
  let db1 := final (DeactivateAccount example_db [mkConfirmRequest "bob" "yes"]) in
  let db2 := snd (Register example_hashpw db1 "s"
                    (mkRegisterRequest "bob" "Newbob_1" "Newbob_1")) in
  user_exists db2 "bob" /\
  select_unread_count db2 "bob" = 1 /\
  In (example_message 9 "bob" "alice" "a9" false)
     (select_unread_from db2 (Some "bob") "alice").
Proof.
  intros db1 db2.
  pose proof (name_reuse_inherits_inbox example_hashpw example_db
                (mkConfirmRequest "bob" "yes") [] "s"
                (mkRegisterRequest "bob" "Newbob_1" "Newbob_1") eq_refl eq_refl) as H.
  cbv zeta in H. destruct H as (_ & _ & Hc & Hin).
  split; [apply checkRealUsername_iff; reflexivity|].
  split; [exact (eq_trans Hc eq_refl)|].
  apply (Hin (example_message 9 "bob" "alice" "a9" false));
    [vm_compute; tauto | reflexivity | discriminate | reflexivity].
Defined.

(** Alice's search lists two of the three users; a stranger's lists all
    three. *)
Lemma SearchUsers_count_example :
  length (sr_usernames (SearchUsers (Some example_db) (mkSearchRequest "alice "))) = 2 /\
  sr_usernames (SearchUsers (Some example_db) (mkSearchRequest "zed")) =
    ["alice"; "bob"; "carol"].
Proof.
  destruct example_db_users_wf as [Hnd _]. split.
  - pose proof (SearchUsers_count example_db (mkSearchRequest "alice ") Hnd) as H.
    cbv zeta in H. destruct H as (_ & H & _).
    apply eq_add_S. rewrite H; [reflexivity | apply example_db_exists; reflexivity].
  - pose proof (SearchUsers_count example_db (mkSearchRequest "zed") Hnd) as H.
    cbv zeta in H. destruct H as (_ & _ & H).
    rewrite H; [reflexivity | apply example_db_absent; reflexivity].
Defined.

(* ================================================================= *)
(** ** Registration through the client's form *)

(** X17. A registration that the client's form lets through is decided
    by the server on the name and the password policy alone: the
    answers "All fields are required" and "Passwords do not match." do
    not occur.  A taken name is refused as taken; a free name with a
    password against the policy is refused as invalid; otherwise the
    account is stored under the stripped name, and the client's test
    for "successful" holds exactly then. *)
Theorem handle_register_then_Register (hashpw : string -> string -> string)
    (db : Store) (salt : string)
    (username_var password_var confirm_var : string) (request : RegisterRequest) :
  handle_register username_var password_var confirm_var = inr request ->
  let u := Py.strip username_var in
  let p := Py.strip password_var in
  let out := Register hashpw db salt request in
  request = mkRegisterRequest u p p /\
  (user_exists db u ->
     out = (mkResponse "1" "Username taken. Please choose another.", db)) /\
  (~ user_exists db u -> checkValidPassword p = false ->
     out = (mkResponse "1"
              "Invalid password: Must be >=7 chars, include uppercase, digit, and special char.",
            db)) /\
  (~ user_exists db u -> checkValidPassword p = true ->
     out = (mkResponse "1" "Registration successful. You are now logged in!",
            insert_user db u (hashpw p salt))) /\
  (register_accepted (fst out) = true <->
     ~ user_exists db u /\ checkValidPassword p = true).
Proof.
  intros H u p out. unfold handle_register in H. fold u p in H.
  destruct (String.eqb_spec u "") as [Eu|Eu]; cbn [orb] in H; [discriminate|].
  destruct (String.eqb_spec p "") as [Ep|Ep]; cbn [orb] in H; [discriminate|].
  destruct (String.eqb_spec (Py.strip confirm_var) "") as [Ec|Ec]; [discriminate|].
  destruct (String.eqb_spec p (Py.strip confirm_var)) as [Epc|Epc]; cbn [negb] in H;
    [|discriminate].
  injection H as <-. rewrite <- Epc.
  split; [reflexivity|].
  assert (Hout : out =
            if checkRealUsername db u
            then (mkResponse "1" "Username taken. Please choose another.", db)
            else if checkValidPassword p
            then (mkResponse "1" "Registration successful. You are now logged in!",
                  insert_user db u (hashpw p salt))
            else (mkResponse "1"
                    "Invalid password: Must be >=7 chars, include uppercase, digit, and special char.",
                  db)).
  { unfold out, Register. cbn [reg_username reg_password reg_confirm_password].
    rewrite <- Epc. unfold u, p. rewrite !strip_idempotent. fold u p.
    apply String.eqb_neq in Eu, Ep. rewrite Eu, Ep. cbn [orb].
    destruct (checkRealUsername db u); [reflexivity|].
    destruct (checkValidPassword p); cbn [negb]; [|reflexivity].
    rewrite String.eqb_refl. reflexivity. }
  rewrite Hout. rewrite <- checkRealUsername_iff.
  destruct (checkRealUsername db u); cbn [fst].
  - split; [reflexivity|]. split; [intros H; contradiction H; reflexivity|].
    split; [intros H; contradiction H; reflexivity|].
    split; [discriminate | intros [H _]; contradiction H; reflexivity].
  - split; [discriminate|].
    destruct (checkValidPassword p); cbn [fst].
    + split; [discriminate|]. split; [reflexivity|].
      split; [intros _; split; [discriminate | reflexivity] | reflexivity].
    + split; [reflexivity|]. split; [discriminate|].
      split; [discriminate | intros [_ H]; discriminate H].
Qed.

(** The form refuses a mismatch itself; what it sends for dave is
    stored, and alice's name is refused as taken. *)
Lemma handle_register_then_Register_example :
  handle_register "dave" "Abcdef1!" "Abcdef1?" = inl "Passwords do not match." /\
  (forall request, handle_register " dave " "Abcdef1! " "Abcdef1!" = inr request ->
     snd (Register example_hashpw example_db "s" request) =
       insert_user example_db "dave" "$2b$s$Abcdef1!") /\
  (forall request, handle_register "alice" "Abcdef1!" "Abcdef1!" = inr request ->
     Register example_hashpw example_db "s" request =
       (mkResponse "1" "Username taken. Please choose another.", example_db)).
Proof.
  split; [reflexivity|]. split.
  - intros request Hr.
    pose proof (handle_register_then_Register example_hashpw example_db "s"
                  " dave " "Abcdef1! " "Abcdef1!" request Hr) as H.
    cbv zeta in H. destruct H as (_ & _ & _ & H & _).
    rewrite H; [reflexivity | apply example_db_absent; reflexivity | reflexivity].
  - intros request Hr.
    pose proof (handle_register_then_Register example_hashpw example_db "s"
                  "alice" "Abcdef1!" "Abcdef1!" request Hr) as H.
    cbv zeta in H. destruct H as (_ & H & _).
    apply H. apply example_db_exists. reflexivity.
Defined.
